(** * Restaurant point-of-sale: order lifecycle, delegation and reporting gate

    A shallow embedding of the order handlers of [app/pos/views.py] and of
    the model classes of [app/models.py] they call, with the properties of
    the order state machine, the transfer protocol, the logout gate, the PIN
    records and the branch order counter.

    Conventions.
    - A table is the list of its rows, in insertion order; a primary key is a
      [Z]; a nullable column is an [option].
    - [datetime] values are instants in seconds ([Z]); [func.date] is the day
      number of the instant.
    - Money ([Numeric(10, 2)] columns and the JSON amounts of a request) is
      counted in hundredths, as a [Z].
    - A handler takes the request context (the logged-in user, the clock) and
      the database, and returns the database it leaves behind together with
      its JSON response.  [db.session.rollback()] returns the database the
      handler was given.
    - [socketio.emit] calls, [print] calls, the free text of audit
      descriptions, and the request fields that no modelled query reads
      ([customer_id], [delivery_company_id], [return_to]) are not part of
      the model. *)

From Stdlib Require Import ZArith List String Bool Lia Ascii DecimalString.
Import ListNotations.
Open Scope string_scope.
Open Scope Z_scope.

(** ** Python values used by the handlers *)

(** [str(n)] and [f"{n}"] for an integer. *)
Definition str (n : Z) : string := NilZero.string_of_int (Z.to_int n).

(** [needle in hay], which is also what SQL [LIKE '%needle%'] and
    SQLAlchemy's [contains] decide for a needle without wildcard characters
    (case-sensitive, as on PostgreSQL). *)
Fixpoint contains (hay needle : string) : bool :=
  String.prefix needle hay ||
  match hay with
  | EmptyString => false
  | String _ rest => contains rest needle
  end.

(** Truthiness of an optional integer: [None] and [0] are falsy. *)
Definition truthy_int (v : option Z) : bool :=
  match v with
  | Some n => negb (n =? 0)
  | None => false
  end.

(** Truthiness of an optional string: [None] and [''] are falsy. *)
Definition truthy_str (v : option string) : bool :=
  match v with
  | Some EmptyString => false
  | Some _ => true
  | None => false
  end.

(** [a == b] on nullable integer columns, Python or SQL: a NULL is equal to
    no integer. *)
Definition col_eqb (a : option Z) (b : Z) : bool :=
  match a with
  | Some x => x =? b
  | None => false
  end.

(** [func.date(t)]: the calendar day of an instant. *)
Definition date (t : Z) : Z := t / 86400.

(** The rendering of an instant by [strftime]. *)
Definition strftime (t : Z) : string := str t.

(** The outcome of a [try] body: a value, or the exception it raised. *)
Inductive Exc (A : Type) : Type :=
| Ok (a : A)
| Raise (e : string).
Arguments Ok {A} a.
Arguments Raise {A} e.

Definition bind {A B : Type} (m : Exc A) (k : A -> Exc B) : Exc B :=
  match m with
  | Ok a => k a
  | Raise e => Raise e
  end.

Notation "x <- m ;; k" := (bind m (fun x => k))
  (at level 61, m at next level, right associativity).

(** [d[key]] on a key that may be absent from a JSON object. *)
Definition subscript {A : Type} (key : string) (v : option A) : Exc A :=
  match v with
  | Some a => Ok a
  | None => Raise ("KeyError: " ++ key)
  end.

(** [row = query.filter(p).first(); row.attributes = ...]: the row that
    [first()] loaded is written back where it stands. *)
Fixpoint update_first {A : Type} (p : A -> bool) (f : A -> A) (table : list A)
  : list A :=
  match table with
  | [] => []
  | r :: rest => if p r then f r :: rest else r :: update_first p f rest
  end.

(** [for row in query.filter(p).all(): row.attributes = ...]: every loaded
    row is written back where it stands. *)
Definition update_where {A : Type} (p : A -> bool) (f : A -> A) (table : list A)
  : list A :=
  map (fun r => if p r then f r else r) table.

(** ** Enumerations of [app/models.py] *)

Module UserRole.
Inductive t := SUPER_USER | BRANCH_ADMIN | MANAGER | CASHIER | WAITER | KITCHEN.
Scheme Equality for t.
Definition eqb := t_beq.
End UserRole.

Module PaymentMethod.
Inductive t := CASH | CARD | QR_CODE.
Scheme Equality for t.
Definition eqb := t_beq.
End PaymentMethod.

Module ServiceType.
Inductive t := ON_TABLE | TAKE_AWAY | DELIVERY | CARD.
Scheme Equality for t.
Definition eqb := t_beq.
End ServiceType.

Module OrderStatus.
Inductive t := PENDING | PAID | CANCELLED.
Scheme Equality for t.
Definition eqb := t_beq.
End OrderStatus.

(** [column == VALUE] on a nullable enumeration column. *)
Definition is_service (c : option ServiceType.t) (v : ServiceType.t) : bool :=
  match c with
  | Some x => ServiceType.eqb x v
  | None => false
  end.

Definition is_payment (c : option PaymentMethod.t) (v : PaymentMethod.t) : bool :=
  match c with
  | Some x => PaymentMethod.eqb x v
  | None => false
  end.

(** ** Model classes *)

Module User.
Record t := mk {
  id : Z;
  first_name : string;
  last_name : string;
  role : UserRole.t;
  branch_id : option Z
}.

Definition get_full_name (u : t) : string :=
  first_name u ++ " " ++ last_name u.
End User.

Module Order.
Record t := mk {
  id : Z;
  order_number : string;
  order_counter : option Z;
  total_amount : Z;
  payment_method : option PaymentMethod.t;
  service_type : option ServiceType.t;
  status : OrderStatus.t;
  notes : option string;
  created_at : Z;
  paid_at : option Z;
  cleared_from_waiter_requests : bool;
  last_edited_at : option Z;
  last_edited_by : option Z;
  edit_count : option Z;
  branch_id : Z;
  cashier_id : option Z;
  assigned_cashier_id : option Z;
  table_id : option Z
}.

Definition set_paid (now : Z) (o : t) : t :=
  mk (id o) (order_number o) (order_counter o) (total_amount o)
     (payment_method o) (service_type o) OrderStatus.PAID (notes o) (created_at o)
     (Some now) (cleared_from_waiter_requests o) (last_edited_at o)
     (last_edited_by o) (edit_count o) (branch_id o) (cashier_id o)
     (assigned_cashier_id o) (table_id o).

Definition set_transfer (target : Z) (new_notes : string) (o : t) : t :=
  mk (id o) (order_number o) (order_counter o) (total_amount o)
     (payment_method o) (service_type o) (status o) (Some new_notes)
     (created_at o) (paid_at o) (cleared_from_waiter_requests o)
     (last_edited_at o) (last_edited_by o) (edit_count o) (branch_id o)
     (cashier_id o) (Some target) (table_id o).

Definition set_edited (total now editor count : Z) (o : t) : t :=
  mk (id o) (order_number o) (order_counter o) total
     (payment_method o) (service_type o) (status o) (notes o)
     (created_at o) (paid_at o) (cleared_from_waiter_requests o)
     (Some now) (Some editor) (Some count) (branch_id o)
     (cashier_id o) (assigned_cashier_id o) (table_id o).

Definition set_items_added (total : Z) (new_notes : string) (o : t) : t :=
  mk (id o) (order_number o) (order_counter o) total
     (payment_method o) (service_type o) (status o) (Some new_notes)
     (created_at o) (paid_at o) (cleared_from_waiter_requests o)
     (last_edited_at o) (last_edited_by o) (edit_count o) (branch_id o)
     (cashier_id o) (assigned_cashier_id o) (table_id o).
End Order.

Module OrderItem.
Record t := mk {
  id : Z;
  order_id : Z;
  menu_item_id : Z;
  quantity : Z;
  unit_price : Z;
  total_price : Z;
  notes : option string;
  special_requests : option string;
  is_new : bool;
  is_deleted : bool
}.
End OrderItem.

Module OrderEditHistory.
Record t := mk {
  order_id : Z;
  edited_by : Z;
  edited_at : Z;
  original_total : Z;
  new_total : Z;
  changes_summary : string
}.
End OrderEditHistory.

Module AuditLog.
Record t := mk {
  user_id : Z;
  action : string;
  created_at : Z
}.
End AuditLog.

Module MenuItem.
Record t := mk {
  id : Z;
  name : string;
  price : Z
}.
End MenuItem.

Module CashierSession.
Record t := mk {
  id : Z;
  session_id : string;
  login_date : Z;
  initial_order_count : Z;
  current_order_count : Z;
  daily_report_printed : bool;
  report_printed_at : option Z;
  last_activity : Z;
  is_active : bool;
  branch_id : Z;
  cashier_id : Z
}.

Definition has_completed_orders (s : t) : bool :=
  initial_order_count s <? current_order_count s.

Definition needs_daily_report (s : t) : bool :=
  has_completed_orders s && negb (daily_report_printed s).

(** The assignments of [update_order_count]. *)
Definition update_order_count (count now : Z) (s : t) : t :=
  mk (id s) (session_id s) (login_date s) (initial_order_count s) count
     (daily_report_printed s) (report_printed_at s) now (is_active s)
     (branch_id s) (cashier_id s).

(** The assignments of [mark_report_printed]. *)
Definition mark_report_printed (now : Z) (s : t) : t :=
  mk (id s) (session_id s) (login_date s) (initial_order_count s)
     (current_order_count s) true (Some now) now (is_active s)
     (branch_id s) (cashier_id s).

Definition set_branch_id (b : Z) (s : t) : t :=
  mk (id s) (session_id s) (login_date s) (initial_order_count s)
     (current_order_count s) (daily_report_printed s) (report_printed_at s)
     (last_activity s) (is_active s) b (cashier_id s).
End CashierSession.

Module OrderCounter.
Record t := mk {
  branch_id : Z;
  current_counter : Z;
  last_reset_date : option Z;
  updated_at : Z
}.

Definition for_branch (b : Z) (c : t) : bool := branch_id c =? b.

(** [cls.query.filter_by(branch_id=branch_id).first()]. *)
Definition load (b : Z) (table : list t) : option t :=
  find (for_branch b) table.

(** What [get_next_counter] does with the record it loaded, up to its
    [flush()] and [return]: without a record it inserts one at 1 (the
    unique constraint [unique_counter_per_branch] refuses a second row for
    the branch); with a record it adds one to the value that was loaded
    and writes that value to the row. *)
Definition increment_and_flush (now b : Z) (counter_record : option t)
  (table : list t) : Exc (list t * Z) :=
  match counter_record with
  | None =>
      if existsb (for_branch b) table then Raise "IntegrityError"
      else Ok ((table ++ [mk b 1 None now])%list, 1)
  | Some loaded =>
      let value := current_counter loaded + 1 in
      Ok (update_first (for_branch b)
            (fun row => mk (branch_id row) value (last_reset_date row) now)
            table,
          value)
  end.

Definition get_next_counter (now b : Z) (table : list t) : Exc (list t * Z) :=
  increment_and_flush now b (load b table) table.
End OrderCounter.

Module WaiterCashierAssignment.
Record t := mk {
  waiter_id : Z;
  branch_id : Z;
  assigned_cashier_id : Z;
  assigned_by_cashier_id : option Z
}.

Definition get_assignment_for_waiter (waiter branch : Z) (table : list t)
  : option t :=
  find (fun a => (waiter_id a =? waiter) && (branch_id a =? branch)) table.
End WaiterCashierAssignment.

(** ** The database *)

Record DB := mkDB {
  users : list User.t;
  orders : list Order.t;
  order_items : list OrderItem.t;
  order_edit_history : list OrderEditHistory.t;
  audit_logs : list AuditLog.t;
  menu_items : list MenuItem.t;
  cashier_sessions : list CashierSession.t;
  order_counters : list OrderCounter.t;
  waiter_cashier_assignments : list WaiterCashierAssignment.t
}.

Definition with_orders (os : list Order.t) (db : DB) : DB :=
  mkDB (users db) os (order_items db) (order_edit_history db) (audit_logs db)
       (menu_items db) (cashier_sessions db) (order_counters db)
       (waiter_cashier_assignments db).

Definition with_order_items (its : list OrderItem.t) (db : DB) : DB :=
  mkDB (users db) (orders db) its (order_edit_history db) (audit_logs db)
       (menu_items db) (cashier_sessions db) (order_counters db)
       (waiter_cashier_assignments db).

Definition with_order_edit_history (h : list OrderEditHistory.t) (db : DB) : DB :=
  mkDB (users db) (orders db) (order_items db) h (audit_logs db)
       (menu_items db) (cashier_sessions db) (order_counters db)
       (waiter_cashier_assignments db).

Definition with_audit_logs (l : list AuditLog.t) (db : DB) : DB :=
  mkDB (users db) (orders db) (order_items db) (order_edit_history db) l
       (menu_items db) (cashier_sessions db) (order_counters db)
       (waiter_cashier_assignments db).

Definition with_cashier_sessions (l : list CashierSession.t) (db : DB) : DB :=
  mkDB (users db) (orders db) (order_items db) (order_edit_history db)
       (audit_logs db) (menu_items db) l (order_counters db)
       (waiter_cashier_assignments db).

Definition with_order_counters (l : list OrderCounter.t) (db : DB) : DB :=
  mkDB (users db) (orders db) (order_items db) (order_edit_history db)
       (audit_logs db) (menu_items db) (cashier_sessions db) l
       (waiter_cashier_assignments db).

(** [Model.query.get(id)] and [filter_by(id=...).first()]. *)
Definition User_get (db : DB) (uid : Z) : option User.t :=
  find (fun u => User.id u =? uid) (users db).

Definition Order_get (db : DB) (oid : Z) : option Order.t :=
  find (fun o => Order.id o =? oid) (orders db).

(** Writing back the attributes of the order loaded by [Order_get]. *)
Definition Order_update (oid : Z) (f : Order.t -> Order.t) (db : DB) : DB :=
  with_orders (update_first (fun o => Order.id o =? oid) f (orders db)) db.

(** The request context: [current_user], [datetime.utcnow()], and whether the
    database answers (a query on an unreachable database raises);
    [localnow] is the wall clock read by [datetime.now()] and by
    [TimezoneManager.get_current_time()]; [random_choices] is the four
    characters drawn by [generate_order_number]. *)
Record Ctx := mkCtx {
  current_user : User.t;
  utcnow : Z;
  localnow : Z;
  random_choices : string;
  db_reachable : bool
}.

Definition execute {A : Type} (ctx : Ctx) (result : A) : Exc A :=
  if db_reachable ctx then Ok result else Raise "OperationalError".

(** ** JSON responses *)

Inductive JSON :=
| JNull
| JBool (b : bool)
| JInt (n : Z)
| JStr (s : string).

(** A response: the JSON object given to [jsonify], and the HTTP status. *)
Definition Response : Type := (list (string * JSON) * Z)%type.

Definition jsonify (body : list (string * JSON)) : Response := (body, 200).

Definition jsonify_status (body : list (string * JSON)) (code : Z) : Response :=
  (body, code).

Fixpoint lookup (key : string) (body : list (string * JSON)) : option JSON :=
  match body with
  | [] => None
  | (k, v) :: rest => if String.eqb k key then Some v else lookup key rest
  end.

Definition field (key : string) (r : Response) : option JSON :=
  lookup key (fst r).

(** ** [mark_order_paid] (pos/views.py) *)

Definition may_mark_paid (r : UserRole.t) : bool :=
  match r with
  | UserRole.CASHIER | UserRole.BRANCH_ADMIN | UserRole.SUPER_USER => true
  | _ => false
  end.

(** [Order.query.get_or_404]: the row, or the [NotFound] exception. *)
Definition get_or_404 (found : option Order.t) : Exc Order.t :=
  match found with
  | Some o => Ok o
  | None => Raise "404 Not Found"
  end.

Definition mark_order_paid_try (ctx : Ctx) (order_id : Z) (db : DB)
  : Exc (DB * Response) :=
  let user := current_user ctx in
  if negb (may_mark_paid (User.role user)) then
    Ok (db, jsonify_status
              [("success", JBool false); ("message", JStr "Access denied")] 403)
  else
    found <- execute ctx (Order_get db order_id) ;;
    order <- get_or_404 found ;;
    if negb (UserRole.eqb (User.role user) UserRole.SUPER_USER)
       && negb (col_eqb (User.branch_id user) (Order.branch_id order)) then
      Ok (db, jsonify_status
                [("success", JBool false);
                 ("message", JStr "Access denied - different branch")] 403)
    else if OrderStatus.eqb (Order.status order) OrderStatus.PAID then
      Ok (db, jsonify_status
                [("success", JBool false);
                 ("message", JStr "Order is already paid")] 400)
    else
      let db' := Order_update order_id (Order.set_paid (utcnow ctx)) db in
      Ok (db', jsonify
                 [("success", JBool true);
                  ("message", JStr "Order marked as paid successfully");
                  ("paid_at", JStr (strftime (utcnow ctx)))]).

Definition mark_order_paid (ctx : Ctx) (order_id : Z) (db : DB) : DB * Response :=
  match mark_order_paid_try ctx order_id db with
  | Ok r => r
  | Raise e =>
      (db, jsonify_status
             [("success", JBool false);
              ("message", JStr ("Error marking order as paid: " ++ e))] 500)
  end.

(** ** Delegated orders: the tag in [Order.notes] *)

Definition newline : string := String (ascii_of_nat 10) EmptyString.

Definition WAITER_TAG : string := "[WAITER ORDER]".

(** [Order.notes.like('%[WAITER ORDER]%')] and
    [Order.notes.contains('[WAITER ORDER]')]: a NULL note matches nothing. *)
Definition notes_like_waiter_order (o : Order.t) : bool :=
  match Order.notes o with
  | Some n => contains n WAITER_TAG
  | None => false
  end.

(** [query.filter(p).count()]. *)
Definition count {A : Type} (p : A -> bool) (table : list A) : Z :=
  Z.of_nat (List.length (filter p table)).

Definition mem (x : Z) (l : list Z) : bool := existsb (Z.eqb x) l.

(** ** [transfer_orders] (pos/views.py) *)

Record TransferRequest := mkTransferRequest {
  order_ids : list Z;
  target_cashier_id : option Z
}.

(** The filter of [orders_to_transfer]. *)
Definition transferable (user : User.t) (ids : list Z) (o : Order.t) : bool :=
  mem (Order.id o) ids
  && col_eqb (Order.assigned_cashier_id o) (User.id user)
  && OrderStatus.eqb (Order.status o) OrderStatus.PENDING
  && notes_like_waiter_order o.

Definition transfer_note (ctx : Ctx) (target : User.t) : string :=
  newline ++ "[TRANSFERRED] From: " ++ User.get_full_name (current_user ctx)
  ++ " to: " ++ User.get_full_name target ++ " at " ++ strftime (localnow ctx).

(** The notes of a selected order are never NULL (the filter matched them). *)
Definition notes_text (o : Order.t) : string :=
  match Order.notes o with
  | Some n => n
  | None => EmptyString
  end.

Definition transfer_one (ctx : Ctx) (target : User.t) (o : Order.t) : Order.t :=
  Order.set_transfer (User.id target) (notes_text o ++ transfer_note ctx target) o.

Definition transfer_audit (ctx : Ctx) (o : Order.t) : AuditLog.t :=
  AuditLog.mk (User.id (current_user ctx)) "ORDER_TRANSFERRED" (utcnow ctx).

Definition transfer_failure (msg : string) : Response :=
  jsonify [("success", JBool false); ("error", JStr msg)].

Definition transfer_orders_try (ctx : Ctx) (data : TransferRequest) (db : DB)
  : Exc (DB * Response) :=
  let user := current_user ctx in
  let ids := order_ids data in
  match ids, truthy_int (target_cashier_id data), target_cashier_id data with
  | _ :: _, true, Some target_id =>
      found <- execute ctx (User_get db target_id) ;;
      match found with
      | None => Ok (db, transfer_failure "Invalid target cashier")
      | Some target_cashier =>
          if negb (match User.branch_id target_cashier, User.branch_id user with
                   | Some a, Some b => a =? b
                   | None, None => true
                   | _, _ => false
                   end)
             || negb (UserRole.eqb (User.role target_cashier) UserRole.CASHIER)
          then Ok (db, transfer_failure "Invalid target cashier")
          else
            orders_to_transfer <-
              execute ctx (filter (transferable user ids) (orders db)) ;;
            if negb (Nat.eqb (List.length orders_to_transfer) (List.length ids)) then
              Ok (db, transfer_failure "Some orders cannot be transferred")
            else
              let transferred_count := Z.of_nat (List.length orders_to_transfer) in
              let db1 :=
                with_orders
                  (update_where (transferable user ids)
                                (transfer_one ctx target_cashier) (orders db)) db in
              let db2 :=
                with_audit_logs
                  (audit_logs db1 ++ map (transfer_audit ctx) orders_to_transfer)%list
                  db1 in
              Ok (db2,
                  jsonify
                    [("success", JBool true);
                     ("message",
                      JStr ("Successfully transferred " ++ str transferred_count
                            ++ " orders to "
                            ++ User.get_full_name target_cashier));
                     ("transferred_count", JInt transferred_count)])
      end
  | _, _, _ => Ok (db, transfer_failure "Missing order IDs or target cashier")
  end.

Definition transfer_orders (ctx : Ctx) (data : TransferRequest) (db : DB)
  : DB * Response :=
  if negb (UserRole.eqb (User.role (current_user ctx)) UserRole.CASHIER) then
    (db, transfer_failure "Only cashiers can transfer orders")
  else
    match transfer_orders_try ctx data db with
    | Ok r => r
    | Raise e => (db, transfer_failure e)
    end.

(** ** [check_logout_permission] (pos/views.py) *)

(** [db.or_(Order.cashier_id == c, Order.assigned_cashier_id == c)]. *)
Definition created_or_assigned (c : Z) (o : Order.t) : bool :=
  col_eqb (Order.cashier_id o) c || col_eqb (Order.assigned_cashier_id o) c.

(** The filter of [latest_report_session]. *)
Definition report_session (c today : Z) (s : CashierSession.t) : bool :=
  (CashierSession.cashier_id s =? c)
  && (CashierSession.login_date s =? today)
  && CashierSession.daily_report_printed s
  && match CashierSession.report_printed_at s with
     | Some _ => true
     | None => false
     end.

(** [order_by(report_printed_at.desc()).first()], on the instants. *)
Fixpoint latest_report_time (rows : list CashierSession.t) : option Z :=
  match rows with
  | [] => None
  | s :: rest =>
      match CashierSession.report_printed_at s, latest_report_time rest with
      | Some t, Some t' => Some (Z.max t t')
      | Some t, None => Some t
      | None, later => later
      end
  end.

Definition unpaid_waiter_order (c : Z) (o : Order.t) : bool :=
  col_eqb (Order.assigned_cashier_id o) c
  && notes_like_waiter_order o
  && OrderStatus.eqb (Order.status o) OrderStatus.PENDING.

Definition json_last_report_time (t : option Z) : JSON :=
  match t with
  | Some x => JStr (strftime x)
  | None => JNull
  end.

(** STEP 5: the response for the counts found. *)
Definition logout_decision (last_report_time : option Z)
  (total_orders_today orders_after_report unpaid_waiter_orders : Z) : Response :=
  let needs_report := 0 <? orders_after_report in
  let has_unpaid_waiter_orders := 0 <? unpaid_waiter_orders in
  if needs_report && has_unpaid_waiter_orders then
    jsonify
      [("success", JBool true);
       ("can_logout", JBool false);
       ("reason",
        JStr ("You have " ++ str orders_after_report
              ++ " orders since your last report AND "
              ++ str unpaid_waiter_orders
              ++ " unpaid waiter orders. You must first process/transfer all unpaid waiter orders, then generate your daily report!"));
       ("orders_today", JInt total_orders_today);
       ("orders_after_report", JInt orders_after_report);
       ("unpaid_waiter_orders", JInt unpaid_waiter_orders);
       ("last_report_time", json_last_report_time last_report_time);
       ("action_required", JStr "both")]
  else if needs_report && negb has_unpaid_waiter_orders then
    jsonify
      [("success", JBool true);
       ("can_logout", JBool false);
       ("reason",
        JStr ("You have " ++ str orders_after_report
              ++ " orders since your last report. Generate your daily report to logout!"));
       ("orders_today", JInt total_orders_today);
       ("orders_after_report", JInt orders_after_report);
       ("unpaid_waiter_orders", JInt unpaid_waiter_orders);
       ("last_report_time", json_last_report_time last_report_time);
       ("action_required", JStr "report")]
  else if negb needs_report && has_unpaid_waiter_orders then
    jsonify
      [("success", JBool true);
       ("can_logout", JBool false);
       ("reason",
        JStr ("You have " ++ str unpaid_waiter_orders
              ++ " unpaid waiter orders. Process all waiter orders or transfer them to another cashier, then generate your daily report!"));
       ("orders_today", JInt total_orders_today);
       ("orders_after_report", JInt orders_after_report);
       ("unpaid_waiter_orders", JInt unpaid_waiter_orders);
       ("last_report_time", json_last_report_time last_report_time);
       ("action_required", JStr "waiter_orders_then_report")]
  else
    jsonify
      [("success", JBool true);
       ("can_logout", JBool true);
       ("reason",
        JStr (match last_report_time with
              | Some _ => "No new orders since last report and no unpaid waiter orders"
              | None => "No orders today"
              end));
       ("orders_today", JInt total_orders_today);
       ("orders_after_report", JInt orders_after_report);
       ("unpaid_waiter_orders", JInt unpaid_waiter_orders);
       ("action_required", JStr "none")].

(** STEP 1, second half: the orders counted since the last report. *)
Definition orders_after_report_filter (c today : Z) (last_report_time : option Z)
  (o : Order.t) : bool :=
  created_or_assigned c o
  && (date (Order.created_at o) =? today)
  && match last_report_time with
     | Some t => t <? Order.created_at o
     | None => true
     end.

Definition check_logout_permission_try (ctx : Ctx) (db : DB) : Exc Response :=
  let today := date (utcnow ctx) in
  let cashier_id := User.id (current_user ctx) in
  last_report_time <-
    execute ctx
      (latest_report_time
         (filter (report_session cashier_id today) (cashier_sessions db))) ;;
  orders_after_report <-
    execute ctx
      (count (orders_after_report_filter cashier_id today last_report_time)
             (orders db)) ;;
  unpaid_waiter_orders <-
    execute ctx (count (unpaid_waiter_order cashier_id) (orders db)) ;;
  total_orders_today <-
    execute ctx
      (count (fun o => created_or_assigned cashier_id o
                       && (date (Order.created_at o) =? today))
             (orders db)) ;;
  Ok (logout_decision last_report_time total_orders_today orders_after_report
                      unpaid_waiter_orders).

Definition check_logout_permission (ctx : Ctx) (db : DB) : Response :=
  if negb (UserRole.eqb (User.role (current_user ctx)) UserRole.CASHIER) then
    jsonify [("success", JBool true); ("can_logout", JBool true)]
  else
    match check_logout_permission_try ctx db with
    | Ok r => r
    | Raise e =>
        jsonify
          [("success", JBool true);
           ("can_logout", JBool true);
           ("reason", JStr "System error - logout allowed")]
    end.

(** ** Daily sessions: [CashierSession.get_or_create_today_session] *)

Definition next_id {A : Type} (id_of : A -> Z) (table : list A) : Z :=
  1 + fold_right (fun r acc => Z.max (id_of r) acc) 0 table.

Definition today_session (c today : Z) (s : CashierSession.t) : bool :=
  (CashierSession.cashier_id s =? c)
  && (CashierSession.login_date s =? today)
  && CashierSession.is_active s.

(** Returns the database (a new session is committed) and the session. *)
Definition get_or_create_today_session (ctx : Ctx) (c : Z) (db : DB)
  : Exc (DB * CashierSession.t) :=
  let today := date (utcnow ctx) in
  found <- execute ctx (find (today_session c today) (cashier_sessions db)) ;;
  match found with
  | Some session => Ok (db, session)
  | None =>
      let initial_count :=
        count (fun o => col_eqb (Order.cashier_id o) c
                        && (date (Order.created_at o) =? today))
              (orders db) in
      let branch :=
        match User_get db c with
        | Some u => match User.branch_id u with Some b => b | None => 0 end
        | None => 0
        end in
      let session :=
        CashierSession.mk
          (next_id CashierSession.id (cashier_sessions db))
          ("cashier_" ++ str c ++ "_" ++ str today)
          today initial_count initial_count false None (utcnow ctx) true
          branch c in
      Ok (with_cashier_sessions (cashier_sessions db ++ [session])%list db,
          session)
  end.

(** [if session and not session.branch_id: session.branch_id =
    current_user.branch_id], then [session.mark_report_printed()], written
    back to the session that [get_or_create_today_session] returned.  The
    column is not nullable: a user without branch makes the commit fail. *)
Definition session_mark_report_printed (ctx : Ctx) (session : CashierSession.t)
  (db : DB) : Exc DB :=
  let user := current_user ctx in
  let c := User.id user in
  let today := date (utcnow ctx) in
  let write f :=
    with_cashier_sessions
      (update_first (today_session c today) f (cashier_sessions db)) db in
  if CashierSession.branch_id session =? 0 then
    match User.branch_id user with
    | Some b =>
        Ok (write (fun s => CashierSession.mark_report_printed (utcnow ctx)
                              (CashierSession.set_branch_id b s)))
    | None => Raise "IntegrityError"
    end
  else Ok (write (CashierSession.mark_report_printed (utcnow ctx))).

(** ** [mark_daily_report_printed] (pos/views.py) *)

Definition mark_daily_report_printed_try (ctx : Ctx) (db : DB)
  : Exc (DB * Response) :=
  let user := current_user ctx in
  r <- get_or_create_today_session ctx (User.id user) db ;;
  let (db1, session) := r in
  let was_already_printed := CashierSession.daily_report_printed session in
  db2 <- session_mark_report_printed ctx session db1 ;;
  let db3 :=
    if negb was_already_printed then
      with_audit_logs
        (audit_logs db2
         ++ [AuditLog.mk (User.id user) "DAILY_REPORT_MARKED" (utcnow ctx)])%list
        db2
    else db2 in
  Ok (db3,
      jsonify
        [("success", JBool true);
         ("message",
          JStr ("Daily report marked as printed for " ++ User.get_full_name user));
         ("cashier_name", JStr (User.get_full_name user));
         ("date", JStr (str (date (utcnow ctx))));
         ("session_id", JStr (CashierSession.session_id session))]).

(** The handler has no rollback; a session created before the exception
    stays committed. *)
Definition created_session (ctx : Ctx) (db : DB) : DB :=
  match get_or_create_today_session ctx (User.id (current_user ctx)) db with
  | Ok (db1, _) => db1
  | Raise _ => db
  end.

Definition mark_daily_report_printed (ctx : Ctx) (db : DB) : DB * Response :=
  if negb (UserRole.eqb (User.role (current_user ctx)) UserRole.CASHIER) then
    (db, jsonify [("success", JBool false); ("error", JStr "Access denied")])
  else
    match mark_daily_report_printed_try ctx db with
    | Ok r => r
    | Raise e =>
        (created_session ctx db,
         jsonify [("success", JBool false); ("error", JStr e)])
    end.

(** ** [daily_report] (pos/views.py): the guards and the marking of the session *)

Inductive DailyReportOutcome :=
| RedirectIndex
| RedirectWaiterRequests
| PdfResponse
| InternalServerError.

(** The [try] block after the PDF is built; an exception in it is printed and
    swallowed. *)
Definition daily_report_mark (ctx : Ctx) (db : DB) : DB :=
  let user := current_user ctx in
  match get_or_create_today_session ctx (User.id user) db with
  | Raise _ => db
  | Ok (db1, session) =>
      match session_mark_report_printed ctx session db1 with
      | Raise _ => db1
      | Ok db2 =>
          with_audit_logs
            (audit_logs db2
             ++ [AuditLog.mk (User.id user) "DAILY_REPORT_GENERATED"
                             (utcnow ctx)])%list
            db2
      end
  end.

Definition daily_report (ctx : Ctx) (db : DB) : DB * DailyReportOutcome :=
  let user := current_user ctx in
  if negb (UserRole.eqb (User.role user) UserRole.CASHIER) then
    (db, RedirectIndex)
  else
    match execute ctx (count (unpaid_waiter_order (User.id user)) (orders db)) with
    | Raise _ => (db, InternalServerError)
    | Ok unpaid_waiter_orders =>
        if 0 <? unpaid_waiter_orders then (db, RedirectWaiterRequests)
        else (daily_report_mark ctx db, PdfResponse)
    end.

(** ** [save_order_changes] (pos/views.py) *)

Record SpecialItem := mkSpecialItem {
  special_quantity : option Z;
  special_name : option string
}.

Module EditItem.
(** One object of the request's [items] array; a field that the handler
    reads with [item_data[key]] is [None] when the key is absent. *)
Record t := mk {
  id : option Z;
  is_new : bool;
  is_deleted : bool;
  menu_item_id : option Z;
  quantity : option Z;
  unit_price : option Z;
  total_price : option Z;
  special_requests : option string;
  special_items : list SpecialItem;
  notes : option string
}.
End EditItem.

Record EditRequest := mkEditRequest {
  edit_order_id : option Z;
  edit_items : list EditItem.t;
  original_total : Z
}.

(** The conversion of a [special_items] array back to the notes format. *)
Definition special_item_note (si : SpecialItem) : Exc string :=
  q <- subscript "quantity" (special_quantity si) ;;
  if 1 <? q then
    n <- subscript "name" (special_name si) ;;
    Ok (str q ++ "x " ++ n)
  else subscript "name" (special_name si).

Fixpoint special_items_notes (l : list SpecialItem) : Exc (list string) :=
  match l with
  | [] => Ok []
  | si :: rest =>
      n <- special_item_note si ;;
      ns <- special_items_notes rest ;;
      Ok (n :: ns)
  end.

(** The notes text that an item of the request carries, if any. *)
Definition item_notes (item_data : EditItem.t) : Exc (option string) :=
  match EditItem.special_items item_data with
  | _ :: _ =>
      ns <- special_items_notes (EditItem.special_items item_data) ;;
      Ok (Some (String.concat ", " ns))
  | [] =>
      if truthy_str (EditItem.notes item_data)
      then Ok (EditItem.notes item_data)
      else Ok None
  end.

Definition or_empty (v : option string) : string :=
  match v with
  | Some x => x
  | None => EmptyString
  end.

(** The state of the loop over [items]: the item table, [processed_item_ids]
    and [new_total]. *)
Record EditState := mkEditState {
  st_items : list OrderItem.t;
  processed_item_ids : list Z;
  st_new_total : Z
}.

Definition edit_step (oid : Z) (existing_ids : list Z) (st : EditState)
  (item_data : EditItem.t) : Exc EditState :=
  let is_deleted := EditItem.is_deleted item_data in
  (* [item_id and item_id in existing_items] *)
  let existing :=
    match EditItem.id item_data with
    | Some item_id =>
        if negb (item_id =? 0) && mem item_id existing_ids
        then Some item_id else None
    | None => None
    end in
  match existing with
  | Some item_id =>
      quantity <- subscript "quantity" (EditItem.quantity item_data) ;;
      unit_price <- subscript "unit_price" (EditItem.unit_price item_data) ;;
      total_price <- subscript "total_price" (EditItem.total_price item_data) ;;
      notes <- item_notes item_data ;;
      let write (it : OrderItem.t) :=
        OrderItem.mk (OrderItem.id it) (OrderItem.order_id it)
          (OrderItem.menu_item_id it) quantity unit_price total_price
          (match notes with Some n => Some n | None => OrderItem.notes it end)
          (Some (or_empty (EditItem.special_requests item_data)))
          (OrderItem.is_new it) is_deleted in
      Ok (mkEditState
            (update_where
               (fun it => (OrderItem.order_id it =? oid)
                          && (OrderItem.id it =? item_id))
               write (st_items st))
            (item_id :: processed_item_ids st)
            (if is_deleted then st_new_total st
             else st_new_total st + total_price))
  | None =>
      if EditItem.is_new item_data && negb is_deleted then
        notes <- item_notes item_data ;;
        menu_item_id <- subscript "menu_item_id" (EditItem.menu_item_id item_data) ;;
        quantity <- subscript "quantity" (EditItem.quantity item_data) ;;
        unit_price <- subscript "unit_price" (EditItem.unit_price item_data) ;;
        total_price <- subscript "total_price" (EditItem.total_price item_data) ;;
        Ok (mkEditState
              (st_items st
               ++ [OrderItem.mk (next_id OrderItem.id (st_items st)) oid
                     menu_item_id quantity unit_price total_price
                     (Some (or_empty notes))
                     (Some (or_empty (EditItem.special_requests item_data)))
                     true false])%list
              (processed_item_ids st)
              (st_new_total st + total_price))
      else Ok st
  end.

Fixpoint edit_loop (oid : Z) (existing_ids : list Z) (st : EditState)
  (items : list EditItem.t) : Exc EditState :=
  match items with
  | [] => Ok st
  | item_data :: rest =>
      st' <- edit_step oid existing_ids st item_data ;;
      edit_loop oid existing_ids st' rest
  end.

Definition OrderItem_set_deleted (it : OrderItem.t) : OrderItem.t :=
  OrderItem.mk (OrderItem.id it) (OrderItem.order_id it)
    (OrderItem.menu_item_id it) (OrderItem.quantity it)
    (OrderItem.unit_price it) (OrderItem.total_price it) (OrderItem.notes it)
    (OrderItem.special_requests it) (OrderItem.is_new it) true.

(** [can_edit_paid]. *)
Definition can_edit_paid (order : Order.t) : bool :=
  is_service (Order.service_type order) ServiceType.DELIVERY
  || is_service (Order.service_type order) ServiceType.TAKE_AWAY
  || is_payment (Order.payment_method order) PaymentMethod.CARD.

Definition edit_failure (msg : string) : Response :=
  jsonify [("success", JBool false); ("message", JStr msg)].

Definition or_zero (v : option Z) : Z :=
  match v with
  | Some n => n
  | None => 0
  end.

Definition save_order_changes_try (ctx : Ctx) (data : EditRequest) (db : DB)
  : Exc (DB * Response) :=
  let user := current_user ctx in
  found <-
    execute ctx
      (match edit_order_id data with
       | Some oid => Order_get db oid
       | None => None
       end) ;;
  match found with
  | None => Ok (db, edit_failure "Order not found")
  | Some order =>
      let order_id := Order.id order in
      if negb (col_eqb (Order.cashier_id order) (User.id user))
         && negb (col_eqb (Order.assigned_cashier_id order) (User.id user)) then
        Ok (db, edit_failure "You can only edit orders assigned to you")
      else if negb (OrderStatus.eqb (Order.status order) OrderStatus.PENDING)
              && negb (OrderStatus.eqb (Order.status order) OrderStatus.PAID
                       && can_edit_paid order) then
        if is_service (Order.service_type order) ServiceType.ON_TABLE
           && OrderStatus.eqb (Order.status order) OrderStatus.PAID then
          Ok (db, edit_failure "Paid on-table orders cannot be edited")
        else
          Ok (db, edit_failure
                    "Only pending orders and paid delivery/takeaway/card payment orders can be edited")
      else
        let existing_ids :=
          map OrderItem.id
              (filter (fun it => OrderItem.order_id it =? order_id)
                      (order_items db)) in
        st <- edit_loop order_id existing_ids
                (mkEditState (order_items db) [] 0) (edit_items data) ;;
        let items' :=
          update_where
            (fun it => (OrderItem.order_id it =? order_id)
                       && mem (OrderItem.id it) existing_ids
                       && negb (mem (OrderItem.id it) (processed_item_ids st)))
            OrderItem_set_deleted (st_items st) in
        let new_total := st_new_total st in
        let db1 := with_order_items items' db in
        let db2 :=
          Order_update order_id
            (Order.set_edited new_total (utcnow ctx) (User.id user)
                              (or_zero (Order.edit_count order) + 1)) db1 in
        let db3 :=
          with_order_edit_history
            (order_edit_history db2
             ++ [OrderEditHistory.mk order_id (User.id user) (utcnow ctx)
                   (original_total data) new_total
                   ("Order edited by " ++ User.get_full_name user)])%list db2 in
        let db4 :=
          with_audit_logs
            (audit_logs db3
             ++ [AuditLog.mk (User.id user) "ORDER_EDITED" (utcnow ctx)])%list
            db3 in
        Ok (db4,
            jsonify
              [("success", JBool true);
               ("message", JStr "Order updated successfully");
               ("new_total", JInt new_total);
               ("edit_timestamp", JStr (strftime (utcnow ctx)))])
  end.

Definition save_order_changes (ctx : Ctx) (data : EditRequest) (db : DB)
  : DB * Response :=
  if negb (UserRole.eqb (User.role (current_user ctx)) UserRole.CASHIER) then
    (db, edit_failure "Access denied. Cashier privileges required.")
  else
    match save_order_changes_try ctx data db with
    | Ok r => r
    | Raise e => (db, edit_failure e)
    end.

(** ** [create_order] (pos/views.py) *)

(** [item_data['id']]: a menu item id, or one of the string keys of the
    custom-price items. *)
Inductive ItemId :=
| MenuItemId (n : Z)
| ItemKey (k : string).

Record Modifier := mkModifier {
  modifier_quantity : option Z;
  modifier_name : option string
}.

Module OrderItemData.
Record t := mk {
  id : option ItemId;
  isCustomPrice : bool;
  price : option Z;
  quantity : option Z;
  name : option string;
  modifiers : list Modifier
}.
End OrderItemData.

Record CreateOrderRequest := mkCreateOrderRequest {
  req_table_id : option Z;
  req_items : list OrderItemData.t;
  req_service_type : option string;
  is_adding_items : bool;
  existing_order_id : option Z;
  req_notes : option string;
  req_assigned_cashier_id : option Z
}.

(** [f"{amount:.2f}"] of an amount counted in hundredths. *)
Definition format_2f (amount : Z) : string :=
  let cents := amount mod 100 in
  str (amount / 100) ++ "."
  ++ (if cents <? 10 then "0" else EmptyString) ++ str cents.

Definition modifier_text (m : Modifier) : string :=
  let modifier_qty :=
    match modifier_quantity m with Some q => q | None => 1 end in
  let modifier_name := or_empty (modifier_name m) in
  if 1 <? modifier_qty then str modifier_qty ++ "x " ++ modifier_name
  else modifier_name.

Definition modifiers_text (ms : list Modifier) : string :=
  String.concat ", " (map modifier_text ms).

Definition is_custom_price (item_data : OrderItemData.t) : bool :=
  match OrderItemData.id item_data with
  | Some (ItemKey "falafel_hab_custom") => true
  | Some (ItemKey "special_order_custom") => true
  | _ => OrderItemData.isCustomPrice item_data
  end.

Definition MenuItem_by_name (db : DB) (n : string) : option MenuItem.t :=
  find (fun m => String.eqb (MenuItem.name m) n) (menu_items db).

Definition MenuItem_get (db : DB) (mid : Z) : option MenuItem.t :=
  find (fun m => MenuItem.id m =? mid) (menu_items db).

(** An [OrderItem] built by the loop, before it gets its keys. *)
Record NewItem := mkNewItem {
  new_menu_item_id : Z;
  new_quantity : Z;
  new_unit_price : Z;
  new_total_price : Z;
  new_notes : option string
}.

Definition bad_request (msg : string) : Response :=
  jsonify_status [("success", JBool false); ("message", JStr msg)] 400.

(** One turn of the loop over [items]: an early [return], or the item and
    its total. *)
Definition order_item_of (ctx : Ctx) (db : DB) (item_data : OrderItemData.t)
  : Exc (Response + NewItem) :=
  if is_custom_price item_data then
    let custom_price := or_zero (OrderItemData.price item_data) in
    quantity <- subscript "quantity" (OrderItemData.quantity item_data) ;;
    let item_total := custom_price * quantity in
    let item_name := or_empty (OrderItemData.name item_data) in
    let build (menu_item : MenuItem.t) :=
      let custom_price_note := "Custom Price: " ++ format_2f custom_price ++ " QAR" in
      let text := modifiers_text (OrderItemData.modifiers item_data) in
      mkNewItem (MenuItem.id menu_item) quantity custom_price item_total
        (Some (match text with
               | EmptyString => custom_price_note
               | _ => custom_price_note ++ ", " ++ text
               end)) in
    if String.eqb item_name "Falafel Hab" then
      found <- execute ctx (MenuItem_by_name db "Falafel Hab") ;;
      match found with
      | Some menu_item => Ok (inr (build menu_item))
      | None => Ok (inl (bad_request "Falafel Hab item not found in menu"))
      end
    else if String.eqb item_name "special order" then
      found <- execute ctx (MenuItem_by_name db "special order") ;;
      match found with
      | Some menu_item => Ok (inr (build menu_item))
      | None => Ok (inl (bad_request "Special order item not found in menu"))
      end
    else Ok (inl (bad_request ("Unknown custom price item: " ++ item_name)))
  else
    key <- subscript "id" (OrderItemData.id item_data) ;;
    match key with
    | ItemKey k => Raise "DataError"
    | MenuItemId mid =>
        found <- execute ctx (MenuItem_get db mid) ;;
        match found with
        | None => Ok (inl (bad_request ("Item not found: " ++ str mid)))
        | Some menu_item =>
            quantity <- subscript "quantity" (OrderItemData.quantity item_data) ;;
            let text := modifiers_text (OrderItemData.modifiers item_data) in
            Ok (inr (mkNewItem (MenuItem.id menu_item) quantity
                       (MenuItem.price menu_item)
                       (MenuItem.price menu_item * quantity)
                       (match text with
                        | EmptyString => None
                        | _ => Some text
                        end)))
        end
    end.

Fixpoint build_order_items (ctx : Ctx) (db : DB) (items : list OrderItemData.t)
  : Exc (Response + list NewItem) :=
  match items with
  | [] => Ok (inr [])
  | item_data :: rest =>
      r <- order_item_of ctx db item_data ;;
      match r with
      | inl response => Ok (inl response)
      | inr item =>
          rs <- build_order_items ctx db rest ;;
          match rs with
          | inl response => Ok (inl response)
          | inr more => Ok (inr (item :: more))
          end
      end
  end.

Definition total_of (items : list NewItem) : Z :=
  fold_right (fun it acc => new_total_price it + acc) 0 items.

(** The rows that [order.order_items.append(item)] inserts for order [oid]. *)
Fixpoint insert_items (oid : Z) (items : list NewItem) (table : list OrderItem.t)
  : list OrderItem.t :=
  match items with
  | [] => table
  | it :: rest =>
      insert_items oid rest
        (table ++ [OrderItem.mk (next_id OrderItem.id table) oid
                     (new_menu_item_id it) (new_quantity it)
                     (new_unit_price it) (new_total_price it) (new_notes it)
                     None false false])%list
  end.

(** [order_by(Order.created_at.desc()).first()]. *)
Fixpoint latest_order (rows : list Order.t) : option Order.t :=
  match rows with
  | [] => None
  | o :: rest =>
      match latest_order rest with
      | Some o' =>
          if Order.created_at o <? Order.created_at o' then Some o' else Some o
      | None => Some o
      end
  end.

(** The lookup of [existing_order] when [is_adding_items] is set. *)
Definition find_existing_order (ctx : Ctx) (data : CreateOrderRequest) (db : DB)
  : option Order.t :=
  let pending_here (o : Order.t) :=
    col_eqb (User.branch_id (current_user ctx)) (Order.branch_id o)
    && OrderStatus.eqb (Order.status o) OrderStatus.PENDING in
  if truthy_int (existing_order_id data) then
    find (fun o => col_eqb (existing_order_id data) (Order.id o) && pending_here o)
         (orders db)
  else if truthy_int (req_table_id data) then
    latest_order
      (filter (fun o => match Order.table_id o, req_table_id data with
                        | Some a, Some b => a =? b
                        | _, _ => false
                        end && pending_here o)
              (orders db))
  else None.

Definition generate_order_number (ctx : Ctx) : string :=
  "ORD" ++ strftime (localnow ctx) ++ random_choices ctx.

(** [ServiceType(service_type) if service_type else ServiceType.ON_TABLE]. *)
Definition parse_service_type (v : option string) : Exc ServiceType.t :=
  match v with
  | None => Ok ServiceType.ON_TABLE
  | Some "" => Ok ServiceType.ON_TABLE
  | Some "on_table" => Ok ServiceType.ON_TABLE
  | Some "take_away" => Ok ServiceType.TAKE_AWAY
  | Some "delivery" => Ok ServiceType.DELIVERY
  | Some "card" => Ok ServiceType.CARD
  | Some _ => Raise "ValueError"
  end.

Definition no_cashier_assignment : Response :=
  jsonify
    [("success", JBool false);
     ("message",
      JStr "Cannot create order. Please ask an admin to assign you to a cashier using their PIN code.");
     ("error_type", JStr "no_cashier_assignment")].

Definition waiter_note (user assigned_cashier : User.t) : string :=
  WAITER_TAG ++ " Created by: " ++ User.get_full_name user
  ++ " | Assigned to: " ++ User.get_full_name assigned_cashier
  ++ " (Admin Assigned)".

(** The branch of [create_order] on the role of the user: an early
    [return], or the notes, the assigned cashier and the status of the
    order. *)
Definition order_origin (ctx : Ctx) (data : CreateOrderRequest) (db : DB)
  : Exc (Response + (option string * option Z * OrderStatus.t)) :=
  let user := current_user ctx in
  let order_notes := req_notes data in
  if UserRole.eqb (User.role user) UserRole.WAITER then
    assignment <-
      execute ctx
        (match User.branch_id user with
         | Some b =>
             WaiterCashierAssignment.get_assignment_for_waiter
               (User.id user) b (waiter_cashier_assignments db)
         | None => None
         end) ;;
    match assignment with
    | Some a =>
        match User_get db (WaiterCashierAssignment.assigned_cashier_id a) with
        | Some assigned_cashier =>
            let note := waiter_note user assigned_cashier in
            Ok (inr (Some (if truthy_str order_notes
                           then note ++ newline ++ or_empty order_notes
                           else note),
                     Some (WaiterCashierAssignment.assigned_cashier_id a),
                     OrderStatus.PENDING))
        | None => Ok (inl no_cashier_assignment)
        end
    | None => Ok (inl no_cashier_assignment)
    end
  else Ok (inr (order_notes, req_assigned_cashier_id data, OrderStatus.PAID)).

(** UPDATE EXISTING ORDER: the new items and the notes of the order. *)
Definition add_items_to_order (ctx : Ctx) (order : Order.t)
  (new_items : list NewItem) (db : DB) : DB :=
  let oid := Order.id order in
  let add_note :=
    newline ++ "[ITEMS ADDED] by " ++ User.get_full_name (current_user ctx)
    ++ " at " ++ strftime (localnow ctx) in
  let notes1 := or_empty (Order.notes order) ++ add_note in
  let original_count :=
    count (fun it => OrderItem.order_id it =? oid) (order_items db) in
  let notes2 :=
    if negb (contains notes1 "[ORIGINAL_ITEMS_COUNT]")
    then notes1 ++ newline ++ "[ORIGINAL_ITEMS_COUNT:" ++ str original_count ++ "]"
    else notes1 in
  Order_update oid
    (Order.set_items_added (Order.total_amount order + total_of new_items) notes2)
    (with_order_items (insert_items oid new_items (order_items db)) db).

(** MULTI-CASHIER: the session tracking after the commit, in its own [try]. *)
Definition track_session (ctx : Ctx) (db : DB) : DB :=
  let user := current_user ctx in
  if UserRole.eqb (User.role user) UserRole.CASHIER then
    match get_or_create_today_session ctx (User.id user) db with
    | Raise _ => db
    | Ok (db1, _) =>
        let today := date (utcnow ctx) in
        let today_order_count :=
          count (fun o => col_eqb (Order.cashier_id o) (User.id user)
                          && (date (Order.created_at o) =? today))
                (orders db1) in
        with_cashier_sessions
          (update_first (today_session (User.id user) today)
             (CashierSession.update_order_count today_order_count (utcnow ctx))
             (cashier_sessions db1)) db1
    end
  else db.

Definition create_order_try (ctx : Ctx) (data : CreateOrderRequest) (db : DB)
  : Exc (DB * Response) :=
  let user := current_user ctx in
  match req_items data with
  | [] => Ok (db, bad_request "No items in order")
  | _ :: _ =>
      existing_order <-
        (if is_adding_items data
         then execute ctx (find_existing_order ctx data db)
         else Ok None) ;;
      match is_adding_items data, existing_order with
      | true, None => Ok (db, bad_request "No existing order found to update")
      | _, _ =>
          built <- build_order_items ctx db (req_items data) ;;
          match built with
          | inl response => Ok (db, response)
          | inr new_items =>
              let total_amount := total_of new_items in
              let order_number := generate_order_number ctx in
              origin <- order_origin ctx data db ;;
              match origin with
              | inl response => Ok (db, response)
              | inr (order_notes, assigned_cashier_id, order_status) =>
                  service_type_enum <- parse_service_type (req_service_type data) ;;
                  match existing_order with
                  | Some order =>
                      let db1 := add_items_to_order ctx order new_items db in
                      Ok (track_session ctx db1,
                          jsonify
                            [("success", JBool true);
                             ("message", JStr "Order updated successfully");
                             ("order_id", JInt (Order.id order));
                             ("order_number", JStr (Order.order_number order));
                             ("is_update", JBool true)])
                  | None =>
                      branch <-
                        match User.branch_id user with
                        | Some b => Ok b
                        | None => Raise "IntegrityError"
                        end ;;
                      next <-
                        OrderCounter.get_next_counter (utcnow ctx) branch
                          (order_counters db) ;;
                      let (counters, order_counter) := next in
                      let oid := next_id Order.id (orders db) in
                      let order :=
                        Order.mk oid order_number (Some order_counter)
                          total_amount None (Some service_type_enum)
                          order_status order_notes (utcnow ctx)
                          (if OrderStatus.eqb order_status OrderStatus.PAID
                           then Some (utcnow ctx) else None)
                          false None None (Some 0) branch (Some (User.id user))
                          assigned_cashier_id (req_table_id data) in
                      let db1 :=
                        with_order_items
                          (insert_items oid new_items (order_items db))
                          (with_orders (orders db ++ [order])%list
                             (with_order_counters counters db)) in
                      Ok (track_session ctx db1,
                          jsonify
                            [("success", JBool true);
                             ("message", JStr "Order created successfully");
                             ("order_id", JInt oid);
                             ("order_number", JStr order_number);
                             ("is_update", JBool false)])
                  end
              end
          end
      end
  end.

Definition create_order (ctx : Ctx) (data : CreateOrderRequest) (db : DB)
  : DB * Response :=
  match create_order_try ctx data db with
  | Ok r => r
  | Raise e =>
      (db, jsonify_status [("success", JBool false); ("message", JStr e)] 500)
  end.

(** ** [waiter_requests] and [clear_waiter_requests] (pos/views.py) *)

Definition sees_waiter_requests (r : UserRole.t) : bool :=
  match r with
  | UserRole.CASHIER | UserRole.BRANCH_ADMIN | UserRole.SUPER_USER => true
  | _ => false
  end.

(** The query for waiter orders only, by the role of the user. *)
Definition waiter_orders_filter (user : User.t) (o : Order.t) : bool :=
  match User.role user with
  | UserRole.SUPER_USER =>
      notes_like_waiter_order o && negb (Order.cleared_from_waiter_requests o)
  | UserRole.CASHIER =>
      col_eqb (Order.assigned_cashier_id o) (User.id user)
      && notes_like_waiter_order o
      && negb (Order.cleared_from_waiter_requests o)
  | _ =>
      col_eqb (User.branch_id user) (Order.branch_id o)
      && notes_like_waiter_order o
      && negb (Order.cleared_from_waiter_requests o)
  end.

Definition status_filter_matches (status_filter : string) (o : Order.t) : bool :=
  if String.eqb status_filter "paid" then
    OrderStatus.eqb (Order.status o) OrderStatus.PAID
  else if String.eqb status_filter "all" then true
  else OrderStatus.eqb (Order.status o) OrderStatus.PENDING.

(** The rows of the AJAX query of [waiter_requests], before sorting and
    pagination, which only arrange and cut this list; [None] is the
    redirect of a user without access. *)
Definition waiter_requests (ctx : Ctx) (status_filter : string) (db : DB)
  : option (list Order.t) :=
  let user := current_user ctx in
  if negb (sees_waiter_requests (User.role user)) then None
  else
    Some (filter (fun o => waiter_orders_filter user o
                           && status_filter_matches status_filter o)
                 (orders db)).

Definition Order_set_cleared (o : Order.t) : Order.t :=
  Order.mk (Order.id o) (Order.order_number o) (Order.order_counter o)
    (Order.total_amount o) (Order.payment_method o) (Order.service_type o)
    (Order.status o) (Order.notes o) (Order.created_at o) (Order.paid_at o)
    true (Order.last_edited_at o) (Order.last_edited_by o) (Order.edit_count o)
    (Order.branch_id o) (Order.cashier_id o) (Order.assigned_cashier_id o)
    (Order.table_id o).

Definition clear_waiter_requests (ctx : Ctx) (db : DB) : DB * Response :=
  let user := current_user ctx in
  if negb (sees_waiter_requests (User.role user)) then
    (db, jsonify_status
           [("success", JBool false); ("message", JStr "Access denied")] 403)
  else
    match execute ctx (filter (waiter_orders_filter user) (orders db)) with
    | Raise e =>
        (db, jsonify_status
               [("success", JBool false);
                ("message", JStr ("Error clearing orders: " ++ e))] 500)
    | Ok waiter_orders =>
        let paid (o : Order.t) := OrderStatus.eqb (Order.status o) OrderStatus.PAID in
        let paid_orders_to_clear := filter paid waiter_orders in
        match paid_orders_to_clear with
        | [] =>
            (db, jsonify_status
                   [("success", JBool false);
                    ("message", JStr "No paid orders to clear")] 400)
        | _ :: _ =>
            (with_orders
               (update_where (fun o => waiter_orders_filter user o && paid o)
                             Order_set_cleared (orders db)) db,
             jsonify
               [("success", JBool true);
                ("cleared_count",
                 JInt (Z.of_nat (List.length paid_orders_to_clear)))])
        end
    end.

(** ** PIN records ([AdminPinCode], [CashierPin]) *)

(** [werkzeug.security]: [generate_password_hash] (with the salt it draws)
    and [check_password_hash], which accepts a password exactly for the
    hashes generated from it. *)
Record Werkzeug := mkWerkzeug {
  generate_password_hash : string -> string -> string;
  check_password_hash : string -> string -> bool;
  check_generated :
    forall salt password,
      check_password_hash (generate_password_hash salt password) password = true
}.

Module CashierPin.
Record t := mk {
  cashier_id : Z;
  branch_id : Z;
  pin_code_hash : string;
  is_active : bool
}.

Definition set_pin (W : Werkzeug) (salt pin_code : string) (r : t) : t :=
  mk (cashier_id r) (branch_id r) (generate_password_hash W salt pin_code)
     (is_active r).

Definition check_pin (W : Werkzeug) (r : t) (pin_code : string) : bool :=
  check_password_hash W (pin_code_hash r) pin_code.

Definition verify_cashier_pin (W : Werkzeug) (table : list t)
  (cashier branch : Z) (pin_code : string) : bool :=
  match find (fun r => (cashier_id r =? cashier) && (branch_id r =? branch)
                       && is_active r) table with
  | Some pin_record => check_pin W pin_record pin_code
  | None => false
  end.
End CashierPin.

Module AdminPinCode.
Record t := mk {
  admin_id : option Z;
  branch_id : Z;
  pin_code_hash : string;
  pin_type : string;
  is_active : bool;
  pin_code : option string
}.

Definition set_pin (W : Werkzeug) (salt pin : string) (r : t) : t :=
  mk (admin_id r) (branch_id r) (generate_password_hash W salt pin)
     (pin_type r) (is_active r) (Some pin).

Definition check_pin (W : Werkzeug) (r : t) (pin : string) : bool :=
  match pin_code_hash r with
  | String _ _ => check_password_hash W (pin_code_hash r) pin
  | EmptyString =>
      match pin_code r with
      | Some (String _ _ as legacy) => String.eqb legacy pin
      | _ => false
      end
  end.

Definition verify_pin (W : Werkzeug) (table : list t) (branch : Z)
  (pin : string) : bool :=
  match find (fun r => (branch_id r =? branch) && is_active r) table with
  | Some pin_record => check_pin W pin_record pin
  | None => false
  end.
End AdminPinCode.

(** ** Two requests that draw a counter for the same branch

    Each request runs [OrderCounter.get_next_counter] in a database session
    of its own: the query, then the increment and the [flush()].  Nothing
    in the method holds the row between the two, so the statements of two
    requests may alternate; a schedule names the request that runs its next
    statement. *)
Module Concurrent.
Inductive Request :=
| Started
| Loaded (counter_record : option OrderCounter.t)
| Returned (value : Z)
| Raised.

Record World := mkWorld {
  table : list OrderCounter.t;
  first : Request;
  second : Request
}.

Definition advance (now b : Z) (rows : list OrderCounter.t) (r : Request)
  : list OrderCounter.t * Request :=
  match r with
  | Started => (rows, Loaded (OrderCounter.load b rows))
  | Loaded counter_record =>
      match OrderCounter.increment_and_flush now b counter_record rows with
      | Ok (rows', value) => (rows', Returned value)
      | Raise _ => (rows, Raised)
      end
  | Returned _ | Raised => (rows, r)
  end.

(** [true] lets the first request run a statement, [false] the second. *)
Definition step (now b : Z) (w : World) (turn : bool) : World :=
  if turn then
    let (rows, r) := advance now b (table w) (first w) in
    mkWorld rows r (second w)
  else
    let (rows, r) := advance now b (table w) (second w) in
    mkWorld rows (first w) r.

Definition run (now b : Z) (schedule : list bool) (w : World) : World :=
  fold_left (step now b) schedule w.
End Concurrent.

(** ** Vocabulary of the properties *)


(** The primary key of [orders]. *)
Definition orders_keyed (db : DB) : Prop := NoDup (map Order.id (orders db)).

(** No assignment record for the waiter of the request in their branch. *)
Definition no_assignment (ctx : Ctx) (db : DB) : Prop :=
  match User.branch_id (current_user ctx) with
  | Some b =>
      WaiterCashierAssignment.get_assignment_for_waiter
        (User.id (current_user ctx)) b (waiter_cashier_assignments db) = None
  | None => True
  end.

(** The request passes what [create_order] checks before it looks for the
    assignment: there are items, the order to extend is found when items
    are added to an order, and the loop over the items builds them all. *)
Definition passes_validation (ctx : Ctx) (data : CreateOrderRequest) (db : DB)
  : Prop :=
  db_reachable ctx = true
  /\ req_items data <> []
  /\ (is_adding_items data = true -> find_existing_order ctx data db <> None)
  /\ exists new_items,
       build_order_items ctx db (req_items data) = Ok (inr new_items).

(** Today's active session of the user of the request, as
    [get_or_create_today_session] looks it up. *)
Definition session_of_today (ctx : Ctx) (db : DB) : option CashierSession.t :=
  find (today_session (User.id (current_user ctx)) (date (utcnow ctx)))
       (cashier_sessions db).

(** The number of edits of an order: [order.edit_count or 0]. *)
Definition edits (o : Order.t) : Z := or_zero (Order.edit_count o).

(** The item ids of an order and the loop of [save_order_changes] over the
    items of a request, from the state in which the handler starts it. *)
Definition existing_item_ids (order_id : Z) (db : DB) : list Z :=
  map OrderItem.id
      (filter (fun it => OrderItem.order_id it =? order_id) (order_items db)).

Definition edit_items_of (data : EditRequest) (order_id : Z) (db : DB)
  : Exc EditState :=
  edit_loop order_id (existing_item_ids order_id db)
            (mkEditState (order_items db) [] 0) (edit_items data).

(** The requests that write to the database: the five handlers of the
    repository that assign to an attribute of an order or insert one, and
    the two that mark the report of a session. *)
Inductive Operation :=
| CreateOrder (data : CreateOrderRequest)
| MarkOrderPaid (order_id : Z)
| SaveOrderChanges (data : EditRequest)
| TransferOrders (data : TransferRequest)
| ClearWaiterRequests
| DailyReport
| MarkDailyReportPrinted.

Definition perform (ctx : Ctx) (op : Operation) (db : DB) : DB :=
  match op with
  | CreateOrder data => fst (create_order ctx data db)
  | MarkOrderPaid order_id => fst (mark_order_paid ctx order_id db)
  | SaveOrderChanges data => fst (save_order_changes ctx data db)
  | TransferOrders data => fst (transfer_orders ctx data db)
  | ClearWaiterRequests => fst (clear_waiter_requests ctx db)
  | DailyReport => fst (daily_report ctx db)
  | MarkDailyReportPrinted => fst (mark_daily_report_printed ctx db)
  end.


(** ** A sample branch

    Two cashiers, two waiters (only the first has an assigned cashier), and
    the orders of one day. *)
Module Sample.
Definition alice := User.mk 1 "Alice" "Adams" UserRole.CASHIER (Some 1).
Definition bob := User.mk 2 "Bob" "Brown" UserRole.CASHIER (Some 1).
Definition walt := User.mk 3 "Walt" "West" UserRole.WAITER (Some 1).
Definition wendy := User.mk 4 "Wendy" "Wood" UserRole.WAITER (Some 1).

Definition midnight : Z := 19000 * 86400.

Definition order (id : Z) (status : OrderStatus.t) (service : ServiceType.t)
  (payment : option PaymentMethod.t) (notes : option string) (created : Z)
  (assigned : option Z) (creator : Z) : Order.t :=
  Order.mk id ("ORD" ++ str id) (Some id) 1000 payment (Some service) status
    notes (midnight + created) None false None None (Some 0) 1 (Some creator)
    assigned (Some 7).

Definition tagged : option string :=
  Some "[WAITER ORDER] Created by: Walt West | Assigned to: Alice Adams (Admin Assigned)".

Definition db : DB :=
  mkDB [alice; bob; walt; wendy]
    [order 10 OrderStatus.PENDING ServiceType.ON_TABLE None tagged 100 (Some 1) 3;
     order 11 OrderStatus.PENDING ServiceType.ON_TABLE None tagged 200 (Some 1) 3;
     order 12 OrderStatus.CANCELLED ServiceType.ON_TABLE None (Some "") 300 None 1;
     order 13 OrderStatus.PAID ServiceType.ON_TABLE (Some PaymentMethod.CARD)
           (Some "") 400 None 1;
     order 14 OrderStatus.PAID ServiceType.DELIVERY None (Some "") 500 None 1;
     order 15 OrderStatus.PAID ServiceType.ON_TABLE (Some PaymentMethod.CASH)
           (Some "") 600 None 1;
     order 16 OrderStatus.PENDING ServiceType.ON_TABLE None
           (Some "table by the window") 700 (Some 1) 3;
     order 17 OrderStatus.PAID ServiceType.ON_TABLE None (Some "") 800 None 2;
     order 18 OrderStatus.PAID ServiceType.ON_TABLE None (Some "") 810 None 2;
     order 19 OrderStatus.PAID ServiceType.ON_TABLE None (Some "") 820 None 2]
    [] [] [] [MenuItem.mk 1 "Falafel" 500] []
    [OrderCounter.mk 1 5 None 0]
    [WaiterCashierAssignment.mk 3 1 1 None].

(** The context of a request of [user], [seconds] after midnight. *)
Definition ctx (user : User.t) (seconds : Z) : Ctx :=
  mkCtx user (midnight + seconds) (midnight + seconds + 10800) "AB12" true.

Definition offline (user : User.t) (seconds : Z) : Ctx :=
  mkCtx user (midnight + seconds) (midnight + seconds + 10800) "AB12" false.
End Sample.

(** A stand-in for [werkzeug.security] on which the PIN records can be
    run: the hash of a password is a tagged digest of it (here its length),
    and a password is accepted for the hash that it generates. *)
Module SampleHash.
Definition generate (salt password : string) : string :=
  "len$" ++ str (Z.of_nat (String.length password)).

Definition check (pwhash password : string) : bool :=
  String.eqb pwhash (generate EmptyString password).

Definition werkzeug : Werkzeug :=
  mkWerkzeug generate check (fun _ password => String.eqb_refl _).
End SampleHash.

(** ** Vocabulary of the further properties *)

(** The items of an order that are not flagged as deleted, and the sum of
    their prices. *)
Definition live_item (order_id : Z) (it : OrderItem.t) : bool :=
  (OrderItem.order_id it =? order_id) && negb (OrderItem.is_deleted it).

Definition live_total (order_id : Z) (items : list OrderItem.t) : Z :=
  fold_right (fun it acc => OrderItem.total_price it + acc) 0
             (filter (live_item order_id) items).

(** The foreign key of [order_items]: every item belongs to an order. *)
Definition items_belong (db : DB) : Prop :=
  forall it, In it (order_items db) ->
             exists o, In o (orders db) /\ Order.id o = OrderItem.order_id it.

(** The primary key of [order_items]. *)
Definition items_keyed (db : DB) : Prop := NoDup (map OrderItem.id (order_items db)).

(** The total of every order is the sum of its items that are not deleted. *)
Definition totals_agree (db : DB) : Prop :=
  forall o, In o (orders db) ->
            Order.total_amount o = live_total (Order.id o) (order_items db).

(** Orders have distinct ids, every item belongs to an order, and the totals
    are those of the items. *)
Definition consistent (db : DB) : Prop :=
  orders_keyed db /\ items_belong db /\ totals_agree db.

(** The sample branch at opening time: nothing ordered yet. *)
Definition opening_db : DB := with_orders [] Sample.db.

(** The sum of the prices of the items selected by [p]. *)
Definition item_sum (p : OrderItem.t -> bool) (items : list OrderItem.t) : Z :=
  fold_right (fun it acc => OrderItem.total_price it + acc) 0 (filter p items).

(** During the loop of [save_order_changes]: the items of the order that
    count, and that the loop is done with; they were processed, or are new. *)
Definition settled (order_id : Z) (existing_ids processed : list Z)
  (it : OrderItem.t) : bool :=
  live_item order_id it
  && (mem (OrderItem.id it) processed
      || negb (mem (OrderItem.id it) existing_ids)).

(** [item_id and item_id in existing_items]: the id under which the loop
    takes an item of the request for an item of the order. *)
Definition edited_id (existing_ids : list Z) (item_data : EditItem.t)
  : option Z :=
  match EditItem.id item_data with
  | Some item_id =>
      if negb (item_id =? 0) && mem item_id existing_ids
      then Some item_id else None
  | None => None
  end.

Definition edited_ids (existing_ids : list Z) (items : list EditItem.t)
  : list Z :=
  flat_map (fun item_data =>
              match edited_id existing_ids item_data with
              | Some item_id => [item_id]
              | None => []
              end) items.

(** No item of the order is listed twice in the request. *)
Definition no_item_twice (data : EditRequest) (db : DB) : Prop :=
  forall oid, edit_order_id data = Some oid ->
              NoDup (edited_ids (existing_item_ids oid db) (edit_items data)).

Definition of_other_order (order_id : Z) (it : OrderItem.t) : bool :=
  negb (OrderItem.order_id it =? order_id).

(** What the loop of [save_order_changes] keeps true of its state: item ids
    stay distinct, the items that the order had are still there, the running
    total is that of the settled items, and the items of other orders are
    those of [items0]. *)
Definition edit_invariant (order_id : Z) (existing_ids : list Z)
  (items0 : list OrderItem.t) (st : EditState) : Prop :=
  NoDup (map OrderItem.id (st_items st))
  /\ (forall i, In i existing_ids ->
                exists it, In it (st_items st) /\ OrderItem.id it = i
                           /\ OrderItem.order_id it = order_id)
  /\ item_sum (settled order_id existing_ids (processed_item_ids st))
               (st_items st) = st_new_total st
  /\ filter (of_other_order order_id) (st_items st)
     = filter (of_other_order order_id) items0.

(** The sample branch at lunch time: Walt has taken one order of two
    falafel, which went to Alice. *)
Definition lunch_db : DB :=
  fst (create_order (Sample.ctx Sample.walt 1000)
         (mkCreateOrderRequest (Some 7)
            [OrderItemData.mk (Some (MenuItemId 1)) false None (Some 2) None []]
            None false None None None) opening_db).

(** What the books of an order are made of: its id and its total. *)
Definition order_key (o : Order.t) : Z * Z := (Order.id o, Order.total_amount o).

(** The books of the branch are in order: consistent, with distinct item
    ids. *)
Definition books (db : DB) : Prop := consistent db /\ items_keyed db.

(** A request is well formed for the books: an edit lists no item of the
    order twice. *)
Definition well_formed (op : Operation) (db : DB) : Prop :=
  match op with
  | SaveOrderChanges data => no_item_twice data db
  | _ => True
  end.

(** ** [str.strip] and [str.isdigit]

    A string is a sequence of code points below 256.  On these, Python's
    white space is TAB to CR, FS to US, the space, NEL and NBSP, and its
    digits are [0] to [9] and the superscripts two, three and one. *)

Definition isspace (c : ascii) : bool :=
  let n := N_of_ascii c in
  ((9 <=? n) && (n <=? 13) || (28 <=? n) && (n <=? 32)
   || (n =? 133) || (n =? 160))%N.

Definition isdigit_char (c : ascii) : bool :=
  let n := N_of_ascii c in
  ((48 <=? n) && (n <=? 57) || (n =? 178) || (n =? 179) || (n =? 185))%N.

Fixpoint lstrip (s : string) : string :=
  match s with
  | EmptyString => EmptyString
  | String c rest => if isspace c then lstrip rest else s
  end.

Fixpoint rstrip (s : string) : string :=
  match s with
  | EmptyString => EmptyString
  | String c rest =>
      match rstrip rest with
      | EmptyString => if isspace c then EmptyString else String c EmptyString
      | kept => String c kept
      end
  end.

Definition strip (s : string) : string := rstrip (lstrip s).

Fixpoint all_chars (p : ascii -> bool) (s : string) : bool :=
  match s with
  | EmptyString => true
  | String c rest => p c && all_chars p rest
  end.

(** [s.isdigit()]: every character is a digit and there is at least one. *)
Definition isdigit (s : string) : bool :=
  match s with
  | EmptyString => false
  | String _ _ => all_chars isdigit_char s
  end.

(** [not pin or len(pin) != 4 or not pin.isdigit()], negated. *)
Definition pin_format_ok (pin : string) : bool :=
  Nat.eqb (String.length pin) 4 && isdigit pin.

(** ** The PIN of a cashier (cashier/views.py)

    The handlers run on the table [cashier_pins]; [salt] is the salt that
    [generate_password_hash] draws.  The fields of the request are strings
    or absent ([data.get(key, '')]). *)

Record PinRequest := mkPinRequest {
  current_pin : option string;
  new_pin : option string;
  confirm_pin : option string
}.

Definition pin_reply (success : bool) (msg : string) : Response :=
  jsonify [("success", JBool success); ("message", JStr msg)].

(** [abort(code)] of the decorator [login_required_with_role]. *)
Definition abort (code : Z) : Response := jsonify_status [] code.

(** [filter_by(cashier_id=current_user.id, branch_id=current_user.branch_id)]. *)
Definition own_pin (user : User.t) (r : CashierPin.t) : bool :=
  (CashierPin.cashier_id r =? User.id user)
  && col_eqb (User.branch_id user) (CashierPin.branch_id r).

(** [CashierPin.verify_cashier_pin] for the user's id and branch; no row has
    a NULL branch. *)
Definition verify_own_pin (W : Werkzeug) (user : User.t)
  (pins : list CashierPin.t) (pin_code : string) : bool :=
  match User.branch_id user with
  | Some b => CashierPin.verify_cashier_pin W pins (User.id user) b pin_code
  | None => false
  end.

Definition activate (r : CashierPin.t) : CashierPin.t :=
  CashierPin.mk (CashierPin.cashier_id r) (CashierPin.branch_id r)
                (CashierPin.pin_code_hash r) true.

Definition deactivate (r : CashierPin.t) : CashierPin.t :=
  CashierPin.mk (CashierPin.cashier_id r) (CashierPin.branch_id r)
                (CashierPin.pin_code_hash r) false.

Module cashier_views.

Definition set_pin (W : Werkzeug) (salt : string) (ctx : Ctx)
  (data : PinRequest) (pins : list CashierPin.t)
  : list CashierPin.t * Response :=
  let user := current_user ctx in
  if negb (UserRole.eqb (User.role user) UserRole.CASHIER) then
    (pins, abort 403)
  else
    let new := strip (or_empty (new_pin data)) in
    let confirm := strip (or_empty (confirm_pin data)) in
    if negb (pin_format_ok new) then
      (pins, pin_reply false "PIN must be exactly 4 digits")
    else if negb (String.eqb new confirm) then
      (pins, pin_reply false "PIN confirmation does not match")
    else
      match execute ctx (find (own_pin user) pins) with
      | Raise e => (pins, pin_reply false ("Error setting PIN: " ++ e))
      | Ok (Some _) =>
          (update_first (own_pin user)
             (fun r => activate (CashierPin.set_pin W salt new r)) pins,
           pin_reply true "PIN updated successfully")
      | Ok None =>
          match User.branch_id user with
          | Some b =>
              ((pins
                ++ [CashierPin.mk (User.id user) b
                      (generate_password_hash W salt new) true])%list,
               pin_reply true "PIN created successfully")
          | None =>
              (pins, pin_reply false "Error setting PIN: IntegrityError")
          end
      end.

Definition verify_current_pin (W : Werkzeug) (ctx : Ctx) (data : PinRequest)
  (pins : list CashierPin.t) : Response :=
  let user := current_user ctx in
  if negb (UserRole.eqb (User.role user) UserRole.CASHIER) then abort 403
  else
    let current := strip (or_empty (current_pin data)) in
    if negb (pin_format_ok current) then pin_reply false "Invalid PIN format"
    else
      match execute ctx (verify_own_pin W user pins current) with
      | Raise e => pin_reply false ("Error verifying PIN: " ++ e)
      | Ok true => pin_reply true "Current PIN verified"
      | Ok false => pin_reply false "Invalid current PIN"
      end.

Definition change_pin (W : Werkzeug) (salt : string) (ctx : Ctx)
  (data : PinRequest) (pins : list CashierPin.t)
  : list CashierPin.t * Response :=
  let user := current_user ctx in
  if negb (UserRole.eqb (User.role user) UserRole.CASHIER) then
    (pins, abort 403)
  else
    let current := strip (or_empty (current_pin data)) in
    let new := strip (or_empty (new_pin data)) in
    let confirm := strip (or_empty (confirm_pin data)) in
    if negb (pin_format_ok current) then
      (pins, pin_reply false "Invalid current PIN format")
    else if negb (pin_format_ok new) then
      (pins, pin_reply false "New PIN must be exactly 4 digits")
    else if negb (String.eqb new confirm) then
      (pins, pin_reply false "New PIN confirmation does not match")
    else
      match execute ctx (verify_own_pin W user pins current) with
      | Raise e => (pins, pin_reply false ("Error changing PIN: " ++ e))
      | Ok false => (pins, pin_reply false "Invalid current PIN")
      | Ok true =>
          match find (own_pin user) pins with
          | Some _ =>
              (update_first (own_pin user) (CashierPin.set_pin W salt new) pins,
               pin_reply true "PIN changed successfully")
          | None => (pins, pin_reply false "No existing PIN found")
          end
      end.

Definition disable_pin (W : Werkzeug) (ctx : Ctx) (data : PinRequest)
  (pins : list CashierPin.t) : list CashierPin.t * Response :=
  let user := current_user ctx in
  if negb (UserRole.eqb (User.role user) UserRole.CASHIER) then
    (pins, abort 403)
  else
    let current := strip (or_empty (current_pin data)) in
    if negb (pin_format_ok current) then
      (pins, pin_reply false "Invalid PIN format")
    else
      match execute ctx (verify_own_pin W user pins current) with
      | Raise e => (pins, pin_reply false ("Error disabling PIN: " ++ e))
      | Ok false => (pins, pin_reply false "Invalid current PIN")
      | Ok true =>
          match find (own_pin user) pins with
          | Some _ =>
              (update_first (own_pin user) deactivate pins,
               pin_reply true "PIN disabled successfully")
          | None => (pins, pin_reply false "No PIN found to disable")
          end
      end.

End cashier_views.

(** One PIN per cashier and branch: [unique_cashier_pin_per_branch]. *)
Definition pins_keyed (pins : list CashierPin.t) : Prop :=
  NoDup (map (fun r => (CashierPin.cashier_id r, CashierPin.branch_id r)) pins).

(** A second stand-in for [werkzeug.security], which tells passwords
    apart: the hash is the password behind a marker. *)
Module SampleDigest.
Definition generate (salt password : string) : string := "plain$" ++ password.

Definition check (pwhash password : string) : bool :=
  String.eqb pwhash (generate EmptyString password).

Definition werkzeug : Werkzeug :=
  mkWerkzeug generate check (fun _ password => String.eqb_refl _).
End SampleDigest.

(** ** The waiter's cashier (models.py, pos/views.py) *)

Definition with_waiter_cashier_assignments
  (l : list WaiterCashierAssignment.t) (db : DB) : DB :=
  mkDB (users db) (orders db) (order_items db) (order_edit_history db)
       (audit_logs db) (menu_items db) (cashier_sessions db)
       (order_counters db) l.

(** [db.session.delete(row)] of the row that [first()] loaded. *)
Fixpoint delete_first {A : Type} (p : A -> bool) (table : list A) : list A :=
  match table with
  | [] => []
  | r :: rest => if p r then rest else r :: delete_first p rest
  end.

(** [WaiterCashierAssignment.set_assignment]. *)
Definition set_assignment (waiter branch cashier : Z)
  (assigned_by_cashier_id : option Z)
  (table : list WaiterCashierAssignment.t) : list WaiterCashierAssignment.t :=
  match WaiterCashierAssignment.get_assignment_for_waiter waiter branch table with
  | Some _ =>
      update_first
        (fun a => (WaiterCashierAssignment.waiter_id a =? waiter)
                  && (WaiterCashierAssignment.branch_id a =? branch))
        (fun a => WaiterCashierAssignment.mk
                    (WaiterCashierAssignment.waiter_id a)
                    (WaiterCashierAssignment.branch_id a)
                    cashier assigned_by_cashier_id)
        table
  | None =>
      (table
       ++ [WaiterCashierAssignment.mk waiter branch cashier
             assigned_by_cashier_id])%list
  end.

(** [WaiterCashierAssignment.clear_assignment]: the table, and whether a row
    was deleted. *)
Definition clear_assignment (waiter branch : Z)
  (table : list WaiterCashierAssignment.t)
  : list WaiterCashierAssignment.t * bool :=
  match WaiterCashierAssignment.get_assignment_for_waiter waiter branch table with
  | Some _ =>
      (delete_first
         (fun a => (WaiterCashierAssignment.waiter_id a =? waiter)
                   && (WaiterCashierAssignment.branch_id a =? branch))
         table, true)
  | None => (table, false)
  end.

(** What the assignment requests read besides the tables of [DB]: the
    column [users.is_active], by user id, and the table [cashier_pins]. *)
Record Desk := mkDesk {
  desk_db : DB;
  users_is_active : Z -> bool;
  cashier_pins : list CashierPin.t
}.

Definition with_desk_db (db : DB) (desk : Desk) : Desk :=
  mkDesk db (users_is_active desk) (cashier_pins desk).

(** [filter_by(branch_id=current_user.branch_id)] on a nullable column: a
    user without branch selects the rows without branch. *)
Definition same_branch (a b : option Z) : bool :=
  match a, b with
  | Some x, Some y => x =? y
  | None, None => true
  | _, _ => false
  end.

(** The cashiers that a waiter may choose: of the waiter's branch, and
    active. *)
Definition selectable_cashier (desk : Desk) (user : User.t) (u : User.t)
  : bool :=
  same_branch (User.branch_id u) (User.branch_id user)
  && UserRole.eqb (User.role u) UserRole.CASHIER
  && users_is_active desk (User.id u).

(** The rows of [get_cashiers_for_assignment], before [order_by]; [None]
    is the refusal of a user who is not a waiter. *)
Definition get_cashiers_for_assignment (ctx : Ctx) (desk : Desk)
  : option (list User.t) :=
  if negb (UserRole.eqb (User.role (current_user ctx)) UserRole.WAITER)
  then None
  else Some (filter (selectable_cashier desk (current_user ctx))
                    (users (desk_db desk))).

Record AssignRequest := mkAssignRequest {
  assign_cashier_id : option Z;
  cashier_pin : option string
}.

(** The JSON object [cashier] of the response, as the keys [cashier.id] and
    [cashier.name]. *)
Definition cashier_fields (cashier : User.t) : list (string * JSON) :=
  [("cashier.id", JInt (User.id cashier));
   ("cashier.name", JStr (User.get_full_name cashier))].

Definition assign_cashier_to_waiter (W : Werkzeug) (ctx : Ctx)
  (data : AssignRequest) (desk : Desk) : Desk * Response :=
  let user := current_user ctx in
  let db := desk_db desk in
  if negb (UserRole.eqb (User.role user) UserRole.WAITER) then
    (desk, pin_reply false "Access denied. This feature is only for waiters.")
  else
    let pin := strip (or_empty (cashier_pin data)) in
    match assign_cashier_id data with
    | None => (desk, pin_reply false "Please select a cashier")
    | Some cashier_id =>
        if cashier_id =? 0 then
          (desk, pin_reply false "Please select a cashier")
        else if negb (pin_format_ok pin) then
          (desk, pin_reply false "Invalid cashier PIN")
        else
          match execute ctx
                  (find (fun u => (User.id u =? cashier_id)
                                  && selectable_cashier desk user u)
                        (users db)) with
          | Raise e =>
              (desk, pin_reply false ("Error assigning cashier: " ++ e))
          | Ok None => (desk, pin_reply false "Invalid cashier selected")
          | Ok (Some cashier) =>
              match User.branch_id user with
              | None => (desk, pin_reply false "Invalid cashier PIN code")
              | Some b =>
                  if negb (CashierPin.verify_cashier_pin W (cashier_pins desk)
                             cashier_id b pin) then
                    (desk, pin_reply false "Invalid cashier PIN code")
                  else
                    (with_desk_db
                       (with_waiter_cashier_assignments
                          (set_assignment (User.id user) b cashier_id
                             (Some cashier_id)
                             (waiter_cashier_assignments db)) db) desk,
                     jsonify
                       (("success", JBool true)
                        :: cashier_fields cashier
                        ++ [("message",
                             JStr ("Orders will now be assigned to "
                                   ++ User.get_full_name cashier))])%list)
              end
          end
    end.

Definition get_assigned_cashier (ctx : Ctx) (desk : Desk) : Response :=
  let user := current_user ctx in
  let db := desk_db desk in
  if negb (UserRole.eqb (User.role user) UserRole.WAITER) then
    pin_reply false "Access denied"
  else
    match execute ctx
            (match User.branch_id user with
             | Some b =>
                 WaiterCashierAssignment.get_assignment_for_waiter
                   (User.id user) b (waiter_cashier_assignments db)
             | None => None
             end) with
    | Raise e => pin_reply false ("Error getting assigned cashier: " ++ e)
    | Ok (Some a) =>
        match User_get db (WaiterCashierAssignment.assigned_cashier_id a) with
        | Some cashier =>
            jsonify (("success", JBool true) :: cashier_fields cashier)
        | None =>
            pin_reply false "No cashier assigned. Please enter admin PIN."
        end
    | Ok None => pin_reply false "No cashier assigned. Please enter admin PIN."
    end.

Definition clear_assigned_cashier (ctx : Ctx) (desk : Desk) : Desk * Response :=
  let user := current_user ctx in
  let db := desk_db desk in
  if negb (UserRole.eqb (User.role user) UserRole.WAITER) then
    (desk, pin_reply false "Access denied")
  else
    match execute ctx
            (match User.branch_id user with
             | Some b =>
                 clear_assignment (User.id user) b
                                  (waiter_cashier_assignments db)
             | None => (waiter_cashier_assignments db, false)
             end) with
    | Raise e => (desk, pin_reply false ("Error clearing assignment: " ++ e))
    | Ok (table, true) =>
        (with_desk_db (with_waiter_cashier_assignments table db) desk,
         pin_reply true "Cashier assignment cleared")
    | Ok (_, false) => (desk, pin_reply false "No assignment found to clear")
    end.

(** One assignment per waiter and branch:
    [unique_waiter_assignment_per_branch]. *)
Definition assignments_keyed (db : DB) : Prop :=
  NoDup (map (fun a => (WaiterCashierAssignment.waiter_id a,
                        WaiterCashierAssignment.branch_id a))
             (waiter_cashier_assignments db)).

(** The sample branch with everyone active, Alice's PIN 1234 and Bob's PIN
    0000 (under [SampleDigest]). *)
Definition sample_desk : Desk :=
  mkDesk Sample.db (fun _ => true)
    [CashierPin.mk 1 1 "plain$1234" true; CashierPin.mk 2 1 "plain$0000" true].

(** ** Resetting the order counters (models.py) *)

Definition reset_row (now : Z) (row : OrderCounter.t) : OrderCounter.t :=
  OrderCounter.mk (OrderCounter.branch_id row) 0 (Some (date now)) now.

(** [OrderCounter.reset_counter]. *)
Definition reset_counter (now b : Z) (table : list OrderCounter.t)
  : list OrderCounter.t :=
  match OrderCounter.load b table with
  | Some _ => update_first (OrderCounter.for_branch b) (reset_row now) table
  | None => (table ++ [OrderCounter.mk b 0 (Some (date now)) now])%list
  end.

(** [OrderCounter.reset_all_counters]: one UPDATE of every row. *)
Definition reset_all_counters (now : Z) (table : list OrderCounter.t)
  : list OrderCounter.t :=
  map (reset_row now) table.

(** ** What the cashier is shown before a report or a transfer (pos/views.py) *)

Definition only_cashiers (msg : string) : Response :=
  jsonify [("success", JBool false); ("error", JStr msg)].

Definition check_report_generation_permission (ctx : Ctx) (db : DB)
  : Response :=
  let user := current_user ctx in
  if negb (UserRole.eqb (User.role user) UserRole.CASHIER) then
    only_cashiers "Only cashiers can generate reports"
  else
    match execute ctx (count (unpaid_waiter_order (User.id user)) (orders db)) with
    | Raise e => only_cashiers e
    | Ok unpaid_waiter_orders =>
        let can_generate := unpaid_waiter_orders =? 0 in
        jsonify
          [("success", JBool true);
           ("can_generate_report", JBool can_generate);
           ("unpaid_waiter_orders", JInt unpaid_waiter_orders);
           ("reason",
            JStr (if can_generate then "Can generate report"
                  else "Cannot generate report: " ++ str unpaid_waiter_orders
                       ++ " unpaid waiter orders must be processed first"))]
    end.

(** The rows of [get_unpaid_waiter_orders], before [order_by]; [None] is a
    refusal or an error. *)
Definition get_unpaid_waiter_orders (ctx : Ctx) (db : DB)
  : option (list Order.t) :=
  let user := current_user ctx in
  if negb (UserRole.eqb (User.role user) UserRole.CASHIER) then None
  else
    match execute ctx (filter (unpaid_waiter_order (User.id user)) (orders db)) with
    | Raise _ => None
    | Ok rows => Some rows
    end.

(** The rows of [get_branch_cashiers]; [None] is a refusal or an error.
    For a user without branch, [User.branch_id == current_user.branch_id]
    is [IS NULL]. *)
Definition get_branch_cashiers (ctx : Ctx) (desk : Desk)
  : option (list User.t) :=
  let user := current_user ctx in
  if negb (UserRole.eqb (User.role user) UserRole.CASHIER) then None
  else
    match execute ctx
            (filter (fun u => same_branch (User.branch_id u) (User.branch_id user)
                              && UserRole.eqb (User.role u) UserRole.CASHIER
                              && negb (User.id u =? User.id user)
                              && users_is_active desk (User.id u))
                    (users (desk_db desk))) with
    | Raise _ => None
    | Ok rows => Some rows
    end.

(** The primary key of [users]. *)
Definition users_keyed (db : DB) : Prop := NoDup (map User.id (users db)).

(** ** The order list and the editor (pos/views.py)

    [orders]: the query by the role of the user, before the filters of the
    request, the ordering and the pagination; [None] is the redirect of a
    user without access.  [can_mark_paid] and [can_edit] are the flags of
    a row of the AJAX response. *)

Definition orders_query (ctx : Ctx) (db : DB) : option (list Order.t) :=
  let user := current_user ctx in
  match User.role user with
  | UserRole.SUPER_USER => Some (orders db)
  | UserRole.BRANCH_ADMIN =>
      Some (filter (fun o => col_eqb (User.branch_id user) (Order.branch_id o))
                   (orders db))
  | UserRole.CASHIER =>
      Some (filter (created_or_assigned (User.id user)) (orders db))
  | UserRole.WAITER =>
      Some (filter (fun o => col_eqb (Order.cashier_id o) (User.id user)
                             && col_eqb (User.branch_id user) (Order.branch_id o))
                   (orders db))
  | _ => None
  end.

Definition can_mark_paid (ctx : Ctx) (order : Order.t) : bool :=
  may_mark_paid (User.role (current_user ctx))
  && OrderStatus.eqb (Order.status order) OrderStatus.PENDING.

Definition can_edit (ctx : Ctx) (order : Order.t) : bool :=
  let user := current_user ctx in
  UserRole.eqb (User.role user) UserRole.CASHIER
  && (col_eqb (Order.cashier_id order) (User.id user)
      || col_eqb (Order.assigned_cashier_id order) (User.id user))
  && (OrderStatus.eqb (Order.status order) OrderStatus.PENDING
      || OrderStatus.eqb (Order.status order) OrderStatus.PAID
         && can_edit_paid order).


(** ** The session of the day (pos/views.py) *)

(** The orders that the cashier created today. *)
Definition today_orders_count (c today : Z) (db : DB) : Z :=
  count (fun o => col_eqb (Order.cashier_id o) c
                  && (date (Order.created_at o) =? today))
        (orders db).

Definition session_reply (session_id : string) (initial current : Z)
  (existing : bool) : Response :=
  jsonify
    [("success", JBool true);
     ("session_id", JStr session_id);
     ("initial_count", JInt initial);
     ("current_count", JInt current);
     ("existing_session", JBool existing)].

(** [flask_id] is [session.get('_id')] of the browser session. *)
Definition ensure_cashier_session (ctx : Ctx) (flask_id : option string)
  (db : DB) : DB * Response :=
  let user := current_user ctx in
  if negb (UserRole.eqb (User.role user) UserRole.CASHIER) then
    (db, only_cashiers "Access denied")
  else
    let today := date (utcnow ctx) in
    match execute ctx
            (find (today_session (User.id user) today) (cashier_sessions db)) with
    | Raise e => (db, only_cashiers e)
    | Ok (Some existing_session) =>
        let today_orders := today_orders_count (User.id user) today db in
        (with_cashier_sessions
           (update_first (today_session (User.id user) today)
              (CashierSession.update_order_count today_orders (utcnow ctx))
              (cashier_sessions db)) db,
         session_reply (CashierSession.session_id existing_session)
           (CashierSession.initial_order_count existing_session)
           today_orders true)
    | Ok None =>
        let today_orders := today_orders_count (User.id user) today db in
        match User.branch_id user with
        | None => (db, only_cashiers "IntegrityError")
        | Some b =>
            let session_id :=
              "cashier_" ++ str (User.id user) ++ "_" ++ str today ++ "_"
              ++ match flask_id with
                 | Some i => i
                 | None => "unknown"
                 end in
            (with_cashier_sessions
               (cashier_sessions db
                ++ [CashierSession.mk
                      (next_id CashierSession.id (cashier_sessions db))
                      session_id today today_orders today_orders false None
                      (utcnow ctx) true b (User.id user)])%list db,
             session_reply session_id today_orders today_orders false)
        end
    end.

Definition update_session_order_count (ctx : Ctx) (db : DB) : DB * Response :=
  let user := current_user ctx in
  if negb (UserRole.eqb (User.role user) UserRole.CASHIER) then
    (db, only_cashiers "Access denied")
  else
    let today := date (utcnow ctx) in
    match execute ctx
            (find (today_session (User.id user) today) (cashier_sessions db)) with
    | Raise e => (db, only_cashiers e)
    | Ok (Some active_session) =>
        let today_orders := today_orders_count (User.id user) today db in
        (with_cashier_sessions
           (update_first (today_session (User.id user) today)
              (CashierSession.update_order_count today_orders (utcnow ctx))
              (cashier_sessions db)) db,
         jsonify
           [("success", JBool true);
            ("current_count", JInt today_orders);
            ("initial_count",
             JInt (CashierSession.initial_order_count active_session));
            ("has_completed_orders",
             JBool (CashierSession.has_completed_orders
                      (CashierSession.update_order_count today_orders
                         (utcnow ctx) active_session)))])
    | Ok None => (db, only_cashiers "No active session found")
    end.

(** At most one active session per cashier and day. *)
Definition sessions_single (db : DB) : Prop :=
  NoDup (map (fun s => (CashierSession.cashier_id s, CashierSession.login_date s))
             (filter CashierSession.is_active (cashier_sessions db))).

(** ** The PIN for order editing (admin/views.py, pos/views.py)

    The handlers run on the table [admin_pin_codes]; the response of
    [verify_admin_pin_for_editing] is modelled without its [admin_name]. *)

(** [branch_admin_required], the [before_request] of the admin blueprint. *)
Definition branch_admin_required (r : UserRole.t) : bool :=
  match r with
  | UserRole.SUPER_USER | UserRole.BRANCH_ADMIN => true
  | _ => false
  end.

(** [filter_by(branch_id=current_user.branch_id, pin_type='order_editing')]. *)
Definition order_editing_pin_of (user : User.t) (r : AdminPinCode.t) : bool :=
  col_eqb (User.branch_id user) (AdminPinCode.branch_id r)
  && String.eqb (AdminPinCode.pin_type r) "order_editing".

Definition activate_admin_pin (r : AdminPinCode.t) : AdminPinCode.t :=
  AdminPinCode.mk (AdminPinCode.admin_id r) (AdminPinCode.branch_id r)
    (AdminPinCode.pin_code_hash r) (AdminPinCode.pin_type r) true
    (AdminPinCode.pin_code r).

Definition save_pin_settings (W : Werkzeug) (salt : string) (ctx : Ctx)
  (order_editing_pin : option string) (pins : list AdminPinCode.t)
  : list AdminPinCode.t * Response :=
  let user := current_user ctx in
  if negb (branch_admin_required (User.role user)) then (pins, abort 403)
  else
    let pin := strip (or_empty order_editing_pin) in
    if negb (pin_format_ok pin) then
      (pins, pin_reply false "Order editing PIN must be exactly 4 digits")
    else
      match execute ctx (find (order_editing_pin_of user) pins) with
      | Raise e => (pins, pin_reply false ("Error saving PIN settings: " ++ e))
      | Ok (Some _) =>
          (update_first (order_editing_pin_of user)
             (fun r => activate_admin_pin (AdminPinCode.set_pin W salt pin r))
             pins,
           pin_reply true "Order editing PIN saved successfully!")
      | Ok None =>
          match User.branch_id user with
          | Some b =>
              ((pins
                ++ [AdminPinCode.mk None b (generate_password_hash W salt pin)
                      "order_editing" true (Some pin)])%list,
               pin_reply true "Order editing PIN saved successfully!")
          | None =>
              (pins,
               pin_reply false "Error saving PIN settings: IntegrityError")
          end
      end.

Definition verify_admin_pin_for_editing (W : Werkzeug) (ctx : Ctx)
  (pin_code : option string) (pins : list AdminPinCode.t) : Response :=
  let user := current_user ctx in
  if negb (UserRole.eqb (User.role user) UserRole.CASHIER) then
    pin_reply false "Access denied. This feature is only for cashiers."
  else
    let pin := strip (or_empty pin_code) in
    if negb (Nat.eqb (String.length pin) 4) then
      pin_reply false "Please enter a 4-digit PIN code"
    else
      match execute ctx
              (find (fun r => order_editing_pin_of user r
                              && AdminPinCode.is_active r) pins) with
      | Raise e => pin_reply false e
      | Ok None =>
          pin_reply false
            "No admin PIN configured for order editing. Please contact your administrator."
      | Ok (Some admin_pin) =>
          if AdminPinCode.check_pin W admin_pin pin then
            pin_reply true "PIN verified successfully! You can now edit orders."
          else pin_reply false "Invalid PIN code. Please try again."
      end.

(** ** Card payments entered by hand ([ManualCardPayment], models.py)

    Amounts are in hundredths, as the column [Numeric(10, 2)] stores them. *)
(** [datetime.utcnow().date()]. *)
Definition utc_today (now : Z) : Z := date now.

Module ManualCardPayment.
Record t := mk {
  amount : Z;
  date : Z;
  created_at : Z;
  branch_id : Z;
  cashier_id : Z;
  notes : option string
}.

Definition total (rows : list t) : Z :=
  fold_right (fun r acc => amount r + acc) 0 rows.

(** [func.sum(cls.amount)] of the rows of the day and branch, [or 0]. *)
Definition get_total_for_date_and_branch (d b : Z) (table : list t) : Z :=
  total (filter (fun r => (date r =? d) && (branch_id r =? b)) table).

Definition get_total_for_date_range_and_branch (start_date end_date b : Z)
  (table : list t) : Z :=
  total (filter (fun r => (start_date <=? date r) && (date r <=? end_date)
                          && (branch_id r =? b)) table).

Definition get_cashier_entry_for_date (c d : Z) (table : list t) : option t :=
  find (fun r => (cashier_id r =? c) && (date r =? d)) table.

(** [now] is [datetime.utcnow()]; [day] is the argument [date], or absent. *)
Definition add_or_update_payment (now c b new_amount : Z) (day : option Z)
  (new_notes : option string) (table : list t) : list t :=
  let d := match day with
           | Some d => d
           | None => utc_today now
           end in
  match get_cashier_entry_for_date c d table with
  | Some _ =>
      update_first (fun r => (cashier_id r =? c) && (date r =? d))
        (fun r => mk new_amount (date r) now (branch_id r) (cashier_id r)
                     new_notes)
        table
  | None => (table ++ [mk new_amount d now b c new_notes])%list
  end.
End ManualCardPayment.

(** What an edit never changes in an item row: its key, its order and its
    menu item. *)
Definition item_key (it : OrderItem.t) : Z * Z * Z :=
  (OrderItem.id it, OrderItem.order_id it, OrderItem.menu_item_id it).

(** * Properties *)

(** ** Equality tests *)

Lemma UserRole_eqb_eq (a b : UserRole.t) : UserRole.eqb a b = true <-> a = b.
Proof. destruct a, b; split; intro H; try reflexivity; discriminate H. Qed.

Lemma OrderStatus_eqb_eq (a b : OrderStatus.t) :
  OrderStatus.eqb a b = true <-> a = b.
Proof. destruct a, b; split; intro H; try reflexivity; discriminate H. Qed.

Lemma col_eqb_eq (a : option Z) (b : Z) : col_eqb a b = true <-> a = Some b.
Proof.
  destruct a as [x|]; simpl.
  - rewrite Z.eqb_eq. split; congruence.
  - split; discriminate.
Qed.

Lemma mem_In (x : Z) (l : list Z) : mem x l = true <-> In x l.
Proof.
  unfold mem. rewrite existsb_exists. split.
  - intros [y [Hy Heq]]. apply Z.eqb_eq in Heq. now subst.
  - intro H. exists x. split; [assumption | apply Z.eqb_refl].
Qed.

(** ** Rows written back *)

Lemma find_update_first {A : Type} (p : A -> bool) (f : A -> A) (l : list A) :
  (forall x, p x = true -> p (f x) = true) ->
  find p (update_first p f l) = option_map f (find p l).
Proof.
  intro Hp. induction l as [|x l IH]; simpl; [reflexivity|].
  destruct (p x) eqn:E; simpl.
  - now rewrite (Hp x E).
  - now rewrite E.
Qed.

(** ** The tag of a delegated order *)

Lemma prefix_app (p s : string) : String.prefix p (p ++ s) = true.
Proof.
  induction p as [|c p IH]; simpl.
  - now destruct s.
  - destruct (ascii_dec c c) as [_|n]; [exact IH | now elim n].
Qed.

Lemma contains_unfold (hay needle : string) :
  contains hay needle
  = String.prefix needle hay
    || match hay with
       | EmptyString => false
       | String _ rest => contains rest needle
       end.
Proof. destruct hay; reflexivity. Qed.

Lemma contains_prefix (p s : string) : contains (p ++ s) p = true.
Proof. rewrite contains_unfold, prefix_app. reflexivity. Qed.

(** ** Marking an order as paid *)

(** An order that is already [PAID] is refused, whoever asks, and the
    database stays as it was. *)
Lemma mark_order_paid_already_paid (ctx : Ctx) (order_id : Z) (db : DB) (o : Order.t) :
  Order_get db order_id = Some o ->
  Order.status o = OrderStatus.PAID ->
  fst (mark_order_paid ctx order_id db) = db
  /\ field "success" (snd (mark_order_paid ctx order_id db)) = Some (JBool false).
Proof.
  intros Hget Hpaid.
  unfold mark_order_paid, mark_order_paid_try, execute.
  destruct (may_mark_paid (User.role (current_user ctx))); simpl;
    [|split; reflexivity].
  destruct (db_reachable ctx); simpl; [|split; reflexivity].
  rewrite Hget; simpl.
  destruct (negb (UserRole.eqb (User.role (current_user ctx)) UserRole.SUPER_USER)
            && negb (col_eqb (User.branch_id (current_user ctx)) (Order.branch_id o)));
    simpl; [split; reflexivity|].
  rewrite Hpaid; simpl. split; reflexivity.
Qed.

(** The guard of [mark_order_paid] tests [PAID] alone: a [CANCELLED] order of
    the branch of a cashier is paid like a pending one. *)
Lemma mark_order_paid_unless_paid (ctx : Ctx) (order_id : Z) (db : DB) (o : Order.t) :
  may_mark_paid (User.role (current_user ctx)) = true ->
  db_reachable ctx = true ->
  Order_get db order_id = Some o ->
  User.branch_id (current_user ctx) = Some (Order.branch_id o) ->
  Order.status o <> OrderStatus.PAID ->
  Order_get (fst (mark_order_paid ctx order_id db)) order_id
  = Some (Order.set_paid (utcnow ctx) o)
  /\ field "success" (snd (mark_order_paid ctx order_id db)) = Some (JBool true).
Proof.
  intros Hrole Hdb Hget Hbranch Hstatus.
  unfold mark_order_paid, mark_order_paid_try, execute.
  rewrite Hrole, Hdb; simpl. rewrite Hget; simpl.
  rewrite Hbranch; simpl. rewrite Z.eqb_refl, andb_false_r.
  destruct (OrderStatus.eqb (Order.status o) OrderStatus.PAID) eqn:E.
  - apply OrderStatus_eqb_eq in E. contradiction.
  - simpl. split; [|reflexivity].
    unfold Order_get, Order_update in *; simpl.
    rewrite find_update_first; [now rewrite Hget|].
    intros x Hx; exact Hx.
Qed.


(** ** The logout check *)

Lemma count_nonneg {A : Type} (p : A -> bool) (l : list A) : 0 <= count p l.
Proof. unfold count. lia. Qed.

(** STEP 5 on the counts: the four cases. *)
Lemma logout_decision_cases (last : option Z) (total n m : Z) :
  let r := logout_decision last total n m in
  (0 < n -> 0 < m ->
   field "can_logout" r = Some (JBool false)
   /\ field "action_required" r = Some (JStr "both"))
  /\ (0 < n -> m <= 0 ->
      field "can_logout" r = Some (JBool false)
      /\ field "action_required" r = Some (JStr "report"))
  /\ (n <= 0 -> 0 < m ->
      field "can_logout" r = Some (JBool false)
      /\ field "action_required" r = Some (JStr "waiter_orders_then_report"))
  /\ (n <= 0 -> m <= 0 ->
      field "can_logout" r = Some (JBool true)
      /\ field "action_required" r = Some (JStr "none")).
Proof.
  cbv zeta. unfold logout_decision.
  destruct (0 <? n) eqn:En; destruct (0 <? m) eqn:Em; simpl;
    try apply Z.ltb_lt in En; try apply Z.ltb_lt in Em;
    try apply Z.ltb_ge in En; try apply Z.ltb_ge in Em;
    repeat split; intros; try lia; reflexivity.
Qed.

Lemma logout_decision_counts (last : option Z) (total n m : Z) :
  let r := logout_decision last total n m in
  field "orders_after_report" r = Some (JInt n)
  /\ field "unpaid_waiter_orders" r = Some (JInt m).
Proof.
  cbv zeta. unfold logout_decision.
  destruct (0 <? n); destruct (0 <? m); simpl; split; reflexivity.
Qed.

(** With a database that answers, the check of a cashier is STEP 5 on the
    counts of STEPS 1 to 3. *)
Lemma check_logout_permission_online (ctx : Ctx) (db : DB) :
  User.role (current_user ctx) = UserRole.CASHIER ->
  db_reachable ctx = true ->
  let today := date (utcnow ctx) in
  let c := User.id (current_user ctx) in
  let last :=
    latest_report_time (filter (report_session c today) (cashier_sessions db)) in
  check_logout_permission ctx db
  = logout_decision last
      (count (fun o => created_or_assigned c o
                       && (date (Order.created_at o) =? today)) (orders db))
      (count (orders_after_report_filter c today last) (orders db))
      (count (unpaid_waiter_order c) (orders db)).
Proof.
  intros Hrole Hdb. cbv zeta.
  unfold check_logout_permission, check_logout_permission_try, execute.
  rewrite Hrole, Hdb. reflexivity.
Qed.

(** C4.  For a cashier, the logout check answers [can_logout = false]
    exactly when the count of orders since the last report or the count of
    unpaid delegated orders is positive, and [can_logout = true] when both
    are zero; its [action_required] field names the blocking case: "report"
    when only a report is needed, "waiter_orders_then_report" when only
    unpaid delegated orders block, "both" otherwise. *)
Theorem check_logout_permission_decision (ctx : Ctx) (db : DB) :
  User.role (current_user ctx) = UserRole.CASHIER ->
  db_reachable ctx = true ->
  let today := date (utcnow ctx) in
  let c := User.id (current_user ctx) in
  let last :=
    latest_report_time (filter (report_session c today) (cashier_sessions db)) in
  let orders_since_report :=
    count (orders_after_report_filter c today last) (orders db) in
  let unpaid_delegated := count (unpaid_waiter_order c) (orders db) in
  let r := check_logout_permission ctx db in
  field "orders_after_report" r = Some (JInt orders_since_report)
  /\ field "unpaid_waiter_orders" r = Some (JInt unpaid_delegated)
  /\ (field "can_logout" r = Some (JBool false)
      <-> 0 < orders_since_report \/ 0 < unpaid_delegated)
  /\ (orders_since_report = 0 -> unpaid_delegated = 0 ->
      field "can_logout" r = Some (JBool true))
  /\ (0 < orders_since_report -> unpaid_delegated = 0 ->
      field "action_required" r = Some (JStr "report"))
  /\ (orders_since_report = 0 -> 0 < unpaid_delegated ->
      field "action_required" r = Some (JStr "waiter_orders_then_report"))
  /\ (0 < orders_since_report -> 0 < unpaid_delegated ->
      field "action_required" r = Some (JStr "both")).
Proof.
  intros Hrole Hdb. cbv zeta.
  rewrite (check_logout_permission_online ctx db Hrole Hdb).
  set (c := User.id (current_user ctx)).
  set (today := date (utcnow ctx)).
  set (last := latest_report_time _).
  set (total := count (fun o => _) (orders db)).
  set (n := count (orders_after_report_filter c today last) (orders db)).
  set (m := count (unpaid_waiter_order c) (orders db)).
  assert (Hn : 0 <= n) by apply count_nonneg.
  assert (Hm : 0 <= m) by apply count_nonneg.
  destruct (logout_decision_counts last total n m) as [Hcn Hcm].
  destruct (logout_decision_cases last total n m) as (Hboth & Hreport & Hwaiter & Hnone).
  split; [exact Hcn|]. split; [exact Hcm|]. split.
  - split.
    + intro Hblocked.
      destruct (Z_lt_le_dec 0 n) as [?|Hn0]; [now left|].
      destruct (Z_lt_le_dec 0 m) as [?|Hm0]; [now right|].
      destruct (Hnone Hn0 Hm0) as [Hfree _].
      rewrite Hfree in Hblocked. discriminate Hblocked.
    + intros [Hpos|Hpos].
      * destruct (Z_lt_le_dec 0 m) as [Hm1|Hm0].
        -- exact (proj1 (Hboth Hpos Hm1)).
        -- exact (proj1 (Hreport Hpos Hm0)).
      * destruct (Z_lt_le_dec 0 n) as [Hn1|Hn0].
        -- exact (proj1 (Hboth Hn1 Hpos)).
        -- exact (proj1 (Hwaiter Hn0 Hpos)).
  - split; [|split; [|split]].
    + intros Hn0 Hm0. apply Hnone; lia.
    + intros Hn1 Hm0. apply Hreport; lia.
    + intros Hn0 Hm1. apply Hwaiter; lia.
    + intros Hn1 Hm1. apply Hboth; lia.
Qed.

(** On the sample branch: Bob has three orders and no report (reason
    "report"); on the next day Alice has no order of the day but two unpaid
    delegated orders; on the next day Bob has neither. *)
Lemma check_logout_permission_decision_witness :
  let bob_today := check_logout_permission (Sample.ctx Sample.bob 1000) Sample.db in
  let alice_next_day :=
    check_logout_permission (Sample.ctx Sample.alice 87400) Sample.db in
  let bob_next_day :=
    check_logout_permission (Sample.ctx Sample.bob 87400) Sample.db in
  (field "orders_after_report" bob_today = Some (JInt 3)
   /\ field "unpaid_waiter_orders" bob_today = Some (JInt 0)
   /\ field "can_logout" bob_today = Some (JBool false)
   /\ field "action_required" bob_today = Some (JStr "report"))
  /\ (field "orders_after_report" alice_next_day = Some (JInt 0)
      /\ field "unpaid_waiter_orders" alice_next_day = Some (JInt 2)
      /\ field "can_logout" alice_next_day = Some (JBool false)
      /\ field "action_required" alice_next_day
         = Some (JStr "waiter_orders_then_report"))
  /\ field "can_logout" bob_next_day = Some (JBool true).
Proof.
  cbv zeta.
  pose proof (check_logout_permission_decision (Sample.ctx Sample.bob 1000)
                Sample.db eq_refl eq_refl) as B.
  pose proof (check_logout_permission_decision (Sample.ctx Sample.alice 87400)
                Sample.db eq_refl eq_refl) as A.
  pose proof (check_logout_permission_decision (Sample.ctx Sample.bob 87400)
                Sample.db eq_refl eq_refl) as N.
  cbv zeta in B, A, N.
  destruct B as (B1 & B2 & B3 & _ & B5 & _).
  destruct A as (A1 & A2 & A3 & _ & _ & A6 & _).
  destruct N as (_ & _ & _ & N4 & _).
  refine (conj (conj B1 (conj B2 (conj _ _)))
               (conj (conj A1 (conj A2 (conj _ _))) _)).
  - apply B3. left. vm_compute. reflexivity.
  - apply B5; vm_compute; reflexivity.
  - apply A3. right. vm_compute. reflexivity.
  - apply A6; vm_compute; reflexivity.
  - apply N4; vm_compute; reflexivity.
Defined.

(** The rules raise exactly when the database does not answer. *)
Lemma check_logout_permission_try_raises (ctx : Ctx) (db : DB) (e : string) :
  check_logout_permission_try ctx db = Raise e -> db_reachable ctx = false.
Proof.
  unfold check_logout_permission_try, execute.
  destruct (db_reachable ctx); simpl; [discriminate | reflexivity].
Qed.

(** C9.  The logout check fails open: when evaluating the rules raises an
    exception, the response is [can_logout = true] with the reason "System
    error - logout allowed", whatever orders the database holds. *)
Theorem check_logout_permission_fails_open (ctx : Ctx) (db : DB) (e : string) :
  check_logout_permission_try ctx db = Raise e ->
  field "can_logout" (check_logout_permission ctx db) = Some (JBool true)
  /\ (User.role (current_user ctx) = UserRole.CASHIER ->
      check_logout_permission ctx db
      = jsonify [("success", JBool true);
                 ("can_logout", JBool true);
                 ("reason", JStr "System error - logout allowed")]).
Proof.
  intro Hraise. unfold check_logout_permission. rewrite Hraise.
  split.
  - destruct (negb (UserRole.eqb (User.role (current_user ctx)) UserRole.CASHIER));
      reflexivity.
  - intro Hrole. rewrite Hrole. reflexivity.
Qed.

(** Alice has seven orders without report and two unpaid delegated orders;
    with the database unreachable she is allowed to log out. *)
Lemma check_logout_permission_fails_open_witness :
  count (orders_after_report_filter 1 19000 None) (orders Sample.db) = 7
  /\ count (unpaid_waiter_order 1) (orders Sample.db) = 2
  /\ field "can_logout"
       (check_logout_permission (Sample.offline Sample.alice 1000) Sample.db)
     = Some (JBool true).
Proof.
  split; [vm_compute; reflexivity|]. split; [vm_compute; reflexivity|].
  apply (check_logout_permission_fails_open
           (Sample.offline Sample.alice 1000) Sample.db "OperationalError").
  vm_compute. reflexivity.
Defined.

(** ** Transfer of delegated orders *)




Lemma find_by_key (rows : list Order.t) (o : Order.t) :
  NoDup (map Order.id rows) -> In o rows ->
  find (fun x => Order.id x =? Order.id o) rows = Some o.
Proof.
  induction rows as [|x rows IH]; simpl; intros Hkey Hin; [contradiction|].
  inversion Hkey as [|? ? Hnotin Hrest]; subst.
  destruct Hin as [->|Hin].
  - now rewrite Z.eqb_refl.
  - destruct (Order.id x =? Order.id o) eqn:E; [|now apply IH].
    apply Z.eqb_eq in E. exfalso. apply Hnotin. rewrite E.
    now apply in_map.
Qed.


(** Every refusal of [transfer_orders] leaves the database as it was. *)
Lemma transfer_orders_refusal (ctx : Ctx) (data : TransferRequest) (db : DB) :
  field "success" (snd (transfer_orders ctx data db)) <> Some (JBool true) ->
  fst (transfer_orders ctx data db) = db
  /\ field "success" (snd (transfer_orders ctx data db)) = Some (JBool false).
Proof.
  unfold transfer_orders, transfer_orders_try, execute.
  destruct (negb (UserRole.eqb (User.role (current_user ctx)) UserRole.CASHIER));
    [intros _; split; reflexivity|].
  destruct (order_ids data) as [|i ids]; [intros _; split; reflexivity|].
  destruct (truthy_int (target_cashier_id data)); [|intros _; split; reflexivity].
  destruct (target_cashier_id data) as [tid|]; [|intros _; split; reflexivity].
  destruct (db_reachable ctx); simpl; [|intros _; split; reflexivity].
  destruct (User_get db tid) as [target|]; [|intros _; split; reflexivity].
  match goal with |- context [if ?c then _ else _] => destruct c end;
    [intros _; split; reflexivity|].
  match goal with |- context [if ?c then _ else _] => destruct c end;
    [intros _; split; reflexivity|].
  simpl. intro H. now elim H.
Qed.

(** What a successful [transfer_orders] did. *)
Lemma transfer_orders_success (ctx : Ctx) (data : TransferRequest) (db : DB) :
  field "success" (snd (transfer_orders ctx data db)) = Some (JBool true) ->
  exists target,
    let ids := order_ids data in
    let selected := filter (transferable (current_user ctx) ids) (orders db) in
    target_cashier_id data = Some (User.id target)
    /\ User_get db (User.id target) = Some target
    /\ List.length selected = List.length ids
    /\ orders (fst (transfer_orders ctx data db))
       = update_where (transferable (current_user ctx) ids)
                      (transfer_one ctx target) (orders db)
    /\ audit_logs (fst (transfer_orders ctx data db))
       = (audit_logs db ++ map (transfer_audit ctx) selected)%list.
Proof.
  unfold transfer_orders, transfer_orders_try, execute.
  destruct (negb (UserRole.eqb (User.role (current_user ctx)) UserRole.CASHIER));
    [discriminate|].
  destruct (order_ids data) as [|i ids] eqn:Eids; [discriminate|].
  destruct (truthy_int (target_cashier_id data)); [|discriminate].
  destruct (target_cashier_id data) as [tid|]; [|discriminate].
  destruct (db_reachable ctx); simpl; [|discriminate].
  destruct (User_get db tid) as [target|] eqn:Etarget; [|discriminate].
  match goal with |- context [if ?c then _ else _] => destruct c end;
    [discriminate|].
  match goal with |- context [if ?c then _ else _] => destruct c eqn:Elen end;
    [discriminate|].
  simpl. intros _. exists target.
  assert (Htid : User.id target = tid).
  { unfold User_get in Etarget. apply find_some in Etarget.
    now apply Z.eqb_eq. }
  rewrite Htid. repeat split; try assumption.
  apply negb_false_iff, Nat.eqb_eq in Elen. exact Elen.
Qed.





(** ** Order creation by a waiter without assigned cashier *)

Lemma order_item_of_response (ctx : Ctx) (db : DB) (item_data : OrderItemData.t)
  (response : Response) :
  order_item_of ctx db item_data = Ok (inl response) ->
  exists msg, response = bad_request msg.
Proof.
  unfold order_item_of, execute, subscript.
  destruct (is_custom_price item_data).
  - destruct (OrderItemData.quantity item_data); simpl; [|discriminate].
    repeat match goal with
           | |- context [if ?c then _ else _] => destruct c; simpl
           | |- context [match ?c with Some _ => _ | None => _ end] =>
               destruct c; simpl
           end;
      intro H; inversion H; eauto.
  - destruct (OrderItemData.id item_data) as [[mid|k]|]; simpl; try discriminate.
    destruct (db_reachable ctx); simpl; [|discriminate].
    destruct (MenuItem_get db mid); simpl.
    + destruct (OrderItemData.quantity item_data); simpl; discriminate.
    + intro H; inversion H; eauto.
Qed.

Lemma build_order_items_response (ctx : Ctx) (db : DB)
  (items : list OrderItemData.t) (response : Response) :
  build_order_items ctx db items = Ok (inl response) ->
  exists msg, response = bad_request msg.
Proof.
  induction items as [|item_data rest IH]; simpl; [discriminate|].
  destruct (order_item_of ctx db item_data) as [[resp|item]|e] eqn:E; simpl;
    [| |discriminate].
  - intro H. inversion H; subst. exact (order_item_of_response _ _ _ _ E).
  - destruct (build_order_items ctx db rest) as [[resp|more]|e']; simpl;
      [| discriminate | discriminate].
    intro H. inversion H; subst. now apply IH.
Qed.

Lemma order_origin_no_assignment (ctx : Ctx) (data : CreateOrderRequest) (db : DB) :
  User.role (current_user ctx) = UserRole.WAITER ->
  no_assignment ctx db ->
  order_origin ctx data db
  = if db_reachable ctx then Ok (inl no_cashier_assignment)
    else Raise "OperationalError".
Proof.
  intros Hrole Hnone. unfold order_origin, execute, no_assignment in *.
  rewrite Hrole. simpl.
  destruct (db_reachable ctx); simpl; [|reflexivity].
  destruct (User.branch_id (current_user ctx)); [rewrite Hnone|]; reflexivity.
Qed.

(** C2, as the code has it.  A waiter without assignment record never
    creates an order: whatever the request, the database is left as it was
    (no order row, no counter increment) and the response is a failure.  The
    response is the [no_cashier_assignment] error when the request passes
    the checks that come first. *)
Theorem create_order_without_assignment (ctx : Ctx) (data : CreateOrderRequest)
  (db : DB) :
  User.role (current_user ctx) = UserRole.WAITER ->
  no_assignment ctx db ->
  let r := create_order ctx data db in
  fst r = db
  /\ orders (fst r) = orders db
  /\ order_counters (fst r) = order_counters db
  /\ field "success" (snd r) = Some (JBool false)
  /\ (passes_validation ctx data db ->
      snd r = no_cashier_assignment
      /\ field "error_type" (snd r) = Some (JStr "no_cashier_assignment")).
Proof.
  intros Hrole Hnone. cbv zeta.
  assert (Hmain :
    fst (create_order ctx data db) = db
    /\ field "success" (snd (create_order ctx data db)) = Some (JBool false)
    /\ (passes_validation ctx data db ->
        snd (create_order ctx data db) = no_cashier_assignment)).
  { unfold create_order, create_order_try, passes_validation.
    rewrite (order_origin_no_assignment ctx data db Hrole Hnone).
    remember (build_order_items ctx db (req_items data)) as built eqn:Ebuilt.
    symmetry in Ebuilt.
    destruct (req_items data) as [|item rest].
    { simpl. repeat split. intros (_ & Habs & _). now elim Habs. }
    unfold execute.
    destruct (db_reachable ctx);
      destruct (is_adding_items data);
      destruct (find_existing_order ctx data db);
      destruct built as [[resp|its]|e]; simpl;
      try (destruct (build_order_items_response ctx db _ resp Ebuilt) as [msg ->]);
      (split; [reflexivity|]); (split; [reflexivity|]);
      intros (Hr & Hi & Ha & [ni Hb]);
      first [ discriminate Hr | discriminate Hb
            | exfalso; apply Ha; reflexivity | reflexivity ]. }
  destruct Hmain as (Hdb & Hfail & Hsignal).
  rewrite Hdb. repeat split; try assumption.
  - now apply Hsignal.
  - rewrite Hsignal by assumption. reflexivity.
Qed.

(** Wendy has no assigned cashier; her well-formed order is refused with the
    [no_cashier_assignment] error and nothing is written. *)
Lemma create_order_without_assignment_witness :
  let data :=
    mkCreateOrderRequest (Some 7)
      [OrderItemData.mk (Some (MenuItemId 1)) false None (Some 2) None []]
      None false None (Some "no onions") None in
  let r := create_order (Sample.ctx Sample.wendy 1000) data Sample.db in
  fst r = Sample.db
  /\ field "error_type" (snd r) = Some (JStr "no_cashier_assignment").
Proof.
  cbv zeta.
  pose proof (create_order_without_assignment (Sample.ctx Sample.wendy 1000)
    (mkCreateOrderRequest (Some 7)
       [OrderItemData.mk (Some (MenuItemId 1)) false None (Some 2) None []]
       None false None (Some "no onions") None)
    Sample.db eq_refl) as H.
  cbv zeta in H.
  destruct H as (Hdb & _ & _ & _ & Hsignal); [vm_compute; reflexivity|].
  split; [exact Hdb|].
  apply Hsignal. unfold passes_validation.
  split; [reflexivity|]. split; [discriminate|]. split; [discriminate|].
  eexists. vm_compute. reflexivity.
Defined.

(** C2 as stated fails: Wendy has no assigned cashier, and her request
    with an empty list of items is answered by the validation error "No
    items in order" (status 400), which carries no [error_type]. *)
Lemma create_order_validation_error_first :
  let data := mkCreateOrderRequest (Some 7) [] None false None None None in
  let r := create_order (Sample.ctx Sample.wendy 1000) data Sample.db in
  User.role Sample.wendy = UserRole.WAITER
  /\ no_assignment (Sample.ctx Sample.wendy 1000) Sample.db
  /\ snd r = bad_request "No items in order"
  /\ field "error_type" (snd r) = None
  /\ snd r <> no_cashier_assignment.
Proof.
  cbv zeta. split; [reflexivity|]. split; [vm_compute; reflexivity|].
  split; [reflexivity|]. split; [reflexivity|].
  vm_compute. discriminate.
Qed.

(** ** The tag decides what a delegated order is *)

Lemma get_or_create_today_session_orders (ctx : Ctx) (c : Z) (db db' : DB)
  (session : CashierSession.t) :
  get_or_create_today_session ctx c db = Ok (db', session) ->
  orders db' = orders db.
Proof.
  unfold get_or_create_today_session, execute.
  destruct (db_reachable ctx); simpl; [|discriminate].
  destruct (find _ (cashier_sessions db)); intro H; inversion H; reflexivity.
Qed.

Lemma track_session_orders (ctx : Ctx) (db : DB) :
  orders (track_session ctx db) = orders db.
Proof.
  unfold track_session.
  destruct (UserRole.eqb (User.role (current_user ctx)) UserRole.CASHIER);
    [|reflexivity].
  destruct (get_or_create_today_session ctx (User.id (current_user ctx)) db)
    as [[db1 session]|e] eqn:E; [|reflexivity].
  simpl. exact (get_or_create_today_session_orders _ _ _ _ _ E).
Qed.

Lemma order_origin_waiter (ctx : Ctx) (data : CreateOrderRequest) (db : DB)
  (notes : option string) (assigned : option Z) (status : OrderStatus.t) :
  User.role (current_user ctx) = UserRole.WAITER ->
  order_origin ctx data db = Ok (inr (notes, assigned, status)) ->
  status = OrderStatus.PENDING
  /\ exists rest, notes = Some (WAITER_TAG ++ rest).
Proof.
  intro Hrole. unfold order_origin, execute. rewrite Hrole. simpl.
  destruct (db_reachable ctx); simpl; [|discriminate].
  destruct (User.branch_id (current_user ctx)) as [b|]; [|discriminate].
  destruct (WaiterCashierAssignment.get_assignment_for_waiter _ b _) as [a|];
    [|discriminate].
  destruct (User_get db (WaiterCashierAssignment.assigned_cashier_id a))
    as [cashier|]; [|discriminate].
  intro H. inversion H; subst. split; [reflexivity|].
  set (tail := " Created by: " ++ User.get_full_name (current_user ctx)
               ++ " | Assigned to: " ++ User.get_full_name cashier
               ++ " (Admin Assigned)").
  destruct (truthy_str (req_notes data)).
  - exists (tail ++ newline ++ or_empty (req_notes data)). reflexivity.
  - exists tail. reflexivity.
Qed.

Lemma order_origin_response (ctx : Ctx) (data : CreateOrderRequest) (db : DB)
  (response : Response) :
  order_origin ctx data db = Ok (inl response) ->
  response = no_cashier_assignment.
Proof.
  unfold order_origin, execute.
  destruct (UserRole.eqb (User.role (current_user ctx)) UserRole.WAITER);
    [|discriminate].
  destruct (db_reachable ctx); simpl; [|discriminate].
  match goal with
  | |- context [match ?found with Some x => _ | None => Ok (inl _) end] =>
      destruct found as [a|]
  end; [|intro H; now inversion H].
  destruct (User_get db (WaiterCashierAssignment.assigned_cashier_id a));
    intro H; now inversion H.
Qed.

Arguments track_session : simpl never.

(** The order that a successful creation inserts. *)
Lemma create_order_new_order (ctx : Ctx) (data : CreateOrderRequest) (db : DB) :
  field "is_update" (snd (create_order ctx data db)) = Some (JBool false) ->
  exists notes assigned status o,
    order_origin ctx data db = Ok (inr (notes, assigned, status))
    /\ orders (fst (create_order ctx data db)) = (orders db ++ [o])%list
    /\ Order.notes o = notes
    /\ Order.status o = status
    /\ Order.assigned_cashier_id o = assigned
    /\ Order.cashier_id o = Some (User.id (current_user ctx))
    /\ Order.edit_count o = Some 0.
Proof.
  unfold create_order, create_order_try.
  remember (build_order_items ctx db (req_items data)) as built eqn:Ebuilt.
  symmetry in Ebuilt.
  destruct (req_items data) as [|item rest]; [discriminate|].
  destruct (if is_adding_items data
            then execute ctx (find_existing_order ctx data db)
            else Ok None) as [existing|e]; simpl; [|discriminate].
  assert (Hbuilt : forall resp, built = Ok (inl resp) ->
                                field "is_update" resp = None).
  { intros resp ->.
    destruct (build_order_items_response ctx db _ resp Ebuilt) as [msg ->].
    reflexivity. }
  destruct built as [[resp|its]|e]; simpl.
  - destruct (is_adding_items data); destruct existing; simpl;
      try discriminate; rewrite (Hbuilt resp eq_refl); discriminate.
  - destruct (order_origin ctx data db) as [[resp|[[notes assigned] status]]|e]
      eqn:Eorigin; simpl.
    + apply order_origin_response in Eorigin. subst resp.
      destruct (is_adding_items data); destruct existing; discriminate.
    + destruct (parse_service_type (req_service_type data)) as [svc|e]; simpl;
        [|destruct (is_adding_items data); destruct existing; discriminate].
      destruct existing as [order|].
      { destruct (is_adding_items data); discriminate. }
      destruct (User.branch_id (current_user ctx)) as [branch|]; simpl;
        [|destruct (is_adding_items data); discriminate].
      destruct (OrderCounter.get_next_counter (utcnow ctx) branch
                  (order_counters db)) as [[counters n]|e]; simpl;
        [|destruct (is_adding_items data); discriminate].
      destruct (is_adding_items data); [discriminate|].
      intros _. exists notes, assigned, status. eexists.
      simpl. rewrite track_session_orders. simpl.
      repeat split; reflexivity.
    + destruct (is_adding_items data); destruct existing; discriminate.
  - destruct (is_adding_items data); destruct existing; discriminate.
Qed.


Lemma count_app {A : Type} (p : A -> bool) (l1 l2 : list A) :
  count p (l1 ++ l2) = count p l1 + count p l2.
Proof. unfold count. rewrite filter_app, length_app. lia. Qed.



(** ** Marking the daily report as printed *)

Lemma find_app_new {A : Type} (p : A -> bool) (l : list A) (x : A) :
  find p l = None -> p x = true -> find p (l ++ [x]) = Some x.
Proof.
  induction l as [|y l IH]; simpl; intros Hnone Hx.
  - now rewrite Hx.
  - destruct (p y); [discriminate | now apply IH].
Qed.

(** [get_or_create_today_session] returns the session that the lookup finds
    afterwards; a session it had to create is not marked as printed. *)
Lemma get_or_create_today_session_spec (ctx : Ctx) (db : DB) :
  db_reachable ctx = true ->
  exists db0 s0,
    get_or_create_today_session ctx (User.id (current_user ctx)) db = Ok (db0, s0)
    /\ session_of_today ctx db0 = Some s0
    /\ audit_logs db0 = audit_logs db
    /\ (forall s, session_of_today ctx db = Some s -> db0 = db /\ s0 = s)
    /\ (session_of_today ctx db = None ->
        CashierSession.daily_report_printed s0 = false).
Proof.
  intro Hdb. unfold get_or_create_today_session, session_of_today, execute.
  rewrite Hdb. simpl.
  destruct (find _ (cashier_sessions db)) as [s|] eqn:Efind.
  - exists db, s. repeat split; try assumption; congruence.
  - eexists. eexists. split; [reflexivity|]. simpl.
    split; [|split; [reflexivity|split; [discriminate|reflexivity]]].
    apply find_app_new; [exact Efind|].
    unfold today_session. simpl. now rewrite !Z.eqb_refl.
Qed.

Lemma session_mark_report_printed_spec (ctx : Ctx) (b : Z) (s0 : CashierSession.t)
  (db0 : DB) :
  User.branch_id (current_user ctx) = Some b ->
  session_of_today ctx db0 = Some s0 ->
  exists db1 s1,
    session_mark_report_printed ctx s0 db0 = Ok db1
    /\ session_of_today ctx db1 = Some s1
    /\ CashierSession.daily_report_printed s1 = true
    /\ CashierSession.report_printed_at s1 = Some (utcnow ctx)
    /\ audit_logs db1 = audit_logs db0.
Proof.
  intros Hbranch Hfound.
  unfold session_mark_report_printed, session_of_today in *.
  rewrite Hbranch.
  destruct (CashierSession.branch_id s0 =? 0);
    eexists; eexists; (split; [reflexivity|]); simpl;
    (rewrite find_update_first; [rewrite Hfound; simpl|intros x Hx; exact Hx]);
    repeat split; reflexivity.
Qed.

(** One call of [mark_daily_report_printed] by a cashier: the session of
    the day is marked at the time of the call, and an audit entry is added
    unless the session was marked already. *)
Lemma mark_daily_report_printed_once (ctx : Ctx) (b : Z) (db : DB) :
  User.role (current_user ctx) = UserRole.CASHIER ->
  User.branch_id (current_user ctx) = Some b ->
  db_reachable ctx = true ->
  let db1 := fst (mark_daily_report_printed ctx db) in
  (exists s1,
     session_of_today ctx db1 = Some s1
     /\ CashierSession.daily_report_printed s1 = true
     /\ CashierSession.report_printed_at s1 = Some (utcnow ctx))
  /\ (forall s, session_of_today ctx db = Some s ->
                CashierSession.daily_report_printed s = true ->
                audit_logs db1 = audit_logs db)
  /\ ((forall s, session_of_today ctx db = Some s ->
                 CashierSession.daily_report_printed s = false) ->
      audit_logs db1
      = (audit_logs db
         ++ [AuditLog.mk (User.id (current_user ctx)) "DAILY_REPORT_MARKED"
                         (utcnow ctx)])%list).
Proof.
  intros Hrole Hbranch Hdb. cbv zeta.
  unfold mark_daily_report_printed, mark_daily_report_printed_try.
  rewrite Hrole. simpl.
  destruct (get_or_create_today_session_spec ctx db Hdb)
    as (db0 & s0 & Hget & Hfound & Haudit0 & Hold & Hnew).
  rewrite Hget. simpl.
  destruct (session_mark_report_printed_spec ctx b s0 db0 Hbranch Hfound)
    as (db1 & s1 & Hmark & Hfound1 & Hprinted & Hat & Haudit1).
  rewrite Hmark. simpl.
  assert (Hsession :
    forall d, cashier_sessions d = cashier_sessions db1 ->
              session_of_today ctx d = Some s1).
  { intros d Hd. unfold session_of_today in *. now rewrite Hd. }
  destruct (CashierSession.daily_report_printed s0) eqn:Ewas; simpl.
  - split; [exists s1; auto|]. split.
    + intros s _ _. congruence.
    + intro Hfresh. exfalso.
      destruct (session_of_today ctx db) as [s|] eqn:Eold.
      * destruct (Hold s eq_refl) as [_ Heq].
        pose proof (Hfresh s eq_refl) as Hno. congruence.
      * pose proof (Hnew eq_refl) as Hno. congruence.
  - split; [exists s1; auto|]. split.
    + intros s Hs Hp. destruct (Hold s Hs) as [_ Heq]. congruence.
    + intros _. congruence.
Qed.

Lemma session_of_today_same_day (ctx1 ctx2 : Ctx) (db : DB) :
  current_user ctx2 = current_user ctx1 ->
  date (utcnow ctx2) = date (utcnow ctx1) ->
  session_of_today ctx2 db = session_of_today ctx1 db.
Proof. unfold session_of_today. now intros -> ->. Qed.

(** C5, as the code has it.  A cashier marks the report of a session that
    was not marked yet, and marks it again on the same day: the two calls of
    [mark_daily_report_printed] leave exactly one audit entry, that of the
    first call, and the session carries the time of the second call (the
    first timestamp is replaced). *)
Theorem mark_daily_report_printed_twice (ctx1 ctx2 : Ctx) (b : Z) (db : DB) :
  current_user ctx2 = current_user ctx1 ->
  User.role (current_user ctx1) = UserRole.CASHIER ->
  User.branch_id (current_user ctx1) = Some b ->
  db_reachable ctx1 = true ->
  db_reachable ctx2 = true ->
  date (utcnow ctx2) = date (utcnow ctx1) ->
  (forall s, session_of_today ctx1 db = Some s ->
             CashierSession.daily_report_printed s = false) ->
  let db1 := fst (mark_daily_report_printed ctx1 db) in
  let db2 := fst (mark_daily_report_printed ctx2 db1) in
  audit_logs db2
  = (audit_logs db
     ++ [AuditLog.mk (User.id (current_user ctx1)) "DAILY_REPORT_MARKED"
                     (utcnow ctx1)])%list
  /\ (exists s1,
        session_of_today ctx1 db1 = Some s1
        /\ CashierSession.report_printed_at s1 = Some (utcnow ctx1))
  /\ (exists s2,
        session_of_today ctx2 db2 = Some s2
        /\ CashierSession.daily_report_printed s2 = true
        /\ CashierSession.report_printed_at s2 = Some (utcnow ctx2)).
Proof.
  intros Huser Hrole Hbranch Hdb1 Hdb2 Hday Hfresh db1 db2.
  destruct (mark_daily_report_printed_once ctx1 b db Hrole Hbranch Hdb1)
    as ((s1 & Hs1 & Hp1 & Ht1) & _ & Hfirst).
  fold db1 in Hs1, Hfirst.
  assert (Hrole2 : User.role (current_user ctx2) = UserRole.CASHIER)
    by now rewrite Huser.
  assert (Hbranch2 : User.branch_id (current_user ctx2) = Some b)
    by now rewrite Huser.
  destruct (mark_daily_report_printed_once ctx2 b db1 Hrole2 Hbranch2 Hdb2)
    as ((s2 & Hs2 & Hp2 & Ht2) & Hagain & _).
  fold db2 in Hs2, Hagain.
  split; [|split].
  - rewrite (Hagain s1); [now apply Hfirst | | exact Hp1].
    now rewrite (session_of_today_same_day ctx1 ctx2 db1 Huser Hday).
  - exists s1. now split.
  - exists s2. now repeat split.
Qed.

(** Bob marks his report 1000 and 2000 seconds after midnight. *)
Lemma mark_daily_report_printed_twice_witness :
  let db1 := fst (mark_daily_report_printed (Sample.ctx Sample.bob 1000) Sample.db) in
  let db2 := fst (mark_daily_report_printed (Sample.ctx Sample.bob 2000) db1) in
  List.length (audit_logs db2) = 1%nat
  /\ exists s2,
       session_of_today (Sample.ctx Sample.bob 2000) db2 = Some s2
       /\ CashierSession.report_printed_at s2 = Some (Sample.midnight + 2000).
Proof.
  cbv zeta.
  destruct (mark_daily_report_printed_twice
              (Sample.ctx Sample.bob 1000) (Sample.ctx Sample.bob 2000) 1
              Sample.db eq_refl eq_refl eq_refl eq_refl eq_refl)
    as (Haudit & _ & (s2 & Hs2 & _ & Ht2)).
  - vm_compute. reflexivity.
  - intros s Hs. vm_compute in Hs. discriminate Hs.
  - split.
    + rewrite Haudit. reflexivity.
    + exists s2. split; [exact Hs2 | exact Ht2].
Defined.

(** C5 as stated fails.  After Bob's two calls the session carries the time
    of the second call, not of the first; and through [daily_report], which
    marks the session whenever the PDF is built, the two calls leave two
    audit entries. *)
Lemma report_timestamp_is_overwritten :
  let first := Sample.ctx Sample.bob 1000 in
  let second := Sample.ctx Sample.bob 2000 in
  let marked := fst (mark_daily_report_printed second
                       (fst (mark_daily_report_printed first Sample.db))) in
  let printed := fst (daily_report second (fst (daily_report first Sample.db))) in
  option_map CashierSession.report_printed_at (session_of_today second marked)
  = Some (Some (utcnow second))
  /\ option_map CashierSession.report_printed_at (session_of_today second printed)
     = Some (Some (utcnow second))
  /\ utcnow second <> utcnow first
  /\ List.length (audit_logs printed) = 2%nat.
Proof.
  cbv zeta. split; [vm_compute; reflexivity|].
  split; [vm_compute; reflexivity|].
  split; [vm_compute; discriminate | vm_compute; reflexivity].
Qed.

(** ** Editing an order *)




(** ** The edit counter never goes down *)





Lemma session_mark_report_printed_orders (ctx : Ctx) (session : CashierSession.t)
  (db db' : DB) :
  session_mark_report_printed ctx session db = Ok db' -> orders db' = orders db.
Proof.
  unfold session_mark_report_printed.
  destruct (CashierSession.branch_id session =? 0);
    [destruct (User.branch_id (current_user ctx))|];
    intro H; inversion H; reflexivity.
Qed.

Lemma mark_daily_report_printed_orders (ctx : Ctx) (db : DB) :
  orders (fst (mark_daily_report_printed ctx db)) = orders db.
Proof.
  unfold mark_daily_report_printed, mark_daily_report_printed_try, created_session.
  destruct (negb (UserRole.eqb (User.role (current_user ctx)) UserRole.CASHIER));
    [reflexivity|].
  destruct (get_or_create_today_session ctx (User.id (current_user ctx)) db)
    as [[db1 session]|e] eqn:E; simpl; [|reflexivity].
  pose proof (get_or_create_today_session_orders _ _ _ _ _ E) as H1.
  destruct (session_mark_report_printed ctx session db1) as [db2|e] eqn:E2; simpl.
  - pose proof (session_mark_report_printed_orders _ _ _ _ E2) as H2.
    destruct (negb (CashierSession.daily_report_printed session)); simpl;
      congruence.
  - exact H1.
Qed.

Lemma daily_report_orders (ctx : Ctx) (db : DB) :
  orders (fst (daily_report ctx db)) = orders db.
Proof.
  unfold daily_report, daily_report_mark, execute.
  destruct (negb (UserRole.eqb (User.role (current_user ctx)) UserRole.CASHIER));
    [reflexivity|].
  destruct (db_reachable ctx) eqn:Edb; [|reflexivity].
  destruct (0 <? count _ (orders db)); [reflexivity|]. simpl.
  destruct (get_or_create_today_session ctx (User.id (current_user ctx)) db)
    as [[db1 session]|e] eqn:E; [|reflexivity].
  pose proof (get_or_create_today_session_orders _ _ _ _ _ E) as H1.
  destruct (session_mark_report_printed ctx session db1) as [db2|e] eqn:E2;
    [|exact H1].
  pose proof (session_mark_report_printed_orders _ _ _ _ E2) as H2.
  simpl. congruence.
Qed.


Lemma success_or_not (r : Response) :
  field "success" r = Some (JBool true) \/ field "success" r <> Some (JBool true).
Proof.
  destruct (field "success" r) as [[|[|]|n|t]|];
    first [left; reflexivity | right; discriminate].
Qed.


Lemma save_order_changes_refusal (ctx : Ctx) (data : EditRequest) (db : DB) :
  field "success" (snd (save_order_changes ctx data db)) <> Some (JBool true) ->
  fst (save_order_changes ctx data db) = db.
Proof.
  unfold save_order_changes, save_order_changes_try, execute.
  destruct (negb (UserRole.eqb (User.role (current_user ctx)) UserRole.CASHIER));
    [reflexivity|].
  destruct (db_reachable ctx); simpl; [|reflexivity].
  destruct (match edit_order_id data with
            | Some oid => Order_get db oid
            | None => None
            end) as [o|]; simpl; [|reflexivity].
  repeat match goal with
         | |- context [if ?c then _ else _] =>
             destruct c; simpl; try reflexivity
         end.
  destruct (edit_loop _ _ _ _) as [st|e]; simpl; [|reflexivity].
  intro H. now elim H.
Qed.











(** ** The counter drawn by a new order *)

Lemma get_or_create_today_session_counters (ctx : Ctx) (c : Z) (db db' : DB)
  (session : CashierSession.t) :
  get_or_create_today_session ctx c db = Ok (db', session) ->
  order_counters db' = order_counters db.
Proof.
  unfold get_or_create_today_session, execute.
  destruct (db_reachable ctx); simpl; [|discriminate].
  destruct (find _ (cashier_sessions db)); intro H; inversion H; reflexivity.
Qed.

Lemma track_session_counters (ctx : Ctx) (db : DB) :
  order_counters (track_session ctx db) = order_counters db.
Proof.
  unfold track_session.
  destruct (UserRole.eqb (User.role (current_user ctx)) UserRole.CASHIER);
    [|reflexivity].
  destruct (get_or_create_today_session ctx (User.id (current_user ctx)) db)
    as [[db1 session]|e] eqn:E; [|reflexivity].
  simpl. exact (get_or_create_today_session_counters _ _ _ _ _ E).
Qed.

(** A new order is committed together with the counter value drawn for it:
    the value that [get_next_counter] returns for the branch of the user is
    the [order_counter] of the order, and the table of counters is the one
    that the call leaves. *)
Lemma create_order_draws_counter (ctx : Ctx) (data : CreateOrderRequest) (db : DB) :
  field "is_update" (snd (create_order ctx data db)) = Some (JBool false) ->
  exists branch counters value o,
    User.branch_id (current_user ctx) = Some branch
    /\ OrderCounter.get_next_counter (utcnow ctx) branch (order_counters db)
       = Ok (counters, value)
    /\ order_counters (fst (create_order ctx data db)) = counters
    /\ orders (fst (create_order ctx data db)) = (orders db ++ [o])%list
    /\ Order.branch_id o = branch
    /\ Order.order_counter o = Some value.
Proof.
  unfold create_order, create_order_try.
  remember (build_order_items ctx db (req_items data)) as built eqn:Ebuilt.
  symmetry in Ebuilt.
  destruct (req_items data) as [|item rest]; [discriminate|].
  destruct (if is_adding_items data
            then execute ctx (find_existing_order ctx data db)
            else Ok None) as [existing|e]; simpl; [|discriminate].
  assert (Hbuilt : forall resp, built = Ok (inl resp) ->
                                field "is_update" resp = None).
  { intros resp ->.
    destruct (build_order_items_response ctx db _ resp Ebuilt) as [msg ->].
    reflexivity. }
  destruct built as [[resp|its]|e]; simpl.
  - destruct (is_adding_items data); destruct existing; simpl;
      try discriminate; rewrite (Hbuilt resp eq_refl); discriminate.
  - destruct (order_origin ctx data db) as [[resp|[[notes assigned] status]]|e]
      eqn:Eorigin; simpl.
    + apply order_origin_response in Eorigin. subst resp.
      destruct (is_adding_items data); destruct existing; discriminate.
    + destruct (parse_service_type (req_service_type data)) as [svc|e]; simpl;
        [|destruct (is_adding_items data); destruct existing; discriminate].
      destruct existing as [order|].
      { destruct (is_adding_items data); discriminate. }
      destruct (User.branch_id (current_user ctx)) as [branch|]; simpl;
        [|destruct (is_adding_items data); discriminate].
      destruct (OrderCounter.get_next_counter (utcnow ctx) branch
                  (order_counters db)) as [[counters n]|e] eqn:Enext; simpl;
        [|destruct (is_adding_items data); discriminate].
      destruct (is_adding_items data); [discriminate|].
      intros _. exists branch, counters, n. eexists.
      simpl. rewrite track_session_orders, track_session_counters. simpl.
      repeat split; first [exact Enext | reflexivity].
    + destruct (is_adding_items data); destruct existing; discriminate.
  - destruct (is_adding_items data); destruct existing; discriminate.
Qed.

(** ** PIN records *)

(** C7, as the code has it.  Setting a cashier PIN stores the hash of the
    PIN and nothing else of it, and verification is [check_password_hash]
    on the stored hash of the active record, [False] without one.  Setting
    an administrative PIN stores the hash and, in the legacy column
    [pin_code], the PIN itself; its check uses the stored hash when there is
    one and compares with the legacy column when the hash is empty, and
    [verify_pin] is [False] without an active record of the branch. *)
Theorem pin_records (W : Werkzeug) :
  (forall salt pin pin' r,
     generate_password_hash W salt pin = generate_password_hash W salt pin' ->
     CashierPin.set_pin W salt pin r = CashierPin.set_pin W salt pin' r)
  /\ (forall salt pin r,
        CashierPin.pin_code_hash (CashierPin.set_pin W salt pin r)
        = generate_password_hash W salt pin
        /\ CashierPin.check_pin W (CashierPin.set_pin W salt pin r) pin = true)
  /\ (forall table cashier branch pin,
        (forall r,
           find (fun r => (CashierPin.cashier_id r =? cashier)
                          && (CashierPin.branch_id r =? branch)
                          && CashierPin.is_active r) table = Some r ->
           CashierPin.verify_cashier_pin W table cashier branch pin
           = check_password_hash W (CashierPin.pin_code_hash r) pin)
        /\ ((forall r, In r table ->
                       CashierPin.cashier_id r = cashier ->
                       CashierPin.branch_id r = branch ->
                       CashierPin.is_active r = false) ->
            CashierPin.verify_cashier_pin W table cashier branch pin = false))
  /\ (forall salt pin r,
        AdminPinCode.pin_code_hash (AdminPinCode.set_pin W salt pin r)
        = generate_password_hash W salt pin
        /\ AdminPinCode.pin_code (AdminPinCode.set_pin W salt pin r) = Some pin)
  /\ (forall r pin,
        (AdminPinCode.pin_code_hash r <> EmptyString ->
         AdminPinCode.check_pin W r pin
         = check_password_hash W (AdminPinCode.pin_code_hash r) pin)
        /\ (forall legacy,
              AdminPinCode.pin_code_hash r = EmptyString ->
              AdminPinCode.pin_code r = Some legacy ->
              legacy <> EmptyString ->
              AdminPinCode.check_pin W r pin = String.eqb legacy pin))
  /\ (forall table branch pin,
        (forall r, In r table -> AdminPinCode.branch_id r = branch ->
                   AdminPinCode.is_active r = false) ->
        AdminPinCode.verify_pin W table branch pin = false).
Proof.
  split; [|split; [|split; [|split; [|split]]]].
  - intros salt pin pin' r H. unfold CashierPin.set_pin. now rewrite H.
  - intros salt pin r. split; [reflexivity|].
    unfold CashierPin.check_pin. simpl. apply check_generated.
  - intros table cashier branch pin. split.
    + intros r Hfind. unfold CashierPin.verify_cashier_pin.
      now rewrite Hfind.
    + intro Hnone. unfold CashierPin.verify_cashier_pin.
      destruct (find _ table) as [r|] eqn:Efind; [|reflexivity].
      apply find_some in Efind. destruct Efind as [Hin Hcond].
      apply andb_true_iff in Hcond. destruct Hcond as [Hkey Hactive].
      apply andb_true_iff in Hkey. destruct Hkey as [Hc Hb].
      apply Z.eqb_eq in Hc. apply Z.eqb_eq in Hb.
      rewrite (Hnone r Hin Hc Hb) in Hactive. discriminate Hactive.
  - intros salt pin r. split; reflexivity.
  - intros r pin. split.
    + intro Hhash. unfold AdminPinCode.check_pin.
      destruct (AdminPinCode.pin_code_hash r); [now elim Hhash | reflexivity].
    + intros legacy Hhash Hlegacy Hne. unfold AdminPinCode.check_pin.
      rewrite Hhash, Hlegacy.
      destruct legacy; [now elim Hne | reflexivity].
  - intros table branch pin Hnone. unfold AdminPinCode.verify_pin.
    destruct (find _ table) as [r|] eqn:Efind; [|reflexivity].
    apply find_some in Efind. destruct Efind as [Hin Hcond].
    apply andb_true_iff in Hcond. destruct Hcond as [Hb Hactive].
    apply Z.eqb_eq in Hb.
    rewrite (Hnone r Hin Hb) in Hactive. discriminate Hactive.
Qed.

(** Cashier 1 sets the PIN 1234: it verifies, another PIN of another length
    does not, and an inactive record verifies nothing. *)
Lemma pin_records_witness :
  let W := SampleHash.werkzeug in
  let record := CashierPin.set_pin W "salt" "1234" (CashierPin.mk 1 1 "" true) in
  let inactive := CashierPin.mk 1 1 (CashierPin.pin_code_hash record) false in
  CashierPin.verify_cashier_pin W [record] 1 1 "1234" = true
  /\ CashierPin.verify_cashier_pin W [record] 1 1 "12345" = false
  /\ CashierPin.verify_cashier_pin W [inactive] 1 1 "1234" = false
  /\ CashierPin.verify_cashier_pin W [record] 2 1 "1234" = false.
Proof.
  cbv zeta.
  destruct (pin_records SampleHash.werkzeug) as (_ & Hset & Hverify & _).
  set (record := CashierPin.set_pin SampleHash.werkzeug "salt" "1234"
                   (CashierPin.mk 1 1 "" true)).
  split; [|split; [|split]].
  - rewrite (proj1 (Hverify [record] 1 1 "1234") record eq_refl).
    exact (proj2 (Hset "salt" "1234" (CashierPin.mk 1 1 "" true))).
  - rewrite (proj1 (Hverify [record] 1 1 "12345") record eq_refl).
    reflexivity.
  - apply (proj2 (Hverify [CashierPin.mk 1 1 (CashierPin.pin_code_hash record) false]
                    1 1 "1234")).
    intros r [<-|[]] _ _. reflexivity.
  - apply (proj2 (Hverify [record] 2 1 "1234")).
    intros r [<-|[]] Hc _. discriminate Hc.
Defined.

(** C7 as stated fails for the administrative PIN: after [set_pin] the
    record holds the PIN itself in [pin_code], and a record without hash is
    checked against that plain text. *)
Lemma admin_pin_kept_in_plain_text :
  let W := SampleHash.werkzeug in
  let blank := AdminPinCode.mk None 1 "" "order_editing" true None in
  let legacy := AdminPinCode.mk None 1 "" "order_editing" true (Some "1234") in
  AdminPinCode.pin_code (AdminPinCode.set_pin W "salt" "1234" blank) = Some "1234"
  /\ AdminPinCode.check_pin W legacy "1234" = true
  /\ AdminPinCode.verify_pin W [legacy] 1 "1234" = true.
Proof. cbv zeta. repeat split. Qed.

(** ** The branch order counter *)

Lemma load_incremented (now b value : Z) (table : list OrderCounter.t)
  (row : OrderCounter.t) :
  OrderCounter.load b table = Some row ->
  OrderCounter.load b
    (update_first (OrderCounter.for_branch b)
       (fun r => OrderCounter.mk (OrderCounter.branch_id r) value
                   (OrderCounter.last_reset_date r) now) table)
  = Some (OrderCounter.mk (OrderCounter.branch_id row) value
            (OrderCounter.last_reset_date row) now).
Proof.
  intro Hload. unfold OrderCounter.load in *.
  rewrite find_update_first; [now rewrite Hload|].
  intros x Hx. exact Hx.
Qed.

Lemma get_next_counter_twice (now1 now2 b : Z) (table : list OrderCounter.t) :
  exists table1 table2 value,
    OrderCounter.get_next_counter now1 b table = Ok (table1, value)
    /\ OrderCounter.get_next_counter now2 b table1 = Ok (table2, value + 1)
    /\ (forall row, OrderCounter.load b table = Some row ->
                    value = OrderCounter.current_counter row + 1)
    /\ (OrderCounter.load b table = None -> value = 1).
Proof.
  unfold OrderCounter.get_next_counter.
  destruct (OrderCounter.load b table) as [row|] eqn:Eload.
  - eexists. eexists. exists (OrderCounter.current_counter row + 1).
    split; [reflexivity|]. split.
    + rewrite (load_incremented now1 b _ table row Eload). reflexivity.
    + split; [|discriminate]. intros r H. now inversion H.
  - assert (Hnone : existsb (OrderCounter.for_branch b) table = false).
    { apply not_true_is_false. intro H. apply existsb_exists in H.
      destruct H as [x [Hin Hx]].
      unfold OrderCounter.load in Eload.
      pose proof (find_none _ _ Eload x Hin) as Hno. congruence. }
    assert (Hfirst :
      OrderCounter.increment_and_flush now1 b None table
      = Ok ((table ++ [OrderCounter.mk b 1 None now1])%list, 1)).
    { unfold OrderCounter.increment_and_flush. now rewrite Hnone. }
    rewrite Hfirst.
    eexists. eexists. exists 1. split; [reflexivity|]. split.
    + unfold OrderCounter.load.
      rewrite (find_app_new (OrderCounter.for_branch b) table
                 (OrderCounter.mk b 1 None now1)).
      * reflexivity.
      * exact Eload.
      * unfold OrderCounter.for_branch. simpl. apply Z.eqb_refl.
    + split; [discriminate | reflexivity].
Qed.

(** C8, as the code has it.  [get_next_counter] reads the row of the
    branch, adds one and writes the sum back; it takes no lock.  Two calls
    that run one after the other return consecutive values: the value read
    plus one, then plus two (6 then 7 from 5), or 1 then 2 for a branch
    without row; so do two requests whose statements do not alternate.  The
    value is drawn in the transaction that creates the order: a new order is
    committed with the value as its [order_counter], together with the
    counter row. *)
Theorem get_next_counter_consecutive :
  (forall now1 now2 b table,
     exists table1 table2 value,
       OrderCounter.get_next_counter now1 b table = Ok (table1, value)
       /\ OrderCounter.get_next_counter now2 b table1 = Ok (table2, value + 1)
       /\ (forall row, OrderCounter.load b table = Some row ->
                       value = OrderCounter.current_counter row + 1)
       /\ (OrderCounter.load b table = None -> value = 1))
  /\ (forall now b table,
        exists value,
          let final :=
            Concurrent.run now b [true; true; false; false]
              (Concurrent.mkWorld table Concurrent.Started Concurrent.Started) in
          Concurrent.first final = Concurrent.Returned value
          /\ Concurrent.second final = Concurrent.Returned (value + 1))
  /\ (forall ctx data db,
        field "is_update" (snd (create_order ctx data db)) = Some (JBool false) ->
        exists branch counters value o,
          User.branch_id (current_user ctx) = Some branch
          /\ OrderCounter.get_next_counter (utcnow ctx) branch (order_counters db)
             = Ok (counters, value)
          /\ order_counters (fst (create_order ctx data db)) = counters
          /\ orders (fst (create_order ctx data db)) = (orders db ++ [o])%list
          /\ Order.branch_id o = branch
          /\ Order.order_counter o = Some value).
Proof.
  split; [|split].
  - intros now1 now2 b table. apply get_next_counter_twice.
  - intros now b table.
    destruct (get_next_counter_twice now now b table)
      as (table1 & table2 & value & H1 & H2 & _).
    exists value. cbv zeta.
    unfold OrderCounter.get_next_counter in H1, H2.
    unfold Concurrent.run, Concurrent.step, Concurrent.advance. simpl.
    rewrite H1. simpl. rewrite H2. simpl. split; reflexivity.
  - intros ctx data db. apply create_order_draws_counter.
Qed.

(** Branch 1 of the sample is at 5: the next two calls return 6 and 7, and
    Walt's new order is committed with number 6 and the counter at 6. *)
Lemma get_next_counter_consecutive_witness :
  (exists table1 table2,
     OrderCounter.get_next_counter 100 1 (order_counters Sample.db) = Ok (table1, 6)
     /\ OrderCounter.get_next_counter 200 1 table1 = Ok (table2, 7))
  /\ (let r := create_order (Sample.ctx Sample.walt 1000)
                 (mkCreateOrderRequest (Some 7)
                    [OrderItemData.mk (Some (MenuItemId 1)) false None (Some 2)
                       None []]
                    None false None (Some "no onions") None) Sample.db in
      exists o,
        orders (fst r) = (orders Sample.db ++ [o])%list
        /\ Order.order_counter o = Some 6
        /\ map OrderCounter.current_counter (order_counters (fst r)) = [6]).
Proof.
  destruct get_next_counter_consecutive as (Htwice & _ & Hdrawn).
  split.
  - destruct (Htwice 100 200 1 (order_counters Sample.db))
      as (table1 & table2 & value & H1 & H2 & Hrow & _).
    assert (Hvalue : value = 6).
    { apply (Hrow (OrderCounter.mk 1 5 None 0)). reflexivity. }
    subst value. exists table1, table2. split; assumption.
  - cbv zeta.
    destruct (Hdrawn (Sample.ctx Sample.walt 1000)
                (mkCreateOrderRequest (Some 7)
                   [OrderItemData.mk (Some (MenuItemId 1)) false None (Some 2)
                      None []]
                   None false None (Some "no onions") None) Sample.db)
      as (branch & counters & value & o & Hbranch & Hnext & Hcounters & Horders
          & _ & Hnumber); [vm_compute; reflexivity|].
    injection Hbranch as <-.
    vm_compute in Hnext. injection Hnext as Hrow Hvalue.
    exists o. split; [exact Horders|]. split.
    + rewrite Hnumber, <- Hvalue. reflexivity.
    + rewrite Hcounters, <- Hrow. reflexivity.
Defined.

(** C8 as stated fails.  With the counter of the branch at 5, the first
    request reads the row, the second reads it, the first writes 6 and
    returns, the second writes 6 and returns: both orders get 6. *)
Lemma concurrent_calls_return_same_value :
  let start :=
    Concurrent.mkWorld [OrderCounter.mk 1 5 None 0]
                       Concurrent.Started Concurrent.Started in
  let final := Concurrent.run 100 1 [true; false; true; false] start in
  Concurrent.first final = Concurrent.Returned 6
  /\ Concurrent.second final = Concurrent.Returned 6
  /\ map OrderCounter.current_counter (Concurrent.table final) = [6].
Proof. cbv zeta. repeat split. Qed.

(** * Further properties of the handlers *)

(** ** Marking an order as paid: what is written, and what is refused *)

Lemma find_update_first_apart {A : Type} (p q : A -> bool) (f : A -> A)
  (l : list A) :
  (forall x, p x = true -> q x = false /\ q (f x) = false) ->
  find q (update_first p f l) = find q l.
Proof.
  intro Hapart. induction l as [|x l IH]; simpl; [reflexivity|].
  destruct (p x) eqn:Ep; simpl.
  - destruct (Hapart x Ep) as [H1 H2]. now rewrite H1, H2.
  - destruct (q x); [reflexivity | exact IH].
Qed.

Lemma col_eqb_neq (a : option Z) (b : Z) : a <> Some b -> col_eqb a b = false.
Proof.
  intro H. destruct (col_eqb a b) eqn:E; [|reflexivity].
  apply col_eqb_eq in E. contradiction.
Qed.



(** X2.  What [mark_order_paid] refuses, and that a refusal writes nothing:
    a role other than cashier, branch admin and super user (403); an order
    of another branch, unless the user is a super user (403); an order that
    does not exist, or a database that does not answer (500); an order that
    is already paid (400). *)
Theorem mark_order_paid_refusals (ctx : Ctx) (order_id : Z) (db : DB) :
  let user := current_user ctx in
  let r := mark_order_paid ctx order_id db in
  (may_mark_paid (User.role user) = false -> fst r = db /\ snd (snd r) = 403)
  /\ (may_mark_paid (User.role user) = true ->
      db_reachable ctx = false \/ Order_get db order_id = None ->
      fst r = db /\ snd (snd r) = 500)
  /\ (forall o,
        may_mark_paid (User.role user) = true ->
        db_reachable ctx = true ->
        Order_get db order_id = Some o ->
        User.role user <> UserRole.SUPER_USER ->
        User.branch_id user <> Some (Order.branch_id o) ->
        fst r = db /\ snd (snd r) = 403)
  /\ (forall o,
        may_mark_paid (User.role user) = true ->
        db_reachable ctx = true ->
        Order_get db order_id = Some o ->
        User.role user = UserRole.SUPER_USER
        \/ User.branch_id user = Some (Order.branch_id o) ->
        Order.status o = OrderStatus.PAID ->
        fst r = db /\ snd (snd r) = 400).
Proof.
  cbv zeta. unfold mark_order_paid, mark_order_paid_try, execute.
  split; [|split; [|split]].
  - intro Hrole. rewrite Hrole. split; reflexivity.
  - intros Hrole [Hdb|Hget]; rewrite Hrole; simpl.
    + rewrite Hdb. split; reflexivity.
    + destruct (db_reachable ctx); simpl; [rewrite Hget|]; split; reflexivity.
  - intros o Hrole Hdb Hget Hsuper Hbranch. rewrite Hrole, Hdb. simpl.
    rewrite Hget. simpl. rewrite (col_eqb_neq _ _ Hbranch).
    destruct (UserRole.eqb (User.role (current_user ctx)) UserRole.SUPER_USER)
      eqn:E; [apply UserRole_eqb_eq in E; contradiction|].
    split; reflexivity.
  - intros o Hrole Hdb Hget Haccess Hpaid. rewrite Hrole, Hdb. simpl.
    rewrite Hget. simpl.
    assert (Hbranch :
      negb (UserRole.eqb (User.role (current_user ctx)) UserRole.SUPER_USER)
      && negb (col_eqb (User.branch_id (current_user ctx)) (Order.branch_id o))
      = false).
    { destruct Haccess as [H|H]; rewrite H; simpl;
        [reflexivity | rewrite Z.eqb_refl; apply andb_false_r]. }
    rewrite Hbranch, Hpaid. split; reflexivity.
Qed.

(** Walt, a waiter, is refused; Alice is refused on a missing order and on
    the paid order 13. *)
Lemma mark_order_paid_refusals_witness :
  snd (snd (mark_order_paid (Sample.ctx Sample.walt 1000) 10 Sample.db)) = 403
  /\ snd (snd (mark_order_paid (Sample.ctx Sample.alice 1000) 99 Sample.db)) = 500
  /\ snd (snd (mark_order_paid (Sample.ctx Sample.alice 1000) 13 Sample.db)) = 400
  /\ fst (mark_order_paid (Sample.ctx Sample.alice 1000) 13 Sample.db) = Sample.db.
Proof.
  destruct (mark_order_paid_refusals (Sample.ctx Sample.walt 1000) 10 Sample.db)
    as (Hrole & _).
  destruct (mark_order_paid_refusals (Sample.ctx Sample.alice 1000) 99 Sample.db)
    as (_ & Hmissing & _).
  destruct (mark_order_paid_refusals (Sample.ctx Sample.alice 1000) 13 Sample.db)
    as (_ & _ & _ & Hpaid).
  cbv zeta in *.
  split; [exact (proj2 (Hrole eq_refl))|].
  split; [exact (proj2 (Hmissing eq_refl (or_intror eq_refl)))|].
  destruct (Hpaid (Sample.order 13 OrderStatus.PAID ServiceType.ON_TABLE
                     (Some PaymentMethod.CARD) (Some "") 400 None 1)
              eq_refl eq_refl eq_refl (or_intror eq_refl) eq_refl) as [Hdb Hcode].
  split; assumption.
Defined.

(** ** Order creation: what is committed *)

Lemma track_session_items (ctx : Ctx) (db : DB) :
  order_items (track_session ctx db) = order_items db.
Proof.
  unfold track_session.
  destruct (UserRole.eqb (User.role (current_user ctx)) UserRole.CASHIER);
    [|reflexivity].
  unfold get_or_create_today_session, execute.
  destruct (db_reachable ctx); simpl; [|reflexivity].
  destruct (find _ (cashier_sessions db)); reflexivity.
Qed.

(** The two commits of [create_order]: a new order with its items and its
    counter, or the items added to a pending order. *)
Lemma create_order_commits (ctx : Ctx) (data : CreateOrderRequest) (db : DB) :
  field "success" (snd (create_order ctx data db)) = Some (JBool true) ->
  exists new_items notes assigned status,
    build_order_items ctx db (req_items data) = Ok (inr new_items)
    /\ order_origin ctx data db = Ok (inr (notes, assigned, status))
    /\ ((exists order,
           field "is_update" (snd (create_order ctx data db)) = Some (JBool true)
           /\ is_adding_items data = true
           /\ find_existing_order ctx data db = Some order
           /\ fst (create_order ctx data db)
              = track_session ctx (add_items_to_order ctx order new_items db))
        \/ (exists service branch counters value,
              field "is_update" (snd (create_order ctx data db)) = Some (JBool false)
              /\ parse_service_type (req_service_type data) = Ok service
              /\ User.branch_id (current_user ctx) = Some branch
              /\ OrderCounter.get_next_counter (utcnow ctx) branch (order_counters db)
                 = Ok (counters, value)
              /\ fst (create_order ctx data db)
                 = track_session ctx
                     (with_order_items
                        (insert_items (next_id Order.id (orders db)) new_items
                                      (order_items db))
                        (with_orders
                           (orders db
                            ++ [Order.mk (next_id Order.id (orders db))
                                  (generate_order_number ctx) (Some value)
                                  (total_of new_items) None (Some service) status
                                  notes (utcnow ctx)
                                  (if OrderStatus.eqb status OrderStatus.PAID
                                   then Some (utcnow ctx) else None)
                                  false None None (Some 0) branch
                                  (Some (User.id (current_user ctx))) assigned
                                  (req_table_id data)])%list
                           (with_order_counters counters db))))).
Proof.
  unfold create_order, create_order_try.
  remember (build_order_items ctx db (req_items data)) as built eqn:Ebuilt.
  symmetry in Ebuilt.
  destruct (req_items data) as [|item rest]; [discriminate|].
  unfold execute.
  destruct (is_adding_items data) eqn:Eadding.
  - destruct (db_reachable ctx); simpl; [|discriminate].
    destruct (find_existing_order ctx data db) as [order|]; [|discriminate].
    destruct built as [[resp|its]|e]; simpl; [|  |discriminate].
    { destruct (build_order_items_response ctx db _ resp Ebuilt) as [msg ->].
      discriminate. }
    destruct (order_origin ctx data db) as [[resp|[[notes assigned] status]]|e]
      eqn:Eorigin; simpl; [| |discriminate].
    { apply order_origin_response in Eorigin. subst resp. discriminate. }
    destruct (parse_service_type (req_service_type data)) as [svc|e]; simpl;
      [|discriminate].
    intros _. exists its, notes, assigned, status.
    split; [reflexivity|]. split; [reflexivity|].
    left. exists order. repeat split.
  - simpl.
    destruct built as [[resp|its]|e]; simpl; [|  |discriminate].
    { destruct (build_order_items_response ctx db _ resp Ebuilt) as [msg ->].
      discriminate. }
    destruct (order_origin ctx data db) as [[resp|[[notes assigned] status]]|e]
      eqn:Eorigin; simpl; [| |discriminate].
    { apply order_origin_response in Eorigin. subst resp. discriminate. }
    destruct (parse_service_type (req_service_type data)) as [svc|e]; simpl;
      [|discriminate].
    destruct (User.branch_id (current_user ctx)) as [branch|]; simpl;
      [|discriminate].
    destruct (OrderCounter.get_next_counter (utcnow ctx) branch
                (order_counters db)) as [[counters n]|e] eqn:Enext; simpl;
      [|discriminate].
    intros _. exists its, notes, assigned, status.
    split; [reflexivity|]. split; [reflexivity|].
    right. exists svc, branch, counters, n. repeat split. exact Enext.
Qed.

Lemma create_order_rollback (ctx : Ctx) (data : CreateOrderRequest) (db : DB) :
  field "success" (snd (create_order ctx data db)) <> Some (JBool true) ->
  fst (create_order ctx data db) = db.
Proof.
  unfold create_order, create_order_try.
  remember (build_order_items ctx db (req_items data)) as built eqn:Ebuilt.
  destruct (req_items data) as [|item rest]; [reflexivity|].
  destruct (if is_adding_items data
            then execute ctx (find_existing_order ctx data db)
            else Ok None) as [existing|e]; simpl; [|reflexivity].
  destruct built as [[resp|its]|e]; simpl;
    [destruct (is_adding_items data); destruct existing; reflexivity
    | | destruct (is_adding_items data); destruct existing; reflexivity].
  destruct (order_origin ctx data db) as [[resp|[[notes assigned] status]]|e];
    simpl;
    [destruct (is_adding_items data); destruct existing; reflexivity
    | | destruct (is_adding_items data); destruct existing; reflexivity].
  destruct (parse_service_type (req_service_type data)) as [svc|e]; simpl;
    [|destruct (is_adding_items data); destruct existing; reflexivity].
  destruct existing as [order|].
  - destruct (is_adding_items data); simpl; intro H; now elim H.
  - destruct (User.branch_id (current_user ctx)) as [branch|]; simpl;
      [|destruct (is_adding_items data); reflexivity].
    destruct (OrderCounter.get_next_counter (utcnow ctx) branch
                (order_counters db)) as [[counters n]|e]; simpl;
      [|destruct (is_adding_items data); reflexivity].
    destruct (is_adding_items data); [reflexivity|].
    simpl. intro H. now elim H.
Qed.

(** X3.  [create_order] is all or nothing: a request that is not answered
    with a success leaves the database as it was (no order, no item, no
    counter increment, no note). *)
Theorem create_order_failure_unchanged (ctx : Ctx) (data : CreateOrderRequest)
  (db : DB) :
  field "success" (snd (create_order ctx data db)) <> Some (JBool true) ->
  fst (create_order ctx data db) = db.
Proof.
  exact (create_order_rollback ctx data db).
Qed.

(** An order whose only item is not on the menu, and an unknown service
    type: nothing is written. *)
Lemma create_order_failure_unchanged_witness :
  fst (create_order (Sample.ctx Sample.alice 1000)
         (mkCreateOrderRequest (Some 7)
            [OrderItemData.mk (Some (MenuItemId 99)) false None (Some 2) None []]
            None false None (Some "") None) Sample.db) = Sample.db
  /\ fst (create_order (Sample.ctx Sample.alice 1000)
            (mkCreateOrderRequest (Some 7)
               [OrderItemData.mk (Some (MenuItemId 1)) false None (Some 2) None []]
               (Some "drive_through") false None (Some "") None) Sample.db)
     = Sample.db.
Proof.
  split; apply create_order_failure_unchanged; vm_compute; discriminate.
Defined.

Lemma next_id_above {A : Type} (id_of : A -> Z) (table : list A) (x : A) :
  In x table -> id_of x < next_id id_of table.
Proof.
  unfold next_id. induction table as [|y table IH]; cbn [fold_right In];
    [contradiction|].
  intros [Heq|Hin].
  - subst y. pose proof (Z.le_max_l (id_of x)
                           (fold_right (fun r acc => Z.max (id_of r) acc) 0 table)).
    lia.
  - specialize (IH Hin).
    pose proof (Z.le_max_r (id_of y)
                  (fold_right (fun r acc => Z.max (id_of r) acc) 0 table)).
    lia.
Qed.

Lemma order_origin_cashier (ctx : Ctx) (data : CreateOrderRequest) (db : DB) :
  User.role (current_user ctx) <> UserRole.WAITER ->
  order_origin ctx data db
  = Ok (inr (req_notes data, req_assigned_cashier_id data, OrderStatus.PAID)).
Proof.
  intro Hrole. unfold order_origin.
  destruct (UserRole.eqb (User.role (current_user ctx)) UserRole.WAITER) eqn:E;
    [apply UserRole_eqb_eq in E; contradiction | reflexivity].
Qed.

(** X4.  An order created by a user who is not a waiter (a cashier) is paid
    on the spot: the new row is [PAID] with [paid_at] and [created_at] at
    the time of the request, is created by the user, carries the notes and
    the assigned cashier of the request as they are, has never been edited,
    and gets a key above every key of the table. *)
Theorem create_order_by_cashier (ctx : Ctx) (data : CreateOrderRequest) (db : DB) :
  User.role (current_user ctx) <> UserRole.WAITER ->
  field "is_update" (snd (create_order ctx data db)) = Some (JBool false) ->
  exists o,
    orders (fst (create_order ctx data db)) = (orders db ++ [o])%list
    /\ Order.status o = OrderStatus.PAID
    /\ Order.paid_at o = Some (utcnow ctx)
    /\ Order.created_at o = utcnow ctx
    /\ Order.cashier_id o = Some (User.id (current_user ctx))
    /\ Order.notes o = req_notes data
    /\ Order.assigned_cashier_id o = req_assigned_cashier_id data
    /\ Order.edit_count o = Some 0
    /\ Order.cleared_from_waiter_requests o = false
    /\ (forall old, In old (orders db) -> Order.id old < Order.id o).
Proof.
  intros Hrole Hnew.
  assert (Hok : field "success" (snd (create_order ctx data db)) = Some (JBool true)).
  { revert Hnew. unfold create_order, create_order_try.
    remember (build_order_items ctx db (req_items data)) as built eqn:Ebuilt.
    symmetry in Ebuilt.
    destruct (req_items data) as [|item rest]; [discriminate|].
    destruct (if is_adding_items data
              then execute ctx (find_existing_order ctx data db)
              else Ok None) as [existing|e]; simpl; [|discriminate].
    rewrite (order_origin_cashier ctx data db Hrole).
    destruct built as [[resp|its]|e]; simpl.
    - destruct (build_order_items_response ctx db _ resp Ebuilt) as [msg ->].
      destruct (is_adding_items data); destruct existing; discriminate.
    - destruct (parse_service_type (req_service_type data)); simpl;
        [|destruct (is_adding_items data); destruct existing; discriminate].
      destruct existing.
      + destruct (is_adding_items data); discriminate.
      + destruct (User.branch_id (current_user ctx)); simpl;
          [|destruct (is_adding_items data); discriminate].
        destruct (OrderCounter.get_next_counter _ _ _) as [[c n]|e]; simpl;
          [|destruct (is_adding_items data); discriminate].
        destruct (is_adding_items data); [discriminate | reflexivity].
    - destruct (is_adding_items data); destruct existing; discriminate. }
  destruct (create_order_commits ctx data db Hok)
    as (its & notes & assigned & status & _ & Horigin & [Hupdate|Hinsert]).
  - destruct Hupdate as (order & Hflag & _). congruence.
  - destruct Hinsert as (svc & branch & counters & n & _ & _ & _ & _ & Hdb).
    rewrite (order_origin_cashier ctx data db Hrole) in Horigin.
    injection Horigin as <- <- <-.
    eexists. rewrite Hdb, track_session_orders. simpl.
    split; [reflexivity|]. repeat split.
    intros old Hold. simpl. now apply next_id_above.
Qed.

(** Alice rings up two falafel: the order is paid at once. *)
Lemma create_order_by_cashier_witness :
  exists o,
    orders (fst (create_order (Sample.ctx Sample.alice 1000)
                   (mkCreateOrderRequest (Some 7)
                      [OrderItemData.mk (Some (MenuItemId 1)) false None (Some 2)
                         None []]
                      None false None (Some "") None) Sample.db))
    = (orders Sample.db ++ [o])%list
    /\ Order.status o = OrderStatus.PAID
    /\ Order.paid_at o = Some (Sample.midnight + 1000).
Proof.
  destruct (create_order_by_cashier (Sample.ctx Sample.alice 1000)
              (mkCreateOrderRequest (Some 7)
                 [OrderItemData.mk (Some (MenuItemId 1)) false None (Some 2)
                    None []]
                 None false None (Some "") None) Sample.db)
    as (o & Horders & Hstatus & Hpaid & _).
  - discriminate.
  - vm_compute. reflexivity.
  - exists o. repeat split; assumption.
Defined.

Lemma order_origin_assigned (ctx : Ctx) (data : CreateOrderRequest) (db : DB)
  (notes : option string) (assigned : option Z) (status : OrderStatus.t) :
  User.role (current_user ctx) = UserRole.WAITER ->
  order_origin ctx data db = Ok (inr (notes, assigned, status)) ->
  exists branch a cashier,
    User.branch_id (current_user ctx) = Some branch
    /\ WaiterCashierAssignment.get_assignment_for_waiter
         (User.id (current_user ctx)) branch (waiter_cashier_assignments db)
       = Some a
    /\ User_get db (WaiterCashierAssignment.assigned_cashier_id a) = Some cashier
    /\ assigned = Some (WaiterCashierAssignment.assigned_cashier_id a).
Proof.
  intro Hrole. unfold order_origin, execute. rewrite Hrole. simpl.
  destruct (db_reachable ctx); simpl; [|discriminate].
  destruct (User.branch_id (current_user ctx)) as [b|]; [|discriminate].
  destruct (WaiterCashierAssignment.get_assignment_for_waiter _ b _) as [a|]
    eqn:Ea; [|discriminate].
  destruct (User_get db (WaiterCashierAssignment.assigned_cashier_id a))
    as [cashier|] eqn:Ec; [|discriminate].
  intro H. inversion H; subst. exists b, a, cashier. repeat split; assumption.
Qed.

Lemma count_positive {A : Type} (p : A -> bool) (l : list A) (x : A) :
  In x l -> p x = true -> 0 < count p l.
Proof.
  intros Hin Hp. unfold count.
  assert (Hf : In x (filter p l)) by (apply filter_In; now split).
  destruct (filter p l); [contradiction | simpl; lia].
Qed.

(** X5.  A new order of a waiter is delegated to the cashier of the waiter's
    assignment record: the row is [PENDING] with no [paid_at], assigned to
    that cashier, and from then on that cashier is refused by the logout
    check (while the database answers), whatever else the day holds. *)
Theorem create_order_by_waiter_blocks_cashier (ctx : Ctx)
  (data : CreateOrderRequest) (db : DB) :
  User.role (current_user ctx) = UserRole.WAITER ->
  field "is_update" (snd (create_order ctx data db)) = Some (JBool false) ->
  exists branch a o,
    User.branch_id (current_user ctx) = Some branch
    /\ WaiterCashierAssignment.get_assignment_for_waiter
         (User.id (current_user ctx)) branch (waiter_cashier_assignments db)
       = Some a
    /\ orders (fst (create_order ctx data db)) = (orders db ++ [o])%list
    /\ Order.status o = OrderStatus.PENDING
    /\ Order.paid_at o = None
    /\ Order.assigned_cashier_id o
       = Some (WaiterCashierAssignment.assigned_cashier_id a)
    /\ Order.cashier_id o = Some (User.id (current_user ctx))
    /\ (forall ctx',
          User.role (current_user ctx') = UserRole.CASHIER ->
          User.id (current_user ctx')
          = WaiterCashierAssignment.assigned_cashier_id a ->
          db_reachable ctx' = true ->
          field "can_logout"
            (check_logout_permission ctx' (fst (create_order ctx data db)))
          = Some (JBool false)).
Proof.
  intros Hrole Hnew.
  destruct (create_order_new_order ctx data db Hnew)
    as (notes & assigned & status & o & Horigin & Horders & Hnotes & Hstatus
        & Hassigned & Hcreator & _).
  destruct (order_origin_waiter ctx data db notes assigned status Hrole Horigin)
    as [Hpending [rest Hrest]].
  destruct (order_origin_assigned ctx data db notes assigned status Hrole Horigin)
    as (branch & a & cashier & Hbranch & Ha & _ & Hto).
  assert (Hok : field "success" (snd (create_order ctx data db)) = Some (JBool true)).
  { destruct (success_or_not (snd (create_order ctx data db))) as [H|H];
      [exact H|].
    pose proof (create_order_rollback ctx data db H) as Hsame.
    rewrite Hsame in Horders.
    apply (f_equal (@List.length Order.t)) in Horders.
    rewrite length_app in Horders. simpl in Horders. lia. }
  destruct (create_order_commits ctx data db Hok)
    as (its & notes' & assigned' & status' & _ & Horigin' & [Hup|Hins]).
  { destruct Hup as (order & Hflag & _). congruence. }
  destruct Hins as (svc & branch' & counters & n & _ & _ & _ & _ & Hdb).
  rewrite Horigin in Horigin'. injection Horigin' as <- <- <-.
  assert (Hpaid : Order.paid_at o = None).
  { rewrite Hdb, track_session_orders in Horders. simpl in Horders.
    apply app_inv_head in Horders. injection Horders as <-.
    simpl. now rewrite Hpending. }
  exists branch, a, o.
  split; [exact Hbranch|]. split; [exact Ha|]. split; [exact Horders|].
  split; [congruence|]. split; [exact Hpaid|]. split; [congruence|].
  split; [exact Hcreator|].
  intros ctx' Hcashier Hid Hdb'.
  rewrite (check_logout_permission_online ctx' _ Hcashier Hdb').
  set (c := User.id (current_user ctx')).
  assert (Hunpaid : 0 < count (unpaid_waiter_order c)
                            (orders (fst (create_order ctx data db)))).
  { apply (count_positive _ _ o).
    - rewrite Horders. apply in_or_app. right. now left.
    - unfold unpaid_waiter_order, notes_like_waiter_order, c.
      rewrite Hassigned, Hto, Hid, Hnotes, Hrest, Hstatus, Hpending. simpl.
      rewrite Z.eqb_refl. simpl. rewrite andb_true_r.
      apply (contains_prefix WAITER_TAG rest). }
  match goal with
  | |- field _ (logout_decision ?last ?total ?n ?m) = _ =>
      destruct (logout_decision_cases last total n m) as (Hboth & _ & Hwaiter & _);
      destruct (Z_lt_le_dec 0 n) as [Hn|Hn]
  end.
  - exact (proj1 (Hboth Hn Hunpaid)).
  - exact (proj1 (Hwaiter Hn Hunpaid)).
Qed.

(** Walt's order goes to Alice, who can then not log out, the next day
    either. *)
Lemma create_order_by_waiter_blocks_cashier_witness :
  let db' :=
    fst (create_order (Sample.ctx Sample.walt 1000)
           (mkCreateOrderRequest (Some 7)
              [OrderItemData.mk (Some (MenuItemId 1)) false None (Some 2) None []]
              None false None (Some "no onions") None) Sample.db) in
  field "can_logout" (check_logout_permission (Sample.ctx Sample.alice 90000) db')
  = Some (JBool false).
Proof.
  cbv zeta.
  destruct (create_order_by_waiter_blocks_cashier (Sample.ctx Sample.walt 1000)
              (mkCreateOrderRequest (Some 7)
                 [OrderItemData.mk (Some (MenuItemId 1)) false None (Some 2)
                    None []]
                 None false None (Some "no onions") None) Sample.db)
    as (branch & a & o & Hbranch & Ha & _ & _ & _ & _ & _ & Hblocked).
  - reflexivity.
  - vm_compute. reflexivity.
  - vm_compute in Hbranch. injection Hbranch as <-.
    vm_compute in Ha. injection Ha as <-.
    apply Hblocked; reflexivity.
Defined.

Lemma live_total_app (oid : Z) (a b : list OrderItem.t) :
  live_total oid (a ++ b) = live_total oid a + live_total oid b.
Proof.
  unfold live_total. rewrite filter_app.
  induction (filter (live_item oid) a) as [|x l IH]; simpl; [reflexivity|].
  rewrite IH. lia.
Qed.

Lemma live_total_insert (oid oid' : Z) (new_items : list NewItem)
  (table : list OrderItem.t) :
  live_total oid' (insert_items oid new_items table)
  = live_total oid' table + (if oid =? oid' then total_of new_items else 0).
Proof.
  revert table. induction new_items as [|it rest IH]; intro table; simpl.
  - destruct (oid =? oid'); lia.
  - rewrite IH, live_total_app. unfold live_total at 2, live_item. simpl.
    fold (total_of rest). destruct (oid =? oid'); simpl; lia.
Qed.

Lemma insert_items_In (oid : Z) (new_items : list NewItem)
  (table : list OrderItem.t) (it : OrderItem.t) :
  In it (insert_items oid new_items table) ->
  In it table \/ OrderItem.order_id it = oid.
Proof.
  revert table. induction new_items as [|n rest IH]; intro table; simpl.
  - now left.
  - intro Hin. destruct (IH _ Hin) as [Hold|Hnew]; [|now right].
    apply in_app_or in Hold. destruct Hold as [Hold|[<-|[]]];
      [now left | now right].
Qed.

Lemma live_total_none (oid : Z) (items : list OrderItem.t) :
  (forall it, In it items -> OrderItem.order_id it <> oid) ->
  live_total oid items = 0.
Proof.
  unfold live_total. induction items as [|x l IH]; intro Hnone; simpl;
    [reflexivity|].
  unfold live_item at 1.
  destruct (OrderItem.order_id x =? oid) eqn:E.
  - apply Z.eqb_eq in E. elim (Hnone x (or_introl eq_refl) E).
  - simpl. apply IH. intros it Hit. apply Hnone. now right.
Qed.

Lemma update_first_keys {A : Type} (key : A -> Z) (p : A -> bool) (f : A -> A)
  (l : list A) :
  (forall x, key (f x) = key x) ->
  map key (update_first p f l) = map key l.
Proof.
  intro Hkey. induction l as [|x l IH]; simpl; [reflexivity|].
  destruct (p x); simpl; [now rewrite Hkey | now rewrite IH].
Qed.

Lemma update_first_keyed (k : Z) (f : Order.t -> Order.t) (rows : list Order.t)
  (o' : Order.t) :
  NoDup (map Order.id rows) ->
  In o' (update_first (fun o => Order.id o =? k) f rows) ->
  (exists o, In o rows /\ Order.id o = k /\ o' = f o)
  \/ (In o' rows /\ Order.id o' <> k).
Proof.
  induction rows as [|x rows IH]; simpl; intros Hkey Hin; [contradiction|].
  inversion Hkey as [|? ? Hnotin Hrest]; subst.
  destruct (Order.id x =? k) eqn:E.
  - apply Z.eqb_eq in E. destruct Hin as [<-|Hin].
    + left. exists x. repeat split; [now left | exact E].
    + right. split; [now right|]. intro Hk. apply Hnotin.
      rewrite E, <- Hk. now apply in_map.
  - apply Z.eqb_neq in E. destruct Hin as [<-|Hin].
    + right. split; [now left | exact E].
    + destruct (IH Hrest Hin) as [(o & Ho & Hk & Hf)|[Ho Hk]].
      * left. exists o. repeat split; [now right | exact Hk | exact Hf].
      * right. split; [now right | exact Hk].
Qed.

Lemma keyed_same (rows : list Order.t) (a b : Order.t) :
  NoDup (map Order.id rows) -> In a rows -> In b rows ->
  Order.id a = Order.id b -> a = b.
Proof.
  intros Hkey Ha Hb Hid.
  pose proof (find_by_key rows a Hkey Ha) as Fa.
  pose proof (find_by_key rows b Hkey Hb) as Fb.
  rewrite Hid in Fa. congruence.
Qed.

Lemma latest_order_In (rows : list Order.t) (o : Order.t) :
  latest_order rows = Some o -> In o rows.
Proof.
  revert o. induction rows as [|x rows IH]; simpl; intros o; [discriminate|].
  destruct (latest_order rows) as [o'|].
  - destruct (Order.created_at x <? Order.created_at o'); intro H;
      injection H as <-; [right; now apply IH | now left].
  - intro H. injection H as <-. now left.
Qed.

Lemma find_existing_order_In (ctx : Ctx) (data : CreateOrderRequest) (db : DB)
  (order : Order.t) :
  find_existing_order ctx data db = Some order -> In order (orders db).
Proof.
  unfold find_existing_order.
  destruct (truthy_int (existing_order_id data)).
  - intro H. now apply find_some in H.
  - destruct (truthy_int (req_table_id data)); [|discriminate].
    intro H. apply latest_order_In in H. now apply filter_In in H.
Qed.

Lemma create_order_keeps_consistent (ctx : Ctx) (data : CreateOrderRequest)
  (db : DB) :
  consistent db -> consistent (fst (create_order ctx data db)).
Proof.
  intros (Hkey & Hbelong & Htotal).
  destruct (success_or_not (snd (create_order ctx data db))) as [Hok|Hno];
    [|rewrite (create_order_rollback ctx data db Hno); now repeat split].
  destruct (create_order_commits ctx data db Hok)
    as (new_items & notes & assigned & status & _ & _ & [Hup|Hins]).
  - destruct Hup as (order & _ & _ & Hfound & ->).
    apply find_existing_order_In in Hfound.
    unfold consistent, orders_keyed, items_belong, totals_agree.
    rewrite track_session_orders, track_session_items.
    unfold add_items_to_order, Order_update. simpl.
    split; [|split].
    + rewrite (update_first_keys Order.id); [exact Hkey | reflexivity].
    + intros it Hit.
      assert (Hid : exists o, In o (orders db)
                              /\ Order.id o = OrderItem.order_id it).
      { destruct (insert_items_In _ _ _ _ Hit) as [Hold| ->];
          [now apply Hbelong | now exists order]. }
      destruct Hid as (o & Ho & Hoid).
      apply (in_map Order.id) in Ho.
      match goal with
      | |- context [update_first ?p ?f (orders db)] =>
          rewrite <- (update_first_keys Order.id p f (orders db)) in Ho
            by reflexivity
      end.
      apply in_map_iff in Ho. destruct Ho as (o' & Hid' & Ho').
      exists o'. split; [exact Ho' | congruence].
    + intros o' Ho'. rewrite live_total_insert.
      destruct (update_first_keyed _ _ _ _ Hkey Ho')
        as [(o & Ho & Hk & ->)|[Ho Hk]].
      * rewrite (keyed_same _ o order Hkey Ho Hfound Hk). simpl.
        rewrite Z.eqb_refl, (Htotal order Hfound). reflexivity.
      * apply not_eq_sym in Hk. apply Z.eqb_neq in Hk. rewrite Hk.
        rewrite (Htotal o' Ho). lia.
  - destruct Hins as (svc & branch & counters & n & _ & _ & _ & _ & ->).
    unfold consistent, orders_keyed, items_belong, totals_agree.
    rewrite track_session_orders, track_session_items. simpl.
    set (oid := next_id Order.id (orders db)).
    assert (Hfresh : forall o, In o (orders db) -> Order.id o <> oid).
    { intros o Ho. pose proof (next_id_above Order.id (orders db) o Ho).
      unfold oid. lia. }
    split; [|split].
    + rewrite map_app. simpl.
      apply NoDup_app; [exact Hkey | repeat constructor; intros [] |].
      intros k Hk [<-|[]]. apply in_map_iff in Hk.
      destruct Hk as (o & Hid & Ho). exact (Hfresh o Ho Hid).
    + intros it Hit. destruct (insert_items_In _ _ _ _ Hit) as [Hold|Hnew].
      * destruct (Hbelong it Hold) as (o & Ho & Hid).
        exists o. split; [apply in_or_app; now left | exact Hid].
      * eexists. split; [apply in_or_app; right; now left|].
        simpl. now symmetry.
    + intros o Ho. rewrite live_total_insert.
      apply in_app_or in Ho. destruct Ho as [Ho|[<-|[]]].
      * pose proof (Hfresh o Ho) as Hne. apply not_eq_sym in Hne.
        apply Z.eqb_neq in Hne. rewrite Hne, (Htotal o Ho). lia.
      * simpl. fold oid. rewrite Z.eqb_refl.
        rewrite live_total_none; [lia|].
        intros it Hit Hid. destruct (Hbelong it Hit) as (o & Ho & Ho').
        apply (Hfresh o Ho). congruence.
Qed.

(** X6.  [create_order] keeps the books consistent: if order ids are
    distinct, every item belongs to an order and every order's total is the
    sum of its items that are not deleted, then the same holds afterwards,
    for a new order as for items added to an existing one, and for a
    refused request. *)
Theorem create_order_consistent (ctx : Ctx) (data : CreateOrderRequest)
  (db : DB) :
  consistent db -> consistent (fst (create_order ctx data db)).
Proof.
  exact (create_order_keeps_consistent ctx data db).
Qed.

(** From opening time: a first order of two falafel, then one more added to
    it, and the books still agree. *)
Lemma create_order_consistent_witness :
  consistent opening_db
  /\ consistent
       (fst (create_order (Sample.ctx Sample.alice 2000)
               (mkCreateOrderRequest (Some 7)
                  [OrderItemData.mk (Some (MenuItemId 1)) false None (Some 1)
                     None []]
                  None true (Some 1) None None)
               (fst (create_order (Sample.ctx Sample.walt 1000)
                       (mkCreateOrderRequest (Some 7)
                          [OrderItemData.mk (Some (MenuItemId 1)) false None
                             (Some 2) None []]
                          None false None None None) opening_db))))
  /\ map Order.total_amount
       (orders
          (fst (create_order (Sample.ctx Sample.alice 2000)
                  (mkCreateOrderRequest (Some 7)
                     [OrderItemData.mk (Some (MenuItemId 1)) false None (Some 1)
                        None []]
                     None true (Some 1) None None)
                  (fst (create_order (Sample.ctx Sample.walt 1000)
                          (mkCreateOrderRequest (Some 7)
                             [OrderItemData.mk (Some (MenuItemId 1)) false None
                                (Some 2) None []]
                             None false None None None) opening_db)))))
     = [1500].
Proof.
  assert (H0 : consistent opening_db).
  { split; [constructor|]. split; intros x Hx; simpl in Hx; contradiction. }
  split; [exact H0|]. split; [|vm_compute; reflexivity].
  apply create_order_consistent, create_order_consistent, H0.
Defined.

(** ** The totals after an edit *)

Lemma update_where_keys {A : Type} (key : A -> Z) (p : A -> bool) (f : A -> A)
  (l : list A) :
  (forall x, key (f x) = key x) ->
  map key (update_where p f l) = map key l.
Proof.
  intro Hkey. unfold update_where. rewrite map_map. apply map_ext.
  intro x. destruct (p x); [apply Hkey | reflexivity].
Qed.

Lemma filter_update_where {A : Type} (r p : A -> bool) (f : A -> A)
  (l : list A) :
  (forall x, p x = true -> r x = false /\ r (f x) = false) ->
  filter r (update_where p f l) = filter r l.
Proof.
  intro Hout. induction l as [|x l IH]; simpl; [reflexivity|].
  destruct (p x) eqn:Ep.
  - destruct (Hout x Ep) as [-> ->]. exact IH.
  - destruct (r x); now rewrite IH.
Qed.

Lemma item_sum_app (p : OrderItem.t -> bool) (a b : list OrderItem.t) :
  item_sum p (a ++ b) = item_sum p a + item_sum p b.
Proof.
  unfold item_sum. rewrite filter_app.
  induction (filter p a) as [|x l IH]; simpl; [reflexivity|].
  rewrite IH. lia.
Qed.

Lemma item_sum_ext (p q : OrderItem.t -> bool) (l : list OrderItem.t) :
  (forall it, In it l -> p it = q it) -> item_sum p l = item_sum q l.
Proof.
  intro H. unfold item_sum. now rewrite (filter_ext_in p q l H).
Qed.

Lemma live_total_others (oid oid' : Z) (l : list OrderItem.t) :
  oid' <> oid ->
  live_total oid' l = live_total oid' (filter (of_other_order oid) l).
Proof.
  intro Hne. unfold live_total. f_equal.
  induction l as [|x l IH]; simpl; [reflexivity|].
  unfold of_other_order at 1.
  destruct (OrderItem.order_id x =? oid) eqn:E; simpl.
  - apply Z.eqb_eq in E. unfold live_item at 1. rewrite E.
    apply not_eq_sym, Z.eqb_neq in Hne. rewrite Hne. exact IH.
  - destruct (live_item oid' x); now rewrite IH.
Qed.

(** Rewriting the one row of an order with id [i], so far not processed. *)
Lemma item_sum_rewritten (oid i : Z) (E P : list Z)
  (w : OrderItem.t -> OrderItem.t) (tp : Z) (del : bool)
  (l : list OrderItem.t) (row : OrderItem.t) :
  (forall it, OrderItem.id (w it) = OrderItem.id it
              /\ OrderItem.order_id (w it) = OrderItem.order_id it
              /\ OrderItem.total_price (w it) = tp
              /\ OrderItem.is_deleted (w it) = del) ->
  NoDup (map OrderItem.id l) ->
  In row l -> OrderItem.id row = i -> OrderItem.order_id row = oid ->
  mem i P = false -> mem i E = true ->
  item_sum (settled oid E (i :: P))
    (update_where (fun it => (OrderItem.order_id it =? oid)
                             && (OrderItem.id it =? i)) w l)
  = item_sum (settled oid E P) l + (if del then 0 else tp).
Proof.
  intros Hw Hkey Hin Hid Hoid HP HE.
  assert (Hrest : forall l',
            ~ In i (map OrderItem.id l') ->
            item_sum (settled oid E (i :: P))
              (update_where (fun it => (OrderItem.order_id it =? oid)
                                       && (OrderItem.id it =? i)) w l')
            = item_sum (settled oid E P) l').
  { induction l' as [|x l' IH]; intro Hnot; [reflexivity|].
    simpl in Hnot.
    assert (Hx : (OrderItem.id x =? i) = false)
      by (apply Z.eqb_neq; intro H; apply Hnot; now left).
    change (update_where ?p w (x :: l'))
      with ((if p x then w x else x) :: update_where p w l').
    cbv beta. rewrite Hx, andb_false_r.
    change (x :: ?t) with ([x] ++ t)%list. rewrite !item_sum_app.
    rewrite IH by (intro H; apply Hnot; now right).
    f_equal. apply item_sum_ext. intros it [<-|[]].
    unfold settled, mem. simpl. now rewrite Hx. }
  induction l as [|x l IH]; [contradiction|].
  inversion Hkey as [|? ? Hnotin Hnodup]; subst.
  change (update_where ?p w (x :: l))
    with ((if p x then w x else x) :: update_where p w l).
  cbv beta.
  change (x :: l) with ([x] ++ l)%list.
  change (?y :: update_where ?p w l) with ([y] ++ update_where p w l)%list.
  rewrite !item_sum_app.
  destruct Hin as [->|Hin].
  - rewrite !Z.eqb_refl. simpl andb. cbv iota.
    rewrite (Hrest l Hnotin).
    destruct (Hw row) as (Hwid & Hword & Hwtp & Hwdel).
    unfold item_sum at 1 3. simpl.
    unfold settled, live_item. rewrite Hwid, Hword, Hwdel.
    unfold mem at 1. simpl existsb. rewrite !Z.eqb_refl.
    fold (mem (OrderItem.id row) P). rewrite HP, HE. simpl.
    rewrite andb_false_r. destruct del; simpl; lia.
  - assert (Hx : (OrderItem.id x =? OrderItem.id row) = false).
    { apply Z.eqb_neq. intro H. apply Hnotin. rewrite H. now apply in_map. }
    rewrite Hx, andb_false_r.
    rewrite (IH Hnodup Hin).
    assert (Hsame : item_sum (settled (OrderItem.order_id row) E
                                (OrderItem.id row :: P)) [x]
                    = item_sum (settled (OrderItem.order_id row) E P) [x]).
    { apply item_sum_ext. intros it [<-|[]].
      unfold settled, mem. simpl. now rewrite Hx. }
    rewrite Hsame. lia.
Qed.

Lemma edit_step_invariant (oid : Z) (E : list Z) (items0 : list OrderItem.t)
  (st st' : EditState) (item_data : EditItem.t) :
  edit_invariant oid E items0 st ->
  (forall i, edited_id E item_data = Some i ->
             ~ In i (processed_item_ids st)) ->
  edit_step oid E st item_data = Ok st' ->
  edit_invariant oid E items0 st'
  /\ processed_item_ids st'
     = match edited_id E item_data with
       | Some i => i :: processed_item_ids st
       | None => processed_item_ids st
       end.
Proof.
  intros (Hkey & Hthere & Hsum & Hothers) Hfresh.
  unfold edit_step. fold (edited_id E item_data).
  destruct (edited_id E item_data) as [i|] eqn:Eid.
  - assert (HE : mem i E = true).
    { unfold edited_id in Eid. destruct (EditItem.id item_data) as [j|];
        [|discriminate].
      destruct (negb (j =? 0)); simpl in Eid; [|discriminate].
      destruct (mem j E) eqn:Ej; [|discriminate]. congruence. }
    assert (HP : mem i (processed_item_ids st) = false).
    { destruct (mem i (processed_item_ids st)) eqn:Em; [|reflexivity].
      apply mem_In in Em. elim (Hfresh i eq_refl Em). }
    destruct (EditItem.quantity item_data) as [q|]; simpl; [|discriminate].
    destruct (EditItem.unit_price item_data) as [up|]; simpl; [|discriminate].
    destruct (EditItem.total_price item_data) as [tp|]; simpl; [|discriminate].
    destruct (item_notes item_data) as [notes|e]; simpl; [|discriminate].
    intro H. injection H as <-. split; [|reflexivity].
    unfold edit_invariant. simpl.
    destruct (Hthere i (proj1 (mem_In i E) HE)) as (row & Hrow & Hid & Hoid).
    split; [|split; [|split]].
    + rewrite update_where_keys; [exact Hkey | reflexivity].
    + intros j Hj. destruct (Hthere j Hj) as (it & Hit & Hjid & Hjoid).
      unfold update_where.
      match goal with
      | |- context [map ?f (st_items st)] =>
          exists (f it); split;
            [apply in_map_iff; exists it; split; [reflexivity | exact Hit]|]
      end.
      cbv beta. destruct ((OrderItem.order_id it =? oid) && (OrderItem.id it =? i));
        simpl; now split.
    + rewrite (item_sum_rewritten oid i E (processed_item_ids st) _ tp
                 (EditItem.is_deleted item_data) (st_items st) row);
        try assumption; [|intro it; now repeat split].
      rewrite Hsum. destruct (EditItem.is_deleted item_data); lia.
    + rewrite filter_update_where; [exact Hothers|].
      intros it Hit. apply andb_prop in Hit. destruct Hit as [Hit _].
      unfold of_other_order. simpl. now rewrite Hit.
  - destruct (EditItem.is_new item_data && negb (EditItem.is_deleted item_data));
      [|intro H; injection H as <-; now repeat split].
    destruct (item_notes item_data) as [notes|e]; simpl; [|discriminate].
    destruct (EditItem.menu_item_id item_data) as [mi|]; simpl; [|discriminate].
    destruct (EditItem.quantity item_data) as [q|]; simpl; [|discriminate].
    destruct (EditItem.unit_price item_data) as [up|]; simpl; [|discriminate].
    destruct (EditItem.total_price item_data) as [tp|]; simpl; [|discriminate].
    intro H. injection H as <-. split; [|reflexivity].
    unfold edit_invariant. simpl.
    set (fresh := next_id OrderItem.id (st_items st)).
    assert (Hnew : forall it, In it (st_items st) -> OrderItem.id it <> fresh).
    { intros it Hit. pose proof (next_id_above OrderItem.id _ it Hit).
      unfold fresh. lia. }
    split; [|split; [|split]].
    + rewrite map_app. simpl.
      apply NoDup_app; [exact Hkey | repeat constructor; intros [] |].
      intros k Hk [<-|[]]. apply in_map_iff in Hk.
      destruct Hk as (it & Hid & Hit). exact (Hnew it Hit Hid).
    + intros j Hj. destruct (Hthere j Hj) as (it & Hit & Hrest).
      exists it. split; [apply in_or_app; now left | exact Hrest].
    + rewrite item_sum_app, Hsum. f_equal.
      unfold item_sum, settled, live_item. simpl. rewrite Z.eqb_refl. simpl.
      assert (HE : mem fresh E = false).
      { destruct (mem fresh E) eqn:Em; [|reflexivity].
        apply mem_In in Em. destruct (Hthere fresh Em) as (it & Hit & Hid & _).
        elim (Hnew it Hit Hid). }
      rewrite HE, orb_true_r. simpl. lia.
    + rewrite filter_app, Hothers. simpl. unfold of_other_order at 2. simpl.
      rewrite Z.eqb_refl. simpl. apply app_nil_r.
Qed.

Lemma edit_loop_invariant (oid : Z) (E : list Z) (items0 : list OrderItem.t)
  (items : list EditItem.t) (st st' : EditState) :
  edit_invariant oid E items0 st ->
  NoDup (edited_ids E items) ->
  (forall i, In i (edited_ids E items) -> ~ In i (processed_item_ids st)) ->
  edit_loop oid E st items = Ok st' ->
  edit_invariant oid E items0 st'.
Proof.
  revert st. induction items as [|item_data rest IH]; simpl;
    intros st Hinv Hnodup Hfresh Hloop; [congruence|].
  destruct (edit_step oid E st item_data) as [st1|e] eqn:Estep; simpl in Hloop;
    [|discriminate].
  destruct (edit_step_invariant oid E items0 st st1 item_data Hinv) as [H1 HP];
    [|exact Estep|].
  { intros i Hi. apply Hfresh. apply in_or_app. left. rewrite Hi. now left. }
  apply (IH st1 H1); [now apply NoDup_app_remove_l in Hnodup | | exact Hloop].
  intros i Hi. rewrite HP.
  destruct (edited_id E item_data) as [j|] eqn:Ej.
  - intros [<-|Hin].
    + simpl in Hnodup. inversion Hnodup as [|? ? Hnot _]. exact (Hnot Hi).
    + apply (Hfresh i); [apply in_or_app; now right | exact Hin].
  - apply Hfresh. apply in_or_app. now right.
Qed.

Lemma item_sum_none (p : OrderItem.t -> bool) (l : list OrderItem.t) :
  (forall it, In it l -> p it = false) -> item_sum p l = 0.
Proof.
  intro H. unfold item_sum. induction l as [|x l IH]; [reflexivity|].
  simpl. rewrite (H x (or_introl eq_refl)). apply IH.
  intros it Hit. apply H. now right.
Qed.

(** The sweep after the loop: the items of the order that the request did
    not name are marked deleted, and the items that count are the settled
    ones. *)
Lemma live_total_swept (oid : Z) (E P : list Z) (l : list OrderItem.t) :
  live_total oid
    (update_where (fun it => (OrderItem.order_id it =? oid)
                             && mem (OrderItem.id it) E
                             && negb (mem (OrderItem.id it) P))
                  OrderItem_set_deleted l)
  = item_sum (settled oid E P) l.
Proof.
  change (live_total oid ?x) with (item_sum (live_item oid) x).
  induction l as [|x l IH]; [reflexivity|].
  change (update_where ?p ?f (x :: l))
    with ([if p x then f x else x] ++ update_where p f l)%list.
  change (x :: l) with ([x] ++ l)%list.
  rewrite !item_sum_app, IH. f_equal.
  unfold item_sum, settled, live_item. cbn [filter]. cbv beta.
  destruct (OrderItem.order_id x =? oid) eqn:Eo;
    destruct (mem (OrderItem.id x) E); destruct (mem (OrderItem.id x) P);
    destruct (OrderItem.is_deleted x) eqn:Ed; simpl;
    rewrite ?Eo, ?Ed; reflexivity.
Qed.

Lemma edit_invariant_start (oid : Z) (db : DB) :
  items_keyed db ->
  edit_invariant oid (existing_item_ids oid db) (order_items db)
    (mkEditState (order_items db) [] 0).
Proof.
  intro Hkey. unfold edit_invariant. simpl.
  split; [exact Hkey|]. split; [|split; [|reflexivity]].
  - intros i Hi. unfold existing_item_ids in Hi. apply in_map_iff in Hi.
    destruct Hi as (it & Hid & Hit). apply filter_In in Hit.
    destruct Hit as [Hit Hoid]. apply Z.eqb_eq in Hoid. now exists it.
  - apply item_sum_none. intros it Hit. unfold settled, live_item.
    destruct (OrderItem.order_id it =? oid) eqn:Eo; [|reflexivity].
    assert (HE : mem (OrderItem.id it) (existing_item_ids oid db) = true).
    { apply mem_In. unfold existing_item_ids. apply in_map.
      apply filter_In. now split. }
    rewrite HE. simpl. apply andb_false_r.
Qed.

Lemma save_order_changes_commits (ctx : Ctx) (data : EditRequest) (db : DB) :
  field "success" (snd (save_order_changes ctx data db)) = Some (JBool true) ->
  exists o st,
    let r := save_order_changes ctx data db in
    let E := existing_item_ids (Order.id o) db in
    edit_order_id data = Some (Order.id o)
    /\ In o (orders db)
    /\ edit_items_of data (Order.id o) db = Ok st
    /\ orders (fst r)
       = update_first (fun x => Order.id x =? Order.id o)
           (Order.set_edited (st_new_total st) (utcnow ctx)
              (User.id (current_user ctx)) (edits o + 1))
           (orders db)
    /\ order_items (fst r)
       = update_where
           (fun it => (OrderItem.order_id it =? Order.id o)
                      && mem (OrderItem.id it) E
                      && negb (mem (OrderItem.id it) (processed_item_ids st)))
           OrderItem_set_deleted (st_items st)
    /\ field "new_total" (snd r) = Some (JInt (st_new_total st)).
Proof.
  unfold save_order_changes, save_order_changes_try, execute, edit_items_of,
    existing_item_ids.
  destruct (UserRole.eqb (User.role (current_user ctx)) UserRole.CASHIER);
    simpl; [|discriminate].
  destruct (db_reachable ctx); simpl; [|discriminate].
  destruct (edit_order_id data) as [oid|]; [|discriminate].
  destruct (Order_get db oid) as [o|] eqn:Eget; [|discriminate].
  apply find_some in Eget. destruct Eget as [Hin Hid].
  apply Z.eqb_eq in Hid.
  destruct (negb (col_eqb (Order.cashier_id o) (User.id (current_user ctx)))
            && negb (col_eqb (Order.assigned_cashier_id o)
                             (User.id (current_user ctx))));
    [discriminate|].
  destruct (negb (OrderStatus.eqb (Order.status o) OrderStatus.PENDING)
            && negb (OrderStatus.eqb (Order.status o) OrderStatus.PAID
                     && can_edit_paid o)).
  { destruct (is_service (Order.service_type o) ServiceType.ON_TABLE
              && OrderStatus.eqb (Order.status o) OrderStatus.PAID);
      discriminate. }
  destruct (edit_loop _ _ _ _) as [st|e] eqn:Eloop; simpl; [|discriminate].
  intros _. exists o, st. cbv zeta. subst oid.
  split; [reflexivity|]. split; [exact Hin|]. split; [exact Eloop|].
  split; [reflexivity|]. split; reflexivity.
Qed.

Lemma save_order_changes_keeps_books (ctx : Ctx) (data : EditRequest)
  (db : DB) :
  consistent db -> items_keyed db -> no_item_twice data db ->
  let r := save_order_changes ctx data db in
  consistent (fst r)
  /\ items_keyed (fst r)
  /\ (forall oid,
        field "success" (snd r) = Some (JBool true) ->
        edit_order_id data = Some oid ->
        field "new_total" (snd r)
        = Some (JInt (live_total oid (order_items (fst r))))).
Proof.
  intros (Hkey & Hbelong & Htotal) Hitems Honce. cbv zeta.
  destruct (success_or_not (snd (save_order_changes ctx data db))) as [Hok|Hno].
  2:{ rewrite (save_order_changes_refusal ctx data db Hno).
      split; [now repeat split|]. split; [exact Hitems|].
      intros oid H. contradiction. }
  destruct (save_order_changes_commits ctx data db Hok) as (o & st & H).
  cbv zeta in H.
  destruct H as (Hoid & Hin & Hloop & Horders & Hrows & Hresp).
  set (oid := Order.id o) in *.
  set (E := existing_item_ids oid db) in *.
  assert (Hinv : edit_invariant oid E (order_items db) st).
  { apply (edit_loop_invariant oid E (order_items db) (edit_items data)
             (mkEditState (order_items db) [] 0) st).
    - now apply edit_invariant_start.
    - exact (Honce oid Hoid).
    - intros i _ [].
    - exact Hloop. }
  destruct Hinv as (Hkey' & _ & Hsum & Hothers).
  assert (Hlive : live_total oid
                    (order_items (fst (save_order_changes ctx data db)))
                  = st_new_total st).
  { rewrite Hrows, live_total_swept. exact Hsum. }
  assert (Hrest : filter (of_other_order oid)
                    (order_items (fst (save_order_changes ctx data db)))
                  = filter (of_other_order oid) (order_items db)).
  { rewrite Hrows, filter_update_where; [exact Hothers|].
    intros it Hit. apply andb_prop in Hit. destruct Hit as [Hit _].
    apply andb_prop in Hit. destruct Hit as [Hit _].
    unfold of_other_order. simpl. now rewrite Hit. }
  split; [|split].
  - unfold consistent, orders_keyed, items_belong, totals_agree.
    split; [|split].
    + rewrite Horders, (update_first_keys Order.id); [exact Hkey | reflexivity].
    + intros it Hit.
      assert (Hid : exists x, In x (orders db)
                              /\ Order.id x = OrderItem.order_id it).
      { destruct (OrderItem.order_id it =? oid) eqn:Eo.
        - apply Z.eqb_eq in Eo. exists o. split; [exact Hin | now symmetry].
        - apply Hbelong.
          assert (Hf : In it (filter (of_other_order oid) (order_items db))).
          { rewrite <- Hrest. apply filter_In. split; [exact Hit|].
            unfold of_other_order. now rewrite Eo. }
          now apply filter_In in Hf. }
      destruct Hid as (x & Hx & Hxid).
      apply (in_map Order.id) in Hx.
      rewrite Horders.
      match goal with
      | |- context [update_first ?p ?f (orders db)] =>
          rewrite <- (update_first_keys Order.id p f (orders db)) in Hx
            by reflexivity
      end.
      apply in_map_iff in Hx. destruct Hx as (x' & Hid' & Hx').
      exists x'. split; [exact Hx' | congruence].
    + intros x Hx. rewrite Horders in Hx.
      destruct (update_first_keyed _ _ _ _ Hkey Hx)
        as [(y & Hy & Hk & ->)|[Hy Hk]].
      * simpl. fold oid. rewrite Hk. fold oid. now rewrite Hlive.
      * fold oid in Hk.
        rewrite (live_total_others oid (Order.id x) _ Hk), Hrest,
          <- (live_total_others oid (Order.id x) _ Hk).
        exact (Htotal x Hy).
  - unfold items_keyed. rewrite Hrows, update_where_keys;
      [exact Hkey' | reflexivity].
  - intros oid' _ Hoid'. rewrite Hoid in Hoid'. injection Hoid' as <-.
    rewrite Hresp. fold oid. now rewrite Hlive.
Qed.

(** X7.  An accepted edit keeps the books consistent when no item of the
    order is listed twice in the request: item ids stay distinct, every
    item still belongs to an order, the total written to the edited order
    (and returned as [new_total]) is the sum of its items that are not
    deleted, and the totals of the other orders still agree.  A refused edit
    changes nothing. *)
Theorem save_order_changes_consistent (ctx : Ctx) (data : EditRequest)
  (db : DB) :
  consistent db -> items_keyed db -> no_item_twice data db ->
  let r := save_order_changes ctx data db in
  consistent (fst r)
  /\ items_keyed (fst r)
  /\ (forall oid,
        field "success" (snd r) = Some (JBool true) ->
        edit_order_id data = Some oid ->
        field "new_total" (snd r)
        = Some (JInt (live_total oid (order_items (fst r))))).
Proof.
  exact (save_order_changes_keeps_books ctx data db).
Qed.

(** Alice edits Walt's order: three falafel instead of two, and a fourth
    as a new item; the order is then worth 2000. *)
Lemma save_order_changes_consistent_witness :
  let data :=
    mkEditRequest (Some 1)
      [EditItem.mk (Some 1) false false (Some 1) (Some 3) (Some 500)
         (Some 1500) None [] None;
       EditItem.mk None true false (Some 1) (Some 1) (Some 500) (Some 500)
         None [] None] 1000 in
  let r := save_order_changes (Sample.ctx Sample.alice 2000) data lunch_db in
  consistent (fst r)
  /\ field "new_total" (snd r) = Some (JInt 2000)
  /\ map Order.total_amount (orders (fst r)) = [2000].
Proof.
  cbv zeta.
  assert (Hdb : order_items lunch_db
                = [OrderItem.mk 1 1 1 2 500 1000 None None false false])
    by (vm_compute; reflexivity).
  assert (Horders : map (fun o => (Order.id o, Order.total_amount o))
                        (orders lunch_db) = [(1, 1000)])
    by (vm_compute; reflexivity).
  destruct (orders lunch_db) as [|o [|? ?]] eqn:Eo; try discriminate Horders.
  injection Horders as Hid Htotal.
  assert (Hcons : consistent lunch_db).
  { unfold consistent, orders_keyed, items_belong, totals_agree.
    rewrite Eo, Hdb. simpl. rewrite Hid.
    split; [repeat constructor; intros []|]. split.
    - intros it [<-|[]]. exists o. split; [now left | exact Hid].
    - intros x [<-|[]]. rewrite Hid, Htotal. reflexivity. }
  destruct (save_order_changes_consistent (Sample.ctx Sample.alice 2000)
              (mkEditRequest (Some 1)
                 [EditItem.mk (Some 1) false false (Some 1) (Some 3) (Some 500)
                    (Some 1500) None [] None;
                  EditItem.mk None true false (Some 1) (Some 1) (Some 500)
                    (Some 500) None [] None] 1000)
              lunch_db Hcons) as (Hafter & _ & Hresp).
  - unfold items_keyed. rewrite Hdb. repeat constructor. intros [].
  - intros oid Hoid. injection Hoid as <-.
    unfold existing_item_ids. rewrite Hdb. vm_compute.
    repeat constructor. intros [].
  - split; [exact Hafter|]. split; [|vm_compute; reflexivity].
    rewrite (Hresp 1); [|vm_compute; reflexivity | reflexivity].
    vm_compute. reflexivity.
Defined.

(** ** The books under every request *)

Lemma books_frame (db db' : DB) :
  order_items db' = order_items db ->
  map order_key (orders db') = map order_key (orders db) ->
  books db -> books db'.
Proof.
  intros Hitems Hkeys ((Hkey & Hbelong & Htotal) & Hrows).
  assert (Hids : map Order.id (orders db') = map Order.id (orders db)).
  { apply (f_equal (map fst)) in Hkeys. rewrite !map_map in Hkeys.
    exact Hkeys. }
  unfold books, consistent, orders_keyed, items_belong, totals_agree,
    items_keyed.
  rewrite Hitems, Hids. split; [split; [exact Hkey|split]|exact Hrows].
  - intros it Hit. destruct (Hbelong it Hit) as (o & Ho & Hid).
    apply (in_map Order.id) in Ho. rewrite <- Hids in Ho.
    apply in_map_iff in Ho. destruct Ho as (o' & Hid' & Ho').
    exists o'. split; [exact Ho' | congruence].
  - intros o' Ho'. apply (in_map order_key) in Ho'. rewrite Hkeys in Ho'.
    apply in_map_iff in Ho'. destruct Ho' as (o & Hk & Ho).
    unfold order_key in Hk. injection Hk as Hid Hsum.
    rewrite <- Hid, <- Hsum. exact (Htotal o Ho).
Qed.

Lemma get_or_create_today_session_items (ctx : Ctx) (c : Z) (db db' : DB)
  (session : CashierSession.t) :
  get_or_create_today_session ctx c db = Ok (db', session) ->
  order_items db' = order_items db.
Proof.
  unfold get_or_create_today_session, execute.
  destruct (db_reachable ctx); simpl; [|discriminate].
  destruct (find _ (cashier_sessions db)); intro H; inversion H; reflexivity.
Qed.

Lemma session_mark_report_printed_items (ctx : Ctx) (session : CashierSession.t)
  (db db' : DB) :
  session_mark_report_printed ctx session db = Ok db' ->
  order_items db' = order_items db.
Proof.
  unfold session_mark_report_printed.
  destruct (CashierSession.branch_id session =? 0);
    [destruct (User.branch_id (current_user ctx))|];
    intro H; inversion H; reflexivity.
Qed.

Lemma mark_daily_report_printed_items (ctx : Ctx) (db : DB) :
  order_items (fst (mark_daily_report_printed ctx db)) = order_items db.
Proof.
  unfold mark_daily_report_printed, mark_daily_report_printed_try,
    created_session.
  destruct (negb (UserRole.eqb (User.role (current_user ctx)) UserRole.CASHIER));
    [reflexivity|].
  destruct (get_or_create_today_session ctx (User.id (current_user ctx)) db)
    as [[db1 session]|e] eqn:E; simpl; [|reflexivity].
  pose proof (get_or_create_today_session_items _ _ _ _ _ E) as H1.
  destruct (session_mark_report_printed ctx session db1) as [db2|e] eqn:E2;
    simpl; [|exact H1].
  pose proof (session_mark_report_printed_items _ _ _ _ E2) as H2.
  destruct (negb (CashierSession.daily_report_printed session)); simpl;
    congruence.
Qed.

Lemma daily_report_items (ctx : Ctx) (db : DB) :
  order_items (fst (daily_report ctx db)) = order_items db.
Proof.
  unfold daily_report, daily_report_mark, execute.
  destruct (negb (UserRole.eqb (User.role (current_user ctx)) UserRole.CASHIER));
    [reflexivity|].
  destruct (db_reachable ctx) eqn:Edb; [|reflexivity].
  destruct (0 <? count _ (orders db)); [reflexivity|]. simpl.
  destruct (get_or_create_today_session ctx (User.id (current_user ctx)) db)
    as [[db1 session]|e] eqn:E; [|reflexivity].
  pose proof (get_or_create_today_session_items _ _ _ _ _ E) as H1.
  destruct (session_mark_report_printed ctx session db1) as [db2|e] eqn:E2;
    [|exact H1].
  pose proof (session_mark_report_printed_items _ _ _ _ E2) as H2.
  simpl. congruence.
Qed.

Lemma mark_order_paid_frame (ctx : Ctx) (order_id : Z) (db : DB) :
  order_items (fst (mark_order_paid ctx order_id db)) = order_items db
  /\ map order_key (orders (fst (mark_order_paid ctx order_id db)))
     = map order_key (orders db).
Proof.
  unfold mark_order_paid, mark_order_paid_try, execute.
  destruct (negb (may_mark_paid (User.role (current_user ctx))));
    [now split|].
  destruct (db_reachable ctx); simpl; [|now split].
  destruct (Order_get db order_id) as [o|]; simpl; [|now split].
  repeat match goal with
         | |- context [if ?c then _ else _] =>
             destruct c; simpl; [now split|]
         end.
  split; [reflexivity|].
  induction (orders db) as [|x l IH]; simpl; [reflexivity|].
  destruct (Order.id x =? order_id); simpl; [reflexivity | now rewrite IH].
Qed.

Lemma update_where_order_keys (p : Order.t -> bool) (f : Order.t -> Order.t)
  (l : list Order.t) :
  (forall o, order_key (f o) = order_key o) ->
  map order_key (update_where p f l) = map order_key l.
Proof.
  intro Hkey. unfold update_where. rewrite map_map. apply map_ext.
  intro x. destruct (p x); [apply Hkey | reflexivity].
Qed.

Lemma clear_waiter_requests_frame (ctx : Ctx) (db : DB) :
  order_items (fst (clear_waiter_requests ctx db)) = order_items db
  /\ map order_key (orders (fst (clear_waiter_requests ctx db)))
     = map order_key (orders db).
Proof.
  unfold clear_waiter_requests, execute.
  destruct (negb (sees_waiter_requests (User.role (current_user ctx))));
    [now split|].
  destruct (db_reachable ctx); [|now split].
  destruct (filter _ (filter _ (orders db))); [now split|].
  simpl. split; [reflexivity|]. now apply update_where_order_keys.
Qed.

Lemma transfer_orders_items (ctx : Ctx) (data : TransferRequest) (db : DB) :
  order_items (fst (transfer_orders ctx data db)) = order_items db.
Proof.
  unfold transfer_orders, transfer_orders_try, execute.
  destruct (negb (UserRole.eqb (User.role (current_user ctx)) UserRole.CASHIER));
    [reflexivity|].
  destruct (order_ids data) as [|i ids]; [reflexivity|].
  destruct (truthy_int (target_cashier_id data)); [|reflexivity].
  destruct (target_cashier_id data) as [tid|]; [|reflexivity].
  destruct (db_reachable ctx); simpl; [|reflexivity].
  destruct (User_get db tid) as [target|]; [|reflexivity].
  repeat match goal with
         | |- context [if ?c then _ else _] =>
             destruct c; simpl; try reflexivity
         end.
Qed.

Lemma transfer_orders_frame (ctx : Ctx) (data : TransferRequest) (db : DB) :
  order_items (fst (transfer_orders ctx data db)) = order_items db
  /\ map order_key (orders (fst (transfer_orders ctx data db)))
     = map order_key (orders db).
Proof.
  split; [apply transfer_orders_items|].
  destruct (success_or_not (snd (transfer_orders ctx data db))) as [Hok|Hno].
  - destruct (transfer_orders_success ctx data db Hok) as [target H].
    cbv zeta in H. destruct H as (_ & _ & _ & -> & _).
    now apply update_where_order_keys.
  - now destruct (transfer_orders_refusal ctx data db Hno) as [-> _].
Qed.

Lemma insert_items_keyed (oid : Z) (new_items : list NewItem)
  (table : list OrderItem.t) :
  NoDup (map OrderItem.id table) ->
  NoDup (map OrderItem.id (insert_items oid new_items table)).
Proof.
  revert table. induction new_items as [|n rest IH]; intros table Hkey;
    [exact Hkey|].
  simpl. apply IH. rewrite map_app. simpl.
  apply NoDup_app; [exact Hkey | repeat constructor; intros [] |].
  intros k Hk [<-|[]]. apply in_map_iff in Hk.
  destruct Hk as (it & Hid & Hit).
  pose proof (next_id_above OrderItem.id table it Hit). lia.
Qed.

Lemma create_order_items_keyed (ctx : Ctx) (data : CreateOrderRequest)
  (db : DB) :
  items_keyed db -> items_keyed (fst (create_order ctx data db)).
Proof.
  intro Hkey.
  destruct (success_or_not (snd (create_order ctx data db))) as [Hok|Hno];
    [|now rewrite (create_order_rollback ctx data db Hno)].
  destruct (create_order_commits ctx data db Hok)
    as (new_items & notes & assigned & status & _ & _ & [Hup|Hins]).
  - destruct Hup as (order & _ & _ & _ & ->).
    unfold items_keyed. rewrite track_session_items. simpl.
    now apply insert_items_keyed.
  - destruct Hins as (svc & branch & counters & n & _ & _ & _ & _ & ->).
    unfold items_keyed. rewrite track_session_items. simpl.
    now apply insert_items_keyed.
Qed.

(** X8.  Whatever the request and whoever sends it, the books stay in
    order: after any of the seven writing requests order ids and item ids
    are still distinct, every item belongs to an order and every order's
    total is the sum of its items that are not deleted, provided an edit
    lists no item of the order twice.  Paying, transferring, clearing and
    reporting change neither an item nor a total. *)
Theorem perform_books (ctx : Ctx) (op : Operation) (db : DB) :
  books db -> well_formed op db ->
  books (perform ctx op db)
  /\ (match op with
      | CreateOrder _ | SaveOrderChanges _ => True
      | _ => order_items (perform ctx op db) = order_items db
             /\ map order_key (orders (perform ctx op db))
                = map order_key (orders db)
      end).
Proof.
  intros Hbooks Hop.
  destruct op as [data|order_id|data|data| | |]; simpl.
  - split; [|exact I]. destruct Hbooks as [Hcons Hrows]. split.
    + now apply create_order_keeps_consistent.
    + now apply create_order_items_keyed.
  - destruct (mark_order_paid_frame ctx order_id db) as [Hi Ho].
    split; [exact (books_frame _ _ Hi Ho Hbooks) | now split].
  - split; [|exact I]. destruct Hbooks as [Hcons Hrows].
    destruct (save_order_changes_keeps_books ctx data db Hcons Hrows Hop)
      as (H1 & H2 & _).
    now split.
  - destruct (transfer_orders_frame ctx data db) as [Hi Ho].
    split; [exact (books_frame _ _ Hi Ho Hbooks) | now split].
  - destruct (clear_waiter_requests_frame ctx db) as [Hi Ho].
    split; [exact (books_frame _ _ Hi Ho Hbooks) | now split].
  - pose proof (daily_report_items ctx db) as Hi.
    pose proof (f_equal (map order_key) (daily_report_orders ctx db)) as Ho.
    split; [exact (books_frame _ _ Hi Ho Hbooks) | now split].
  - pose proof (mark_daily_report_printed_items ctx db) as Hi.
    pose proof (f_equal (map order_key)
                  (mark_daily_report_printed_orders ctx db)) as Ho.
    split; [exact (books_frame _ _ Hi Ho Hbooks) | now split].
Qed.

(** At opening time the books are in order; they still are after Walt's
    order, after Alice has taken the payment, and after her report. *)
Lemma perform_books_witness :
  books opening_db
  /\ books
       (perform (Sample.ctx Sample.alice 3000) DailyReport
          (perform (Sample.ctx Sample.alice 2000) (MarkOrderPaid 1)
             (perform (Sample.ctx Sample.walt 1000)
                (CreateOrder
                   (mkCreateOrderRequest (Some 7)
                      [OrderItemData.mk (Some (MenuItemId 1)) false None
                         (Some 2) None []]
                      None false None None None)) opening_db))).
Proof.
  assert (H0 : books opening_db).
  { split; [|constructor].
    split; [constructor|]. split; intros x Hx; simpl in Hx; contradiction. }
  split; [exact H0|].
  apply perform_books; [|exact I].
  apply perform_books; [|exact I].
  apply perform_books; [exact H0 | exact I].
Defined.

(** ** Transfers and the logout check *)

Lemma prefix_app_l (p s t : string) :
  String.prefix p s = true -> String.prefix p (s ++ t) = true.
Proof.
  revert s. induction p as [|c p IH]; intros s H;
    [destruct s; [destruct t|]; reflexivity|].
  destruct s as [|d s]; [discriminate|]. simpl in *.
  destruct (ascii_dec c d); [now apply IH | discriminate].
Qed.

Lemma contains_app_l (s t needle : string) :
  contains s needle = true -> contains (s ++ t) needle = true.
Proof.
  induction s as [|c s IH]; intro H; rewrite contains_unfold in H;
    rewrite (contains_unfold (_ ++ t)).
  - rewrite orb_false_r in H. rewrite (prefix_app_l _ _ t H). reflexivity.
  - apply orb_true_iff in H. destruct H as [H|H].
    + rewrite (prefix_app_l _ _ t H). reflexivity.
    + simpl append. cbv iota. rewrite (IH H). apply orb_true_r.
Qed.

Lemma count_cons {A : Type} (p : A -> bool) (x : A) (l : list A) :
  count p (x :: l) = (if p x then 1 else 0) + count p l.
Proof.
  unfold count. simpl. destruct (p x); simpl List.length; lia.
Qed.

Lemma count_update_where_gain {A : Type} (p q : A -> bool) (f : A -> A)
  (l : list A) :
  (forall x, p x = true -> q x = false /\ q (f x) = true) ->
  count q (update_where p f l) = count q l + count p l.
Proof.
  intro H. induction l as [|x l IH]; [reflexivity|].
  change (update_where p f (x :: l))
    with ((if p x then f x else x) :: update_where p f l).
  rewrite !count_cons, IH. destruct (p x) eqn:Ep.
  - destruct (H x Ep) as [-> ->]. lia.
  - destruct (q x); lia.
Qed.

Lemma count_update_where_loss {A : Type} (p q : A -> bool) (f : A -> A)
  (l : list A) :
  (forall x, p x = true -> q x = true /\ q (f x) = false) ->
  count q (update_where p f l) = count q l - count p l.
Proof.
  intro H. induction l as [|x l IH]; [reflexivity|].
  change (update_where p f (x :: l))
    with ((if p x then f x else x) :: update_where p f l).
  rewrite !count_cons, IH. destruct (p x) eqn:Ep.
  - destruct (H x Ep) as [-> ->]. lia.
  - destruct (q x); lia.
Qed.

Lemma transferred_order (ctx : Ctx) (target : User.t) (ids : list Z)
  (o : Order.t) :
  transferable (current_user ctx) ids o = true ->
  User.id target <> User.id (current_user ctx) ->
  (unpaid_waiter_order (User.id (current_user ctx)) o = true
   /\ unpaid_waiter_order (User.id (current_user ctx))
        (transfer_one ctx target o) = false)
  /\ (unpaid_waiter_order (User.id target) o = false
      /\ unpaid_waiter_order (User.id target) (transfer_one ctx target o)
         = true).
Proof.
  unfold transferable, unpaid_waiter_order, notes_like_waiter_order, notes_text.
  intros H Hother.
  apply andb_true_iff in H. destruct H as [H Htag].
  apply andb_true_iff in H. destruct H as [H Hpending].
  apply andb_true_iff in H. destruct H as [_ Hassigned].
  apply col_eqb_eq in Hassigned.
  destruct (Order.notes o) as [n|] eqn:En; [|discriminate].
  unfold transfer_one, Order.set_transfer.
  cbn [Order.notes Order.status Order.assigned_cashier_id].
  unfold notes_text.
  rewrite ?En, Hassigned, Hpending, Htag.
  rewrite (contains_app_l n _ WAITER_TAG Htag). unfold col_eqb.
  rewrite !Z.eqb_refl.
  assert (H1 : (User.id target =? User.id (current_user ctx)) = false)
    by now apply Z.eqb_neq.
  assert (H2 : (User.id (current_user ctx) =? User.id target) = false)
    by (apply Z.eqb_neq; congruence).
  rewrite H1, H2. repeat split.
Qed.

Lemma transfer_orders_some_ids (ctx : Ctx) (data : TransferRequest) (db : DB) :
  field "success" (snd (transfer_orders ctx data db)) = Some (JBool true) ->
  order_ids data <> [].
Proof.
  unfold transfer_orders, transfer_orders_try.
  destruct (negb (UserRole.eqb (User.role (current_user ctx)) UserRole.CASHIER));
    [discriminate|].
  destruct (order_ids data); [discriminate | intros _; discriminate].
Qed.

(** X9.  A transfer hands the obligation over.  After a successful transfer
    to another cashier, the requesting cashier has as many unpaid delegated
    orders fewer as the request names orders, the target has as many more,
    and the target is refused by the logout check from then on (while the
    database answers). *)
Theorem transfer_orders_moves_obligation (ctx : Ctx) (data : TransferRequest)
  (db : DB) :
  field "success" (snd (transfer_orders ctx data db)) = Some (JBool true) ->
  target_cashier_id data <> Some (User.id (current_user ctx)) ->
  exists target,
    let db' := fst (transfer_orders ctx data db) in
    let n := Z.of_nat (List.length (order_ids data)) in
    let me := User.id (current_user ctx) in
    target_cashier_id data = Some target
    /\ 0 < n
    /\ count (unpaid_waiter_order me) (orders db')
       = count (unpaid_waiter_order me) (orders db) - n
    /\ count (unpaid_waiter_order target) (orders db')
       = count (unpaid_waiter_order target) (orders db) + n
    /\ (forall ctx',
          User.role (current_user ctx') = UserRole.CASHIER ->
          User.id (current_user ctx') = target ->
          db_reachable ctx' = true ->
          field "can_logout" (check_logout_permission ctx' db')
          = Some (JBool false)).
Proof.
  intros Hok Hother.
  pose proof (transfer_orders_some_ids ctx data db Hok) as Hids.
  destruct (transfer_orders_success ctx data db Hok) as [target H].
  cbv zeta in H. destruct H as (Htarget & _ & Hlen & Horders & _).
  assert (Hne : User.id target <> User.id (current_user ctx))
    by (intro E; apply Hother; now rewrite Htarget, E).
  assert (Hn : count (transferable (current_user ctx) (order_ids data))
                     (orders db)
               = Z.of_nat (List.length (order_ids data)))
    by (unfold count; now rewrite Hlen).
  assert (Hpos : 0 < Z.of_nat (List.length (order_ids data)))
    by (destruct (order_ids data); [now elim Hids | simpl List.length; lia]).
  assert (Hgain :
    count (unpaid_waiter_order (User.id target))
          (orders (fst (transfer_orders ctx data db)))
    = count (unpaid_waiter_order (User.id target)) (orders db)
      + Z.of_nat (List.length (order_ids data))).
  { rewrite Horders, count_update_where_gain, Hn; [reflexivity|].
    intros o Ho. exact (proj2 (transferred_order ctx target _ o Ho Hne)). }
  exists (User.id target). cbv zeta.
  split; [exact Htarget|]. split; [exact Hpos|]. split; [|split].
  - rewrite Horders, count_update_where_loss, Hn; [reflexivity|].
    intros o Ho. exact (proj1 (transferred_order ctx target _ o Ho Hne)).
  - exact Hgain.
  - intros ctx' Hrole Hid Hdb.
    rewrite (check_logout_permission_online ctx' _ Hrole Hdb).
    assert (Hunpaid : 0 < count (unpaid_waiter_order (User.id (current_user ctx')))
                              (orders (fst (transfer_orders ctx data db)))).
    { rewrite Hid, Hgain.
      pose proof (count_nonneg (unpaid_waiter_order (User.id target))
                    (orders db)). lia. }
    match goal with
    | |- field _ (logout_decision ?last ?total ?n ?m) = _ =>
        destruct (logout_decision_cases last total n m)
          as (Hboth & _ & Hwaiter & _);
        destruct (Z_lt_le_dec 0 n) as [Hlt|Hle]
    end.
    + exact (proj1 (Hboth Hlt Hunpaid)).
    + exact (proj1 (Hwaiter Hle Hunpaid)).
Qed.

(** Alice hands orders 10 and 11 to Bob: she is left with none of Walt's
    tagged orders, Bob has two and cannot log out. *)
Lemma transfer_orders_moves_obligation_witness :
  let db' := fst (transfer_orders (Sample.ctx Sample.alice 1000)
                    (mkTransferRequest [10; 11] (Some 2)) Sample.db) in
  count (unpaid_waiter_order 1) (orders db') = 0
  /\ count (unpaid_waiter_order 2) (orders db') = 2
  /\ field "can_logout" (check_logout_permission (Sample.ctx Sample.bob 2000) db')
     = Some (JBool false).
Proof.
  cbv zeta.
  destruct (transfer_orders_moves_obligation (Sample.ctx Sample.alice 1000)
              (mkTransferRequest [10; 11] (Some 2)) Sample.db)
    as (target & Htarget & _ & Hme & Hto & Hblocked).
  - vm_compute. reflexivity.
  - discriminate.
  - injection Htarget as <-.
    split; [etransitivity; [exact Hme | reflexivity]|].
    split; [etransitivity; [exact Hto | reflexivity]|].
    apply Hblocked; reflexivity.
Defined.

(** ** Clearing the waiter requests *)

Lemma waiter_orders_filter_cleared (user : User.t) (o : Order.t) :
  waiter_orders_filter user (Order_set_cleared o) = false.
Proof.
  unfold waiter_orders_filter.
  destruct (User.role user); simpl; apply andb_false_r.
Qed.

Lemma filter_none {A : Type} (p : A -> bool) (l : list A) :
  (forall x, In x l -> p x = false) -> filter p l = [].
Proof.
  induction l as [|x l IH]; intro H; [reflexivity|].
  simpl. rewrite (H x (or_introl eq_refl)). apply IH.
  intros y Hy. apply H. now right.
Qed.

Lemma filter_filter_none {A : Type} (p q : A -> bool) (l : list A) :
  (forall x, In x l -> p x && q x = false) ->
  filter q (filter p l) = [].
Proof.
  induction l as [|x l IH]; intro H; [reflexivity|].
  simpl. pose proof (H x (or_introl eq_refl)) as Hx.
  destruct (p x); simpl.
  - simpl in Hx. rewrite Hx. apply IH. intros y Hy. apply H. now right.
  - apply IH. intros y Hy. apply H. now right.
Qed.

Lemma filter_filter_length {A : Type} (p q : A -> bool) (l : list A) :
  List.length (filter q (filter p l))
  = List.length (filter (fun x => p x && q x) l).
Proof.
  induction l as [|x l IH]; [reflexivity|].
  simpl. destruct (p x); simpl; [|exact IH].
  destruct (q x); simpl; now rewrite IH.
Qed.

(** X10.  Clearing the waiter requests takes the paid orders out of the
    view and nothing else: after a successful request the paid view of the
    user is empty, the pending view is what it was, the answer counts the
    orders that were in the paid view, and a second request right after is
    refused with 400 and changes nothing. *)
Theorem clear_waiter_requests_clears_paid (ctx : Ctx) (db : DB) :
  field "success" (snd (clear_waiter_requests ctx db)) = Some (JBool true) ->
  let db' := fst (clear_waiter_requests ctx db) in
  waiter_requests ctx "paid" db' = Some []
  /\ waiter_requests ctx "pending" db' = waiter_requests ctx "pending" db
  /\ (exists paid_view,
        waiter_requests ctx "paid" db = Some paid_view
        /\ paid_view <> []
        /\ field "cleared_count" (snd (clear_waiter_requests ctx db))
           = Some (JInt (Z.of_nat (List.length paid_view))))
  /\ fst (clear_waiter_requests ctx db') = db'
  /\ snd (snd (clear_waiter_requests ctx db')) = 400.
Proof.
  unfold clear_waiter_requests at 1, execute.
  destruct (negb (sees_waiter_requests (User.role (current_user ctx))))
    eqn:Erole; [discriminate|].
  destruct (db_reachable ctx) eqn:Edb; [|discriminate].
  destruct (filter _ (filter _ (orders db))) as [|o0 rest] eqn:Epaid;
    [discriminate|].
  intros _. cbv zeta.
  assert (Hdb' : fst (clear_waiter_requests ctx db)
                 = with_orders
                     (update_where
                        (fun o => waiter_orders_filter (current_user ctx) o
                                  && OrderStatus.eqb (Order.status o)
                                       OrderStatus.PAID)
                        Order_set_cleared (orders db)) db).
  { unfold clear_waiter_requests, execute. rewrite Erole, Edb, Epaid.
    reflexivity. }
  assert (Hresp : field "cleared_count" (snd (clear_waiter_requests ctx db))
                  = Some (JInt (Z.of_nat (List.length (o0 :: rest))))).
  { unfold clear_waiter_requests, execute. rewrite Erole, Edb, Epaid.
    reflexivity. }
  rewrite Hdb'.
  assert (Hnone : forall x,
            In x (update_where
                    (fun o => waiter_orders_filter (current_user ctx) o
                              && OrderStatus.eqb (Order.status o)
                                   OrderStatus.PAID)
                    Order_set_cleared (orders db)) ->
            waiter_orders_filter (current_user ctx) x
            && OrderStatus.eqb (Order.status x) OrderStatus.PAID = false).
  { intros x Hx. unfold update_where in Hx. apply in_map_iff in Hx.
    destruct Hx as (y & <- & _).
    destruct (waiter_orders_filter (current_user ctx) y
              && OrderStatus.eqb (Order.status y) OrderStatus.PAID) eqn:Ey;
      [|exact Ey].
    now rewrite waiter_orders_filter_cleared. }
  split; [|split; [|split; [|split]]].
  - unfold waiter_requests. rewrite Erole. simpl orders. f_equal.
    unfold status_filter_matches. simpl String.eqb. cbv iota.
    apply filter_none. exact Hnone.
  - unfold waiter_requests. rewrite Erole. simpl orders.
    apply (f_equal Some).
    apply filter_update_where. intros x Hx.
    apply andb_prop in Hx. destruct Hx as [_ Hpaid].
    apply OrderStatus_eqb_eq in Hpaid.
    rewrite waiter_orders_filter_cleared.
    unfold status_filter_matches. simpl String.eqb. cbv iota.
    rewrite Hpaid. split; [apply andb_false_r | reflexivity].
  - unfold waiter_requests. rewrite Erole. eexists. split; [reflexivity|].
    unfold status_filter_matches. simpl String.eqb. cbv iota.
    assert (Hlen : List.length
                     (filter (fun o => waiter_orders_filter (current_user ctx) o
                                       && OrderStatus.eqb (Order.status o)
                                            OrderStatus.PAID) (orders db))
                   = List.length (o0 :: rest)).
    { rewrite <- Epaid. symmetry. apply filter_filter_length. }
    split; [|now rewrite Hresp, Hlen].
    intro Hnil. rewrite Hnil in Hlen. discriminate Hlen.
  - unfold clear_waiter_requests, execute. rewrite Erole, Edb. simpl orders.
    now rewrite (filter_filter_none _ _ _ Hnone).
  - unfold clear_waiter_requests, execute. rewrite Erole, Edb. simpl orders.
    now rewrite (filter_filter_none _ _ _ Hnone).
Qed.

(** Alice takes the payment of order 10 and clears her view: order 11 is
    still there as pending, and there is nothing left to clear. *)
Lemma clear_waiter_requests_clears_paid_witness :
  let db1 := fst (mark_order_paid (Sample.ctx Sample.alice 1000) 10 Sample.db) in
  let db' := fst (clear_waiter_requests (Sample.ctx Sample.alice 2000) db1) in
  waiter_requests (Sample.ctx Sample.alice 2000) "paid" db' = Some []
  /\ option_map (map Order.id)
       (waiter_requests (Sample.ctx Sample.alice 2000) "pending" db')
     = Some [11]
  /\ snd (snd (clear_waiter_requests (Sample.ctx Sample.alice 2000) db')) = 400.
Proof.
  cbv zeta.
  destruct (clear_waiter_requests_clears_paid (Sample.ctx Sample.alice 2000)
              (fst (mark_order_paid (Sample.ctx Sample.alice 1000) 10 Sample.db)))
    as (Hpaid & Hpending & _ & _ & Hagain).
  - vm_compute. reflexivity.
  - split; [exact Hpaid|]. split; [|exact Hagain].
    rewrite Hpending. vm_compute. reflexivity.
Defined.

(** ** The report and the logout check *)

Lemma latest_report_time_above (rows : list CashierSession.t)
  (s : CashierSession.t) (t : Z) :
  In s rows -> CashierSession.report_printed_at s = Some t ->
  exists t', latest_report_time rows = Some t' /\ t <= t'.
Proof.
  induction rows as [|x rows IH]; intros Hin Hat; [contradiction|].
  simpl. destruct Hin as [->|Hin].
  - rewrite Hat. destruct (latest_report_time rows) as [t'|].
    + exists (Z.max t t'). split; [reflexivity | lia].
    + exists t. split; [reflexivity | lia].
  - destruct (IH Hin Hat) as (t' & -> & Hle).
    destruct (CashierSession.report_printed_at x) as [tx|].
    + exists (Z.max tx t'). split; [reflexivity | lia].
    + exists t'. now split.
Qed.

Lemma daily_report_pdf (ctx : Ctx) (b : Z) (db : DB) :
  User.role (current_user ctx) = UserRole.CASHIER ->
  User.branch_id (current_user ctx) = Some b ->
  db_reachable ctx = true ->
  snd (daily_report ctx db) = PdfResponse ->
  count (unpaid_waiter_order (User.id (current_user ctx))) (orders db) <= 0
  /\ exists s1,
       session_of_today ctx (fst (daily_report ctx db)) = Some s1
       /\ CashierSession.daily_report_printed s1 = true
       /\ CashierSession.report_printed_at s1 = Some (utcnow ctx).
Proof.
  intros Hrole Hbranch Hdb. unfold daily_report, execute.
  rewrite Hrole, Hdb. simpl.
  destruct (0 <? count _ (orders db)) eqn:Ecount; [discriminate|].
  intros _. split; [now apply Z.ltb_ge in Ecount|].
  simpl. unfold daily_report_mark.
  destruct (get_or_create_today_session_spec ctx db Hdb)
    as (db0 & s0 & -> & Hfound & _).
  destruct (session_mark_report_printed_spec ctx b s0 db0 Hbranch Hfound)
    as (db1 & s1 & -> & Hfound1 & Hprinted & Hat & _).
  exists s1. split; [exact Hfound1 | now split].
Qed.

(** X11.  The report opens the door.  When [daily_report] has produced the
    PDF for a cashier and no order in the database is dated after that
    moment, the logout check of the same cashier, later on the same day,
    allows the logout: no order counts as made since the report, and the
    report is only produced for a cashier without unpaid delegated orders. *)
Theorem daily_report_allows_logout (ctx ctx' : Ctx) (b : Z) (db : DB) :
  User.role (current_user ctx) = UserRole.CASHIER ->
  User.branch_id (current_user ctx) = Some b ->
  db_reachable ctx = true ->
  current_user ctx' = current_user ctx ->
  date (utcnow ctx') = date (utcnow ctx) ->
  db_reachable ctx' = true ->
  snd (daily_report ctx db) = PdfResponse ->
  (forall o, In o (orders db) -> Order.created_at o <= utcnow ctx) ->
  let r := check_logout_permission ctx' (fst (daily_report ctx db)) in
  field "can_logout" r = Some (JBool true)
  /\ field "orders_after_report" r = Some (JInt 0)
  /\ field "unpaid_waiter_orders" r = Some (JInt 0).
Proof.
  intros Hrole Hbranch Hdb Huser Hday Hdb' Hpdf Hpast. cbv zeta.
  destruct (daily_report_pdf ctx b db Hrole Hbranch Hdb Hpdf)
    as (Hunpaid & s1 & Hfound & Hprinted & Hat).
  assert (Hrole' : User.role (current_user ctx') = UserRole.CASHIER)
    by now rewrite Huser.
  rewrite (check_logout_permission_online ctx' _ Hrole' Hdb').
  rewrite Huser, Hday, daily_report_orders.
  set (c := User.id (current_user ctx)).
  set (today := date (utcnow ctx)).
  unfold session_of_today in Hfound. fold c today in Hfound.
  apply find_some in Hfound. destruct Hfound as [Hin Htoday].
  unfold today_session in Htoday.
  apply andb_prop in Htoday. destruct Htoday as [Htoday _].
  assert (Hreport : In s1 (filter (report_session c today)
                             (cashier_sessions (fst (daily_report ctx db))))).
  { apply filter_In. split; [exact Hin|].
    unfold report_session. now rewrite Htoday, Hprinted, Hat. }
  destruct (latest_report_time_above _ s1 (utcnow ctx) Hreport Hat)
    as (t' & -> & Hle).
  assert (Hafter : count (orders_after_report_filter c today (Some t'))
                         (orders db) = 0).
  { unfold count. rewrite filter_none; [reflexivity|].
    intros o Ho. unfold orders_after_report_filter.
    assert (Hnot : (t' <? Order.created_at o) = false)
      by (apply Z.ltb_ge; specialize (Hpast o Ho); lia).
    rewrite Hnot. apply andb_false_r. }
  assert (Hzero : count (unpaid_waiter_order c) (orders db) = 0)
    by (pose proof (count_nonneg (unpaid_waiter_order c) (orders db));
        unfold c in *; lia).
  rewrite Hafter, Hzero.
  match goal with
  | |- context [logout_decision ?last ?total 0 0] =>
      destruct (logout_decision_cases last total 0 0) as (_ & _ & _ & Hfree);
      destruct (logout_decision_counts last total 0 0) as [Hn Hm]
  end.
  split; [apply Hfree; lia | now split].
Qed.

(** Bob has three orders of the day and none delegated: he prints the
    report at 09:00 and may log out at 10:00. *)
Lemma daily_report_allows_logout_witness :
  field "can_logout"
    (check_logout_permission (Sample.ctx Sample.bob 36000)
       (fst (daily_report (Sample.ctx Sample.bob 32400) Sample.db)))
  = Some (JBool true).
Proof.
  apply (daily_report_allows_logout (Sample.ctx Sample.bob 32400)
           (Sample.ctx Sample.bob 36000) 1 Sample.db);
    try reflexivity.
  intros o Ho. simpl in Ho.
  repeat (destruct Ho as [<-|Ho]; [vm_compute; discriminate|]).
  contradiction.
Defined.

(** ** The PIN of a cashier *)

Lemma find_update_first_found {A : Type} (p q : A -> bool) (f : A -> A)
  (l : list A) (r0 : A) :
  find p l = Some r0 ->
  (forall x, q x = true -> p x = true) ->
  q (f r0) = true ->
  find q (update_first p f l) = Some (f r0).
Proof.
  intros Hfind Hsub Hq. induction l as [|x l IH]; [discriminate|].
  simpl in *. destruct (p x) eqn:Ep.
  - injection Hfind as ->. simpl. now rewrite Hq.
  - simpl. destruct (q x) eqn:Eq; [|now apply IH].
    rewrite (Hsub x Eq) in Ep. discriminate.
Qed.

Lemma update_first_projection {A K : Type} (key : A -> K) (p : A -> bool)
  (f : A -> A) (l : list A) :
  (forall x, key (f x) = key x) ->
  map key (update_first p f l) = map key l.
Proof.
  intro Hkey. induction l as [|x l IH]; [reflexivity|].
  simpl. destruct (p x); simpl; [now rewrite Hkey | now rewrite IH].
Qed.

Lemma own_pin_branch (user : User.t) (b : Z) (r : CashierPin.t) :
  User.branch_id user = Some b ->
  own_pin user r
  = (CashierPin.cashier_id r =? User.id user) && (CashierPin.branch_id r =? b).
Proof.
  intro Hb. unfold own_pin, col_eqb. rewrite Hb.
  now rewrite (Z.eqb_sym b).
Qed.

Lemma filter_update_first_others {A : Type} (p : A -> bool) (f : A -> A)
  (l : list A) :
  (forall x, p x = true -> p (f x) = true) ->
  filter (fun x => negb (p x)) (update_first p f l)
  = filter (fun x => negb (p x)) l.
Proof.
  intro Hp. induction l as [|x l IH]; [reflexivity|].
  simpl. destruct (p x) eqn:Ep; simpl.
  - rewrite (Hp x Ep). reflexivity.
  - rewrite ?Ep. simpl. now rewrite IH.
Qed.

(** X12.  A PIN that is set can be used.  For a cashier with a branch and a
    well-formed, confirmed PIN, [set_pin] succeeds whether or not a record
    exists (and whether or not it was disabled); from then on
    [verify_current_pin] accepts that PIN for the same cashier; the records
    of other cashiers are untouched and there is still one record per
    cashier and branch. *)
Theorem set_pin_then_verify (W : Werkzeug) (salt : string) (ctx : Ctx) (b : Z)
  (data : PinRequest) (pins : list CashierPin.t) :
  User.role (current_user ctx) = UserRole.CASHIER ->
  User.branch_id (current_user ctx) = Some b ->
  db_reachable ctx = true ->
  pin_format_ok (strip (or_empty (new_pin data))) = true ->
  strip (or_empty (confirm_pin data)) = strip (or_empty (new_pin data)) ->
  let r := cashier_views.set_pin W salt ctx data pins in
  field "success" (snd r) = Some (JBool true)
  /\ (forall ctx' pin,
        current_user ctx' = current_user ctx ->
        db_reachable ctx' = true ->
        strip (or_empty pin) = strip (or_empty (new_pin data)) ->
        field "success"
          (cashier_views.verify_current_pin W ctx' (mkPinRequest pin None None)
             (fst r))
        = Some (JBool true))
  /\ filter (fun x => negb (own_pin (current_user ctx) x)) (fst r)
     = filter (fun x => negb (own_pin (current_user ctx) x)) pins
  /\ (pins_keyed pins -> pins_keyed (fst r)).
Proof.
  intros Hrole Hbranch Hdb Hformat Hconfirm. cbv zeta.
  set (user := current_user ctx).
  set (new := strip (or_empty (new_pin data))) in *.
  assert (Hverify :
    forall pins',
      (exists rec,
         find (fun r => (CashierPin.cashier_id r =? User.id user)
                        && (CashierPin.branch_id r =? b)
                        && CashierPin.is_active r) pins' = Some rec
         /\ CashierPin.pin_code_hash rec = generate_password_hash W salt new) ->
      forall ctx' pin,
        current_user ctx' = user -> db_reachable ctx' = true ->
        strip (or_empty pin) = new ->
        field "success"
          (cashier_views.verify_current_pin W ctx' (mkPinRequest pin None None)
             pins') = Some (JBool true)).
  { intros pins' (rec & Hfind & Hhash) ctx' pin Huser Hdb' Hpin.
    unfold cashier_views.verify_current_pin, execute, verify_own_pin,
      CashierPin.verify_cashier_pin, CashierPin.check_pin.
    simpl current_pin. rewrite Huser. unfold user.
    rewrite Hrole. simpl negb. cbv iota.
    rewrite Hpin, Hformat, Hdb'. simpl negb. cbv iota.
    rewrite Hbranch. fold user. rewrite Hfind, Hhash, check_generated.
    reflexivity. }
  unfold cashier_views.set_pin, execute. fold new.
  rewrite Hrole. simpl negb. cbv iota.
  rewrite Hformat, Hconfirm. fold new. rewrite String.eqb_refl, Hdb.
  simpl negb. cbv iota. rewrite Hbranch. fold user.
  destruct (find (own_pin user) pins) as [r0|] eqn:Efind.
  - simpl fst. simpl snd.
    split; [reflexivity|]. split; [|split].
    + apply Hverify.
      exists (activate (CashierPin.set_pin W salt new r0)).
      split; [|reflexivity].
      apply (find_update_first_found (own_pin user) _
               (fun r => activate (CashierPin.set_pin W salt new r)) pins r0);
        [exact Efind | |].
      * intros x Hx. rewrite (own_pin_branch user b x Hbranch).
        apply andb_prop in Hx. exact (proj1 Hx).
      * apply find_some in Efind. destruct Efind as [_ Hown].
        rewrite (own_pin_branch user b r0 Hbranch) in Hown.
        simpl. now rewrite Hown.
    + apply filter_update_first_others. intros x Hx. exact Hx.
    + unfold pins_keyed. intro Hkey.
      rewrite update_first_projection; [exact Hkey | reflexivity].
  - simpl fst. simpl snd.
    split; [reflexivity|]. split; [|split].
    + apply Hverify.
      exists (CashierPin.mk (User.id user) b
                (generate_password_hash W salt new) true).
      split; [|reflexivity].
      apply find_app_new; [|simpl; now rewrite !Z.eqb_refl].
      match goal with
      | |- find ?q pins = None =>
          destruct (find q pins) as [r1|] eqn:E1; [|reflexivity]
      end.
      apply find_some in E1. destruct E1 as [Hin Hr1].
      apply andb_prop in Hr1. destruct Hr1 as [Hr1 _].
      rewrite <- (own_pin_branch user b r1 Hbranch) in Hr1.
      pose proof (find_none _ _ Efind r1 Hin) as Hno. congruence.
    + rewrite filter_app. simpl.
      rewrite (own_pin_branch user b _ Hbranch). simpl.
      rewrite !Z.eqb_refl. simpl. apply app_nil_r.
    + unfold pins_keyed. intro Hkey. rewrite map_app. simpl.
      apply NoDup_app; [exact Hkey | repeat constructor; intros [] |].
      intros k Hk [<-|[]]. apply in_map_iff in Hk.
      destruct Hk as (y & Hy & Hin). injection Hy as Hc Hb.
      pose proof (find_none _ _ Efind y Hin) as Hno.
      rewrite (own_pin_branch user b y Hbranch), Hc, Hb, !Z.eqb_refl in Hno.
      discriminate.
Qed.

(** Alice sets the PIN 1234, typed with blanks around it, and it is accepted
    afterwards; 4321 is not. *)
Lemma set_pin_then_verify_witness :
  let r := cashier_views.set_pin SampleDigest.werkzeug "salt"
             (Sample.ctx Sample.alice 100)
             (mkPinRequest None (Some " 1234") (Some "1234 ")) [] in
  field "success" (snd r) = Some (JBool true)
  /\ field "success"
       (cashier_views.verify_current_pin SampleDigest.werkzeug
          (Sample.ctx Sample.alice 200) (mkPinRequest (Some "1234") None None)
          (fst r)) = Some (JBool true)
  /\ field "success"
       (cashier_views.verify_current_pin SampleDigest.werkzeug
          (Sample.ctx Sample.alice 200) (mkPinRequest (Some "4321") None None)
          (fst r)) = Some (JBool false).
Proof.
  cbv zeta.
  destruct (set_pin_then_verify SampleDigest.werkzeug "salt"
              (Sample.ctx Sample.alice 100) 1
              (mkPinRequest None (Some " 1234") (Some "1234 ")) [])
    as (Hok & Hverify & _); try reflexivity.
  split; [exact Hok|]. split; [|vm_compute; reflexivity].
  apply Hverify; reflexivity.
Defined.

(** X13.  Without the current PIN nothing changes: when the current PIN of
    the request is not the one on record for the user (or there is no
    active record), [change_pin] and [disable_pin] leave the table as it is
    and do not answer with a success, whatever else the request says. *)
Theorem pin_change_needs_current_pin (W : Werkzeug) (salt : string) (ctx : Ctx)
  (data : PinRequest) (pins : list CashierPin.t) :
  verify_own_pin W (current_user ctx) pins
    (strip (or_empty (current_pin data))) = false ->
  let c := cashier_views.change_pin W salt ctx data pins in
  let d := cashier_views.disable_pin W ctx data pins in
  fst c = pins /\ field "success" (snd c) <> Some (JBool true)
  /\ fst d = pins /\ field "success" (snd d) <> Some (JBool true).
Proof.
  intro Hwrong. cbv zeta.
  unfold cashier_views.change_pin, cashier_views.disable_pin, execute.
  rewrite Hwrong.
  destruct (negb (UserRole.eqb (User.role (current_user ctx)) UserRole.CASHIER));
    [repeat split; discriminate|].
  destruct (negb (pin_format_ok (strip (or_empty (current_pin data)))));
    [repeat split; discriminate|].
  destruct (db_reachable ctx).
  - split; [|split; [|split; [reflexivity | discriminate]]].
    + destruct (negb (pin_format_ok (strip (or_empty (new_pin data)))));
        [reflexivity|].
      destruct (negb (String.eqb _ _)); reflexivity.
    + destruct (negb (pin_format_ok (strip (or_empty (new_pin data)))));
        [discriminate|].
      destruct (negb (String.eqb _ _)); discriminate.
  - split; [|split; [|split; [reflexivity | discriminate]]].
    + destruct (negb (pin_format_ok (strip (or_empty (new_pin data)))));
        [reflexivity|].
      destruct (negb (String.eqb _ _)); reflexivity.
    + destruct (negb (pin_format_ok (strip (or_empty (new_pin data)))));
        [discriminate|].
      destruct (negb (String.eqb _ _)); discriminate.
Qed.

(** Bob has no PIN on record, and Alice's PIN is not 4321. *)
Lemma pin_change_needs_current_pin_witness :
  let pins := [CashierPin.mk 1 1 "plain$1234" true] in
  fst (cashier_views.disable_pin SampleDigest.werkzeug
         (Sample.ctx Sample.alice 100) (mkPinRequest (Some "4321") None None)
         pins) = pins
  /\ fst (cashier_views.change_pin SampleDigest.werkzeug "salt"
            (Sample.ctx Sample.bob 100)
            (mkPinRequest (Some "1234") (Some "0000") (Some "0000")) pins)
     = pins.
Proof.
  cbv zeta. split.
  - apply (pin_change_needs_current_pin SampleDigest.werkzeug "salt"
             (Sample.ctx Sample.alice 100)
             (mkPinRequest (Some "4321") None None)).
    reflexivity.
  - apply (pin_change_needs_current_pin SampleDigest.werkzeug "salt"
             (Sample.ctx Sample.bob 100)
             (mkPinRequest (Some "1234") (Some "0000") (Some "0000"))).
    reflexivity.
Defined.

Lemma own_pin_key (user : User.t) (x y : CashierPin.t) :
  own_pin user x = true -> own_pin user y = true ->
  (CashierPin.cashier_id x, CashierPin.branch_id x)
  = (CashierPin.cashier_id y, CashierPin.branch_id y).
Proof.
  unfold own_pin, col_eqb. intros Hx Hy.
  apply andb_prop in Hx. apply andb_prop in Hy.
  destruct Hx as [Hx1 Hx2]. destruct Hy as [Hy1 Hy2].
  destruct (User.branch_id user) as [b|]; [|discriminate].
  apply Z.eqb_eq in Hx1, Hx2, Hy1, Hy2. congruence.
Qed.

Lemma first_own_pin_only (user : User.t) (pins : list CashierPin.t)
  (r0 x : CashierPin.t) :
  pins_keyed pins ->
  find (own_pin user) pins = Some r0 ->
  In x pins -> own_pin user x = true -> x = r0.
Proof.
  unfold pins_keyed.
  induction pins as [|y l IH]; intros Hkey Hfind Hin Hown; [contradiction|].
  simpl in *. inversion Hkey as [|? ? Hnot Hrest]; subst.
  destruct (own_pin user y) eqn:Ey.
  - injection Hfind as <-. destruct Hin as [->|Hin]; [reflexivity|].
    elim Hnot. rewrite (own_pin_key user y x Ey Hown).
    apply in_map_iff. now exists x.
  - destruct Hin as [->|Hin]; [congruence|]. now apply IH.
Qed.

Lemma verified_pin_record (W : Werkzeug) (user : User.t)
  (pins : list CashierPin.t) (pin : string) :
  verify_own_pin W user pins pin = true ->
  exists b ra,
    User.branch_id user = Some b
    /\ In ra pins /\ own_pin user ra = true /\ CashierPin.is_active ra = true.
Proof.
  unfold verify_own_pin, CashierPin.verify_cashier_pin.
  destruct (User.branch_id user) as [b|] eqn:Hb; [|discriminate].
  destruct (find _ pins) as [ra|] eqn:Efind; [|discriminate].
  intros _. apply find_some in Efind. destruct Efind as [Hin Hra].
  apply andb_prop in Hra. destruct Hra as [Hown Hactive].
  exists b, ra. rewrite (own_pin_branch user b ra Hb). now repeat split.
Qed.

(** X14.  With one record per cashier and branch: after a successful
    [change_pin] the new PIN is the one that is accepted for the cashier,
    and after a successful [disable_pin] no PIN at all is accepted for the
    cashier, until [set_pin] is used again.  Both keep one record per
    cashier and branch and leave the records of other users alone. *)
Theorem change_and_disable_pin (W : Werkzeug) (salt : string) (ctx : Ctx)
  (data : PinRequest) (pins : list CashierPin.t) :
  pins_keyed pins ->
  let user := current_user ctx in
  let c := cashier_views.change_pin W salt ctx data pins in
  let d := cashier_views.disable_pin W ctx data pins in
  (field "success" (snd c) = Some (JBool true) ->
   verify_own_pin W user (fst c) (strip (or_empty (new_pin data))) = true
   /\ pin_format_ok (strip (or_empty (new_pin data))) = true
   /\ pins_keyed (fst c)
   /\ filter (fun x => negb (own_pin user x)) (fst c)
      = filter (fun x => negb (own_pin user x)) pins)
  /\ (field "success" (snd d) = Some (JBool true) ->
      (forall pin, verify_own_pin W user (fst d) pin = false)
      /\ pins_keyed (fst d)
      /\ filter (fun x => negb (own_pin user x)) (fst d)
         = filter (fun x => negb (own_pin user x)) pins).
Proof.
  intro Hkey. cbv zeta. split.
  - unfold cashier_views.change_pin, execute.
    destruct (negb (UserRole.eqb (User.role (current_user ctx)) UserRole.CASHIER));
      [discriminate|].
    destruct (negb (pin_format_ok (strip (or_empty (current_pin data)))));
      [discriminate|].
    destruct (pin_format_ok (strip (or_empty (new_pin data)))) eqn:Eformat;
      [|discriminate].
    simpl negb. cbv iota.
    destruct (negb (String.eqb _ _)); [discriminate|].
    destruct (db_reachable ctx); [|discriminate].
    destruct (verify_own_pin W (current_user ctx) pins _) eqn:Everify;
      [|discriminate].
    destruct (find (own_pin (current_user ctx)) pins) as [r0|] eqn:Efind;
      [|discriminate].
    intros _. simpl fst.
    destruct (verified_pin_record W _ _ _ Everify)
      as (b & ra & Hb & Hin & Hown & Hactive).
    rewrite (first_own_pin_only _ _ r0 ra Hkey Efind Hin Hown) in Hactive.
    split; [|split; [reflexivity|split]].
    + unfold verify_own_pin, CashierPin.verify_cashier_pin. rewrite Hb.
      rewrite (find_update_first_found (own_pin (current_user ctx)) _
                 (CashierPin.set_pin W salt (strip (or_empty (new_pin data))))
                 pins r0 Efind).
      * unfold CashierPin.check_pin. simpl. apply check_generated.
      * intros x Hx. rewrite (own_pin_branch _ b x Hb).
        apply andb_prop in Hx. exact (proj1 Hx).
      * apply find_some in Efind. destruct Efind as [_ Hr0].
        rewrite (own_pin_branch _ b r0 Hb) in Hr0.
        simpl. now rewrite Hr0, Hactive.
    + unfold pins_keyed.
      rewrite update_first_projection; [exact Hkey | reflexivity].
    + apply filter_update_first_others. intros x Hx. exact Hx.
  - unfold cashier_views.disable_pin, execute.
    destruct (negb (UserRole.eqb (User.role (current_user ctx)) UserRole.CASHIER));
      [discriminate|].
    destruct (negb (pin_format_ok (strip (or_empty (current_pin data)))));
      [discriminate|].
    destruct (db_reachable ctx); [|discriminate].
    destruct (verify_own_pin W (current_user ctx) pins _) eqn:Everify;
      [|discriminate].
    destruct (find (own_pin (current_user ctx)) pins) as [r0|] eqn:Efind;
      [|discriminate].
    intros _. simpl fst. split; [|split].
    + intro pin. unfold verify_own_pin, CashierPin.verify_cashier_pin.
      destruct (User.branch_id (current_user ctx)) as [b|] eqn:Hb;
        [|reflexivity].
      match goal with
      | |- match find ?q ?l with _ => _ end = false =>
          destruct (find q l) as [x|] eqn:Ex; [|reflexivity]
      end.
      exfalso. apply find_some in Ex. destruct Ex as [Hin Hx].
      apply andb_prop in Hx. destruct Hx as [Hown Hactive].
      rewrite <- (own_pin_branch _ b x Hb) in Hown.
      assert (Hkey' : pins_keyed
                        (update_first (own_pin (current_user ctx)) deactivate
                                      pins)).
      { unfold pins_keyed.
        rewrite update_first_projection; [exact Hkey | reflexivity]. }
      assert (Hfirst : find (own_pin (current_user ctx))
                         (update_first (own_pin (current_user ctx)) deactivate
                                       pins) = Some (deactivate r0)).
      { rewrite find_update_first; [now rewrite Efind|].
        intros y Hy. exact Hy. }
      rewrite (first_own_pin_only _ _ _ x Hkey' Hfirst Hin Hown) in Hactive.
      discriminate.
    + unfold pins_keyed.
      rewrite update_first_projection; [exact Hkey | reflexivity].
    + apply filter_update_first_others. intros x Hx. exact Hx.
Qed.

(** Alice changes her PIN from 1234 to 2468 and then disables it. *)
Lemma change_and_disable_pin_witness :
  let pins := [CashierPin.mk 2 1 "plain$0000" true;
               CashierPin.mk 1 1 "plain$1234" true] in
  let c := cashier_views.change_pin SampleDigest.werkzeug "salt"
             (Sample.ctx Sample.alice 100)
             (mkPinRequest (Some "1234") (Some "2468") (Some "2468")) pins in
  let d := cashier_views.disable_pin SampleDigest.werkzeug
             (Sample.ctx Sample.alice 200)
             (mkPinRequest (Some "2468") None None) (fst c) in
  verify_own_pin SampleDigest.werkzeug Sample.alice (fst c) "2468" = true
  /\ verify_own_pin SampleDigest.werkzeug Sample.alice (fst d) "2468" = false
  /\ verify_own_pin SampleDigest.werkzeug Sample.bob (fst d) "0000" = true.
Proof.
  cbv zeta.
  assert (Hkey : pins_keyed [CashierPin.mk 2 1 "plain$0000" true;
                             CashierPin.mk 1 1 "plain$1234" true]).
  { unfold pins_keyed. simpl. repeat constructor; simpl; [|intros []].
    intros [H|[]]. discriminate H. }
  destruct (change_and_disable_pin SampleDigest.werkzeug "salt"
              (Sample.ctx Sample.alice 100)
              (mkPinRequest (Some "1234") (Some "2468") (Some "2468")) _ Hkey)
    as [Hchange _].
  destruct (Hchange eq_refl) as (Hnew & _ & Hkey' & _).
  destruct (change_and_disable_pin SampleDigest.werkzeug "salt"
              (Sample.ctx Sample.alice 200)
              (mkPinRequest (Some "2468") None None) _ Hkey')
    as [_ Hdisable].
  destruct (Hdisable eq_refl) as (Hnone & _).
  split; [exact Hnew|]. split; [apply Hnone | vm_compute; reflexivity].
Defined.

(** ** The waiter's cashier *)

Lemma get_after_set_assignment (waiter branch cashier : Z) (by_id : option Z)
  (table : list WaiterCashierAssignment.t) :
  WaiterCashierAssignment.get_assignment_for_waiter waiter branch
    (set_assignment waiter branch cashier by_id table)
  = Some (WaiterCashierAssignment.mk waiter branch cashier by_id).
Proof.
  unfold set_assignment, WaiterCashierAssignment.get_assignment_for_waiter.
  destruct (find _ table) as [a|] eqn:Efind.
  - rewrite find_update_first; [|intros x Hx; exact Hx].
    rewrite Efind. simpl. apply find_some in Efind.
    destruct Efind as [_ Ha]. apply andb_prop in Ha. destruct Ha as [Hw Hb].
    apply Z.eqb_eq in Hw, Hb. now rewrite Hw, Hb.
  - apply find_app_new; [exact Efind|]. simpl. now rewrite !Z.eqb_refl.
Qed.

(** X15.  No assignment without the cashier's PIN, and orders follow the
    assignment.  When [assign_cashier_to_waiter] answers with a success,
    the user is a waiter, the chosen user is an active cashier of the
    waiter's branch and the PIN of the request is the one on record for
    that cashier; the waiter is then assigned to the cashier (the only
    table that changes), and every new order of the waiter goes to that
    cashier as a pending order.  A request that is refused changes
    nothing. *)
Theorem assign_cashier_then_orders (W : Werkzeug) (ctx : Ctx)
  (data : AssignRequest) (desk : Desk) :
  let r := assign_cashier_to_waiter W ctx data desk in
  (field "success" (snd r) <> Some (JBool true) -> fst r = desk)
  /\ (field "success" (snd r) = Some (JBool true) ->
      exists cid b cashier,
        assign_cashier_id data = Some cid
        /\ User.role (current_user ctx) = UserRole.WAITER
        /\ User.branch_id (current_user ctx) = Some b
        /\ In cashier (users (desk_db desk))
        /\ User.id cashier = cid
        /\ User.role cashier = UserRole.CASHIER
        /\ User.branch_id cashier = Some b
        /\ users_is_active desk cid = true
        /\ CashierPin.verify_cashier_pin W (cashier_pins desk) cid b
             (strip (or_empty (cashier_pin data))) = true
        /\ fst r
           = with_desk_db
               (with_waiter_cashier_assignments
                  (set_assignment (User.id (current_user ctx)) b cid (Some cid)
                     (waiter_cashier_assignments (desk_db desk)))
                  (desk_db desk)) desk
        /\ (forall ctx' order,
              current_user ctx' = current_user ctx ->
              field "is_update"
                (snd (create_order ctx' order (desk_db (fst r))))
              = Some (JBool false) ->
              exists o,
                orders (fst (create_order ctx' order (desk_db (fst r))))
                = (orders (desk_db desk) ++ [o])%list
                /\ Order.assigned_cashier_id o = Some cid
                /\ Order.status o = OrderStatus.PENDING)).
Proof.
  cbv zeta. unfold assign_cashier_to_waiter, execute.
  destruct (UserRole.eqb (User.role (current_user ctx)) UserRole.WAITER)
    eqn:Erole; simpl negb; cbv iota; [|split; [reflexivity | discriminate]].
  apply UserRole_eqb_eq in Erole.
  destruct (assign_cashier_id data) as [cid|];
    [|split; [reflexivity | discriminate]].
  destruct (cid =? 0); [split; [reflexivity | discriminate]|].
  destruct (negb (pin_format_ok _)); [split; [reflexivity | discriminate]|].
  destruct (db_reachable ctx); [|split; [reflexivity | discriminate]].
  destruct (find _ (users (desk_db desk))) as [cashier|] eqn:Efind;
    [|split; [reflexivity | discriminate]].
  destruct (User.branch_id (current_user ctx)) as [b|] eqn:Hb;
    [|split; [reflexivity | discriminate]].
  destruct (CashierPin.verify_cashier_pin W (cashier_pins desk) cid b _)
    eqn:Epin; simpl negb; cbv iota; [|split; [reflexivity | discriminate]].
  split; [intro H; now elim H|]. intros _.
  apply find_some in Efind. destruct Efind as [Hin Hsel].
  apply andb_prop in Hsel. destruct Hsel as [Hid Hsel].
  unfold selectable_cashier in Hsel. rewrite Hb in Hsel.
  apply andb_prop in Hsel. destruct Hsel as [Hsel Hactive].
  apply andb_prop in Hsel. destruct Hsel as [Hbranch Hcashier].
  apply Z.eqb_eq in Hid. apply UserRole_eqb_eq in Hcashier.
  assert (Hbranch' : User.branch_id cashier = Some b).
  { unfold same_branch in Hbranch.
    destruct (User.branch_id cashier) as [x|]; [|discriminate].
    apply Z.eqb_eq in Hbranch. now subst. }
  exists cid, b, cashier. simpl fst.
  split; [reflexivity|]. split; [exact Erole|]. split; [reflexivity|].
  split; [exact Hin|]. split; [exact Hid|]. split; [exact Hcashier|].
  split; [exact Hbranch'|]. split; [now rewrite <- Hid|].
  split; [exact Epin|]. split; [reflexivity|].
  intros ctx' order Huser Hnew. simpl desk_db in *.
  assert (Hrole' : User.role (current_user ctx') = UserRole.WAITER)
    by now rewrite Huser.
  destruct (create_order_new_order ctx' order _ Hnew)
    as (notes & assigned & status & o & Horigin & Horders & _ & Hstatus
        & Hassigned & _).
  destruct (order_origin_waiter ctx' order _ notes assigned status Hrole'
              Horigin) as [Hpending _].
  destruct (order_origin_assigned ctx' order _ notes assigned status Hrole'
              Horigin) as (b' & a & c' & Hb' & Ha & _ & Hto).
  rewrite Huser, Hb in Hb'. injection Hb' as <-.
  simpl waiter_cashier_assignments in Ha.
  rewrite Huser, get_after_set_assignment in Ha. injection Ha as <-.
  exists o. split; [exact Horders|]. split; [|congruence].
  rewrite Hassigned, Hto. reflexivity.
Qed.

(** Wendy, who has no cashier yet, picks Bob and Bob types his PIN: her
    next order is Bob's.  With Alice's PIN instead nothing happens. *)
Lemma assign_cashier_then_orders_witness :
  let wendy := Sample.ctx Sample.wendy 1000 in
  let r := assign_cashier_to_waiter SampleDigest.werkzeug wendy
             (mkAssignRequest (Some 2) (Some "0000")) sample_desk in
  let order :=
    mkCreateOrderRequest (Some 7)
      [OrderItemData.mk (Some (MenuItemId 1)) false None (Some 2) None []]
      None false None None None in
  (exists o,
     orders (fst (create_order wendy order (desk_db (fst r))))
     = (orders Sample.db ++ [o])%list
     /\ Order.assigned_cashier_id o = Some 2
     /\ Order.status o = OrderStatus.PENDING)
  /\ fst (assign_cashier_to_waiter SampleDigest.werkzeug wendy
            (mkAssignRequest (Some 2) (Some "1234")) sample_desk)
     = sample_desk.
Proof.
  cbv zeta. split.
  - destruct (proj2 (assign_cashier_then_orders SampleDigest.werkzeug
                       (Sample.ctx Sample.wendy 1000)
                       (mkAssignRequest (Some 2) (Some "0000")) sample_desk))
      as (cid & b & cashier & Hcid & _ & _ & _ & _ & _ & _ & _ & _ & _ & Hnext).
    + vm_compute. reflexivity.
    + injection Hcid as <-.
      apply (Hnext (Sample.ctx Sample.wendy 1000)); [reflexivity|].
      vm_compute. reflexivity.
  - apply (proj1 (assign_cashier_then_orders SampleDigest.werkzeug
                    (Sample.ctx Sample.wendy 1000)
                    (mkAssignRequest (Some 2) (Some "1234")) sample_desk)).
    vm_compute. discriminate.
Defined.

Lemma find_delete_first_keyed {A K : Type} (key : A -> K) (p : A -> bool)
  (l : list A) :
  NoDup (map key l) ->
  (forall x y, p x = true -> p y = true -> key x = key y) ->
  find p (delete_first p l) = None.
Proof.
  intros Hkey Hsame. induction l as [|x l IH]; [reflexivity|].
  simpl in *. inversion Hkey as [|? ? Hnot Hrest]; subst.
  destruct (p x) eqn:Ex.
  - destruct (find p l) as [y|] eqn:Ey; [|reflexivity].
    apply find_some in Ey. destruct Ey as [Hin Hy].
    elim Hnot. rewrite (Hsame x y Ex Hy). now apply in_map.
  - simpl. rewrite Ex. now apply IH.
Qed.

Lemma filter_delete_first_others {A : Type} (p q : A -> bool) (l : list A) :
  (forall x, q x = negb (p x)) ->
  filter q (delete_first p l) = filter q l.
Proof.
  intro Hq. induction l as [|x l IH]; [reflexivity|].
  simpl. rewrite (Hq x). destruct (p x) eqn:Ex; simpl; [reflexivity|].
  now rewrite (Hq x), Ex, IH.
Qed.

Lemma create_order_needs_assignment (ctx : Ctx) (data : CreateOrderRequest)
  (db : DB) :
  User.role (current_user ctx) = UserRole.WAITER ->
  no_assignment ctx db ->
  field "success" (snd (create_order ctx data db)) <> Some (JBool true)
  /\ fst (create_order ctx data db) = db.
Proof.
  intros Hrole Hnone.
  assert (Hno : field "success" (snd (create_order ctx data db))
                <> Some (JBool true)).
  { intro Hok.
    destruct (create_order_commits ctx data db Hok)
      as (its & notes & assigned & status & _ & Horigin & _).
    rewrite (order_origin_no_assignment ctx data db Hrole Hnone) in Horigin.
    destruct (db_reachable ctx); discriminate. }
  split; [exact Hno | now apply create_order_rollback].
Qed.

(** X16.  Clearing the assignment stops the waiter's orders.  With one
    assignment per waiter and branch, after a successful
    [clear_assigned_cashier] the waiter has no cashier: [get_assigned_cashier]
    answers with a failure and no request of the waiter to [create_order]
    succeeds or writes anything, until a cashier is assigned again.  The
    assignments of other waiters are kept, and a refused request changes
    nothing. *)
Theorem clear_assigned_cashier_stops_orders (ctx : Ctx) (desk : Desk) :
  assignments_keyed (desk_db desk) ->
  let r := clear_assigned_cashier ctx desk in
  let mine (a : WaiterCashierAssignment.t) :=
    (WaiterCashierAssignment.waiter_id a =? User.id (current_user ctx))
    && col_eqb (User.branch_id (current_user ctx))
               (WaiterCashierAssignment.branch_id a) in
  (field "success" (snd r) <> Some (JBool true) -> fst r = desk)
  /\ (field "success" (snd r) = Some (JBool true) ->
      orders (desk_db (fst r)) = orders (desk_db desk)
      /\ filter (fun a => negb (mine a))
                (waiter_cashier_assignments (desk_db (fst r)))
         = filter (fun a => negb (mine a))
                  (waiter_cashier_assignments (desk_db desk))
      /\ (forall ctx',
            current_user ctx' = current_user ctx ->
            field "success" (get_assigned_cashier ctx' (fst r))
            = Some (JBool false)
            /\ forall order,
                 field "success"
                   (snd (create_order ctx' order (desk_db (fst r))))
                 <> Some (JBool true)
                 /\ fst (create_order ctx' order (desk_db (fst r)))
                    = desk_db (fst r))).
Proof.
  intro Hkey. cbv zeta. unfold clear_assigned_cashier, execute.
  destruct (UserRole.eqb (User.role (current_user ctx)) UserRole.WAITER)
    eqn:Erole; simpl negb; cbv iota; [|split; [reflexivity | discriminate]].
  apply UserRole_eqb_eq in Erole.
  destruct (db_reachable ctx); [|split; [reflexivity | discriminate]].
  destruct (User.branch_id (current_user ctx)) as [b|] eqn:Hb;
    [|split; [reflexivity | discriminate]].
  unfold clear_assignment,
    WaiterCashierAssignment.get_assignment_for_waiter.
  destruct (find _ (waiter_cashier_assignments (desk_db desk))) as [a|];
    [|split; [reflexivity | discriminate]].
  split; [intro H; now elim H|]. intros _. simpl.
  assert (Hgone :
    find (fun a0 => (WaiterCashierAssignment.waiter_id a0
                     =? User.id (current_user ctx))
                    && (WaiterCashierAssignment.branch_id a0 =? b))
         (delete_first
            (fun a0 => (WaiterCashierAssignment.waiter_id a0
                        =? User.id (current_user ctx))
                       && (WaiterCashierAssignment.branch_id a0 =? b))
            (waiter_cashier_assignments (desk_db desk))) = None).
  { apply (find_delete_first_keyed
             (fun a0 => (WaiterCashierAssignment.waiter_id a0,
                         WaiterCashierAssignment.branch_id a0)));
      [exact Hkey|].
    intros x y Hx Hy. apply andb_prop in Hx. apply andb_prop in Hy.
    destruct Hx as [Hx1 Hx2]. destruct Hy as [Hy1 Hy2].
    apply Z.eqb_eq in Hx1, Hx2, Hy1, Hy2. congruence. }
  split; [reflexivity|]. split.
  - apply filter_delete_first_others. intro x.
    unfold col_eqb. now rewrite (Z.eqb_sym b).
  - intros ctx' Huser. split.
    + unfold get_assigned_cashier, execute. rewrite Huser, Erole. simpl.
      rewrite Hb. unfold WaiterCashierAssignment.get_assignment_for_waiter.
      rewrite Hgone. now destruct (db_reachable ctx').
    + intro order. apply create_order_needs_assignment;
        [now rewrite Huser|].
      unfold no_assignment. rewrite Huser, Hb. exact Hgone.
Qed.

(** Walt gives up Alice: his next order is refused and nothing is written. *)
Lemma clear_assigned_cashier_stops_orders_witness :
  let walt := Sample.ctx Sample.walt 1000 in
  let r := clear_assigned_cashier walt sample_desk in
  let order :=
    mkCreateOrderRequest (Some 7)
      [OrderItemData.mk (Some (MenuItemId 1)) false None (Some 2) None []]
      None false None None None in
  field "success" (snd r) = Some (JBool true)
  /\ field "success" (get_assigned_cashier walt (fst r)) = Some (JBool false)
  /\ orders (fst (create_order walt order (desk_db (fst r)))) = orders Sample.db.
Proof.
  cbv zeta.
  assert (Hkey : assignments_keyed (desk_db sample_desk)).
  { unfold assignments_keyed. simpl. repeat constructor. intros []. }
  destruct (proj2 (clear_assigned_cashier_stops_orders
                     (Sample.ctx Sample.walt 1000) sample_desk Hkey))
    as (Horders & _ & Hafter); [reflexivity|].
  destruct (Hafter (Sample.ctx Sample.walt 1000) eq_refl) as [Hget Hcreate].
  split; [reflexivity|]. split; [exact Hget|].
  rewrite (proj2 (Hcreate _)). exact Horders.
Defined.

(** X17.  Every cashier on offer can be chosen.  A cashier listed by
    [get_cashiers_for_assignment] (with a key other than 0) whose PIN the
    request carries is accepted by [assign_cashier_to_waiter]; the
    assignments of other waiters are kept and there is still one assignment
    per waiter and branch. *)
Theorem assign_cashier_accepts_offered (W : Werkzeug) (ctx : Ctx)
  (data : AssignRequest) (desk : Desk) (offered : list User.t)
  (cashier : User.t) (b : Z) :
  db_reachable ctx = true ->
  User.branch_id (current_user ctx) = Some b ->
  get_cashiers_for_assignment ctx desk = Some offered ->
  In cashier offered ->
  User.id cashier <> 0 ->
  assign_cashier_id data = Some (User.id cashier) ->
  pin_format_ok (strip (or_empty (cashier_pin data))) = true ->
  CashierPin.verify_cashier_pin W (cashier_pins desk) (User.id cashier) b
    (strip (or_empty (cashier_pin data))) = true ->
  let r := assign_cashier_to_waiter W ctx data desk in
  let mine (a : WaiterCashierAssignment.t) :=
    (WaiterCashierAssignment.waiter_id a =? User.id (current_user ctx))
    && (WaiterCashierAssignment.branch_id a =? b) in
  field "success" (snd r) = Some (JBool true)
  /\ field "cashier.id" (snd r) = Some (JInt (User.id cashier))
  /\ filter (fun a => negb (mine a))
            (waiter_cashier_assignments (desk_db (fst r)))
     = filter (fun a => negb (mine a))
              (waiter_cashier_assignments (desk_db desk))
  /\ (assignments_keyed (desk_db desk) -> assignments_keyed (desk_db (fst r))).
Proof.
  intros Hdb Hb Hoffer Hin Hid Hcid Hformat Hpin. cbv zeta.
  unfold get_cashiers_for_assignment in Hoffer.
  destruct (UserRole.eqb (User.role (current_user ctx)) UserRole.WAITER)
    eqn:Erole; [|discriminate].
  injection Hoffer as <-. apply filter_In in Hin. destruct Hin as [Hin Hsel].
  unfold assign_cashier_to_waiter, execute.
  rewrite Erole, Hcid, Hformat, Hdb, Hb. simpl negb. cbv iota.
  apply Z.eqb_neq in Hid. rewrite Hid.
  destruct (find _ (users (desk_db desk))) as [found|] eqn:Efind.
  2:{ pose proof (find_none _ _ Efind cashier Hin) as Hno.
      cbv beta in Hno. rewrite Z.eqb_refl, Hsel in Hno. discriminate. }
  apply find_some in Efind. destruct Efind as [_ Hfound].
  apply andb_prop in Hfound. destruct Hfound as [Hsame _].
  apply Z.eqb_eq in Hsame.
  rewrite Hpin. simpl negb. cbv iota. simpl fst. simpl snd.
  split; [reflexivity|]. split; [unfold field; simpl; now rewrite Hsame|].
  simpl desk_db. simpl waiter_cashier_assignments.
  unfold set_assignment, WaiterCashierAssignment.get_assignment_for_waiter.
  destruct (find _ (waiter_cashier_assignments (desk_db desk))) as [a|]
    eqn:Ea.
  - split.
    + apply filter_update_first_others. intros x Hx. exact Hx.
    + unfold assignments_keyed. simpl. intro Hkey.
      rewrite update_first_projection; [exact Hkey | reflexivity].
  - split.
    + rewrite filter_app. simpl. rewrite !Z.eqb_refl. simpl.
      apply app_nil_r.
    + unfold assignments_keyed. simpl. intro Hkey. rewrite map_app. simpl.
      apply NoDup_app; [exact Hkey | repeat constructor; intros [] |].
      intros k Hk [<-|[]]. apply in_map_iff in Hk.
      destruct Hk as (y & Hy & Hy'). injection Hy as Hw Hbr.
      pose proof (find_none _ _ Ea y Hy') as Hno. cbv beta in Hno.
      rewrite Hw, Hbr, !Z.eqb_refl in Hno. discriminate.
Qed.

(** Walt moves from Alice to Bob. *)
Lemma assign_cashier_accepts_offered_witness :
  let r := assign_cashier_to_waiter SampleDigest.werkzeug
             (Sample.ctx Sample.walt 1000)
             (mkAssignRequest (Some 2) (Some " 0000 ")) sample_desk in
  field "success" (snd r) = Some (JBool true)
  /\ map WaiterCashierAssignment.assigned_cashier_id
         (waiter_cashier_assignments (desk_db (fst r))) = [2].
Proof.
  cbv zeta.
  destruct (assign_cashier_accepts_offered SampleDigest.werkzeug
              (Sample.ctx Sample.walt 1000)
              (mkAssignRequest (Some 2) (Some " 0000 ")) sample_desk
              [Sample.alice; Sample.bob] Sample.bob 1)
    as (Hok & _); try reflexivity.
  - right. now left.
  - discriminate.
  - split; [exact Hok | vm_compute; reflexivity].
Defined.

(** ** Resetting the order counters *)

Lemma get_next_counter_from (now b : Z) (table : list OrderCounter.t)
  (row : OrderCounter.t) :
  OrderCounter.load b table = Some row ->
  exists table',
    OrderCounter.get_next_counter now b table
    = Ok (table', OrderCounter.current_counter row + 1).
Proof.
  intro Hload. unfold OrderCounter.get_next_counter. rewrite Hload.
  eexists. reflexivity.
Qed.

Lemma load_reset_counter (now b : Z) (table : list OrderCounter.t) :
  exists row,
    OrderCounter.load b (reset_counter now b table) = Some row
    /\ OrderCounter.current_counter row = 0.
Proof.
  unfold reset_counter.
  destruct (OrderCounter.load b table) as [row|] eqn:Eload.
  - exists (reset_row now row). split; [|reflexivity].
    unfold OrderCounter.load in *.
    rewrite find_update_first; [now rewrite Eload|].
    intros x Hx. exact Hx.
  - exists (OrderCounter.mk b 0 (Some (date now)) now). split; [|reflexivity].
    unfold OrderCounter.load in *. apply find_app_new; [exact Eload|].
    unfold OrderCounter.for_branch. simpl. apply Z.eqb_refl.
Qed.

Lemma load_reset_counter_other (now b b' : Z) (table : list OrderCounter.t) :
  b' <> b ->
  OrderCounter.load b' (reset_counter now b table) = OrderCounter.load b' table.
Proof.
  intro Hne. unfold reset_counter, OrderCounter.load.
  destruct (find (OrderCounter.for_branch b) table) as [row|] eqn:Eload.
  - apply find_update_first_apart. intros x Hx.
    unfold OrderCounter.for_branch in *. apply Z.eqb_eq in Hx. simpl.
    rewrite Hx. split; apply Z.eqb_neq; congruence.
  - induction table as [|x l IH]; simpl.
    + unfold OrderCounter.for_branch. simpl.
      apply Z.eqb_neq in Hne. now rewrite Z.eqb_sym, Hne.
    + simpl in Eload. destruct (OrderCounter.for_branch b x); [discriminate|].
      destruct (OrderCounter.for_branch b' x); [reflexivity | now apply IH].
Qed.

Lemma load_reset_all_counters (now b : Z) (table : list OrderCounter.t) :
  OrderCounter.load b (reset_all_counters now table)
  = option_map (reset_row now) (OrderCounter.load b table).
Proof.
  unfold reset_all_counters, OrderCounter.load.
  induction table as [|x l IH]; [reflexivity|].
  simpl. unfold OrderCounter.for_branch at 1 3. simpl.
  destruct (OrderCounter.branch_id x =? b); [reflexivity | exact IH].
Qed.

(** X18.  A reset restarts the numbering, branch by branch.  After
    [reset_counter] for a branch the next new order of that branch gets
    number 1, while the counters of the other branches are what they were;
    after [reset_all_counters] the next new order of any branch gets
    number 1. *)
Theorem reset_restarts_numbering (now : Z) (ctx : Ctx)
  (data : CreateOrderRequest) (db : DB) (b : Z) :
  User.branch_id (current_user ctx) = Some b ->
  let one := with_order_counters (reset_counter now b (order_counters db)) db in
  let all := with_order_counters (reset_all_counters now (order_counters db)) db in
  (field "is_update" (snd (create_order ctx data one)) = Some (JBool false) ->
   exists o, orders (fst (create_order ctx data one)) = (orders db ++ [o])%list
             /\ Order.order_counter o = Some 1)
  /\ (field "is_update" (snd (create_order ctx data all)) = Some (JBool false) ->
      exists o, orders (fst (create_order ctx data all)) = (orders db ++ [o])%list
                /\ Order.order_counter o = Some 1)
  /\ (forall b', b' <> b ->
        OrderCounter.load b' (order_counters one)
        = OrderCounter.load b' (order_counters db)).
Proof.
  intro Hb. cbv zeta. split; [|split].
  - intro Hnew.
    destruct (create_order_draws_counter ctx data _ Hnew)
      as (branch & counters & value & o & Hbranch & Hnext & _ & Horders & _
          & Hnumber).
    rewrite Hb in Hbranch. injection Hbranch as <-.
    simpl order_counters in Hnext. simpl orders in Horders.
    destruct (load_reset_counter now b (order_counters db))
      as (row & Hload & Hzero).
    destruct (get_next_counter_from (utcnow ctx) b _ row Hload)
      as (table' & Hnext').
    rewrite Hnext' in Hnext. injection Hnext as _ <-.
    exists o. split; [exact Horders|]. now rewrite Hnumber, Hzero.
  - intro Hnew.
    destruct (create_order_draws_counter ctx data _ Hnew)
      as (branch & counters & value & o & Hbranch & Hnext & _ & Horders & _
          & Hnumber).
    rewrite Hb in Hbranch. injection Hbranch as <-.
    simpl order_counters in Hnext. simpl orders in Horders.
    exists o. split; [exact Horders|]. rewrite Hnumber. f_equal.
    pose proof (load_reset_all_counters now b (order_counters db)) as Hload.
    destruct (OrderCounter.load b (order_counters db)) as [row|] eqn:Erow.
    + destruct (get_next_counter_from (utcnow ctx) b _ _ Hload)
        as (table' & Hnext').
      rewrite Hnext' in Hnext. now injection Hnext as _ <-.
    + destruct (get_next_counter_twice (utcnow ctx) (utcnow ctx) b
                  (reset_all_counters now (order_counters db)))
        as (t1 & t2 & v & Hfirst & _ & _ & Hone).
      rewrite Hfirst in Hnext. injection Hnext as _ <-.
      now apply Hone.
  - intros b' Hne. simpl. now apply load_reset_counter_other.
Qed.

(** The counter of branch 1 stands at 5; after a reset Alice's next order
    is number 1. *)
Lemma reset_restarts_numbering_witness :
  exists o,
    orders
      (fst (create_order (Sample.ctx Sample.alice 1000)
              (mkCreateOrderRequest (Some 7)
                 [OrderItemData.mk (Some (MenuItemId 1)) false None (Some 2)
                    None []]
                 None false None None None)
              (with_order_counters
                 (reset_counter 1000 1 (order_counters Sample.db)) Sample.db)))
    = (orders Sample.db ++ [o])%list
    /\ Order.order_counter o = Some 1.
Proof.
  apply (proj1 (reset_restarts_numbering 1000 (Sample.ctx Sample.alice 1000)
                  (mkCreateOrderRequest (Some 7)
                     [OrderItemData.mk (Some (MenuItemId 1)) false None (Some 2)
                        None []]
                     None false None None None)
                  Sample.db 1 eq_refl)).
  vm_compute. reflexivity.
Defined.

(** ** What the cashier is shown *)

Lemma count_zero_filter {A : Type} (p : A -> bool) (l : list A) :
  count p l = 0 <-> filter p l = [].
Proof.
  unfold count. split.
  - intro H. destruct (filter p l); [reflexivity | simpl in H; lia].
  - intros ->. reflexivity.
Qed.

(** X19.  One count, four readers.  For a cashier, while the database
    answers: [check_report_generation_permission] allows the report exactly
    when [daily_report] produces it, and exactly when
    [get_unpaid_waiter_orders] lists nothing; the number it reports is the
    number of orders listed and the number that the logout check reports. *)
Theorem report_permission_agrees (ctx : Ctx) (db : DB) :
  User.role (current_user ctx) = UserRole.CASHIER ->
  db_reachable ctx = true ->
  let permission := check_report_generation_permission ctx db in
  (field "can_generate_report" permission = Some (JBool true)
   <-> snd (daily_report ctx db) = PdfResponse)
  /\ (field "can_generate_report" permission = Some (JBool true)
      <-> get_unpaid_waiter_orders ctx db = Some [])
  /\ (exists listed,
        get_unpaid_waiter_orders ctx db = Some listed
        /\ field "unpaid_waiter_orders" permission
           = Some (JInt (Z.of_nat (List.length listed))))
  /\ field "unpaid_waiter_orders" permission
     = field "unpaid_waiter_orders" (check_logout_permission ctx db).
Proof.
  intros Hrole Hdb. cbv zeta.
  rewrite (check_logout_permission_online ctx db Hrole Hdb).
  unfold check_report_generation_permission, get_unpaid_waiter_orders,
    daily_report, execute.
  rewrite Hrole, Hdb. simpl negb. cbv iota.
  set (n := count (unpaid_waiter_order (User.id (current_user ctx)))
                  (orders db)).
  pose proof (count_nonneg (unpaid_waiter_order (User.id (current_user ctx)))
                (orders db)) as Hn. fold n in Hn.
  split; [|split; [|split]].
  - unfold field. simpl. destruct (n =? 0) eqn:E.
    + apply Z.eqb_eq in E. rewrite E. simpl. split; reflexivity.
    + apply Z.eqb_neq in E.
      assert (Hpos : (0 <? n) = true) by (apply Z.ltb_lt; lia).
      rewrite Hpos. simpl. split; discriminate.
  - unfold field. simpl. destruct (n =? 0) eqn:E.
    + apply Z.eqb_eq in E. apply count_zero_filter in E. rewrite E.
      split; reflexivity.
    + apply Z.eqb_neq in E. split; [discriminate|].
      intro H. injection H as H. apply count_zero_filter in H.
      now elim E.
  - eexists. split; reflexivity.
  - match goal with
    | |- _ = field _ (logout_decision ?last ?total ?a ?m) =>
        rewrite (proj2 (logout_decision_counts last total a m))
    end.
    reflexivity.
Qed.

(** Alice, with orders 10 and 11 waiting, is told twice that she cannot have
    the report. *)
Lemma report_permission_agrees_witness :
  field "can_generate_report"
    (check_report_generation_permission (Sample.ctx Sample.alice 1000) Sample.db)
  = Some (JBool false)
  /\ snd (daily_report (Sample.ctx Sample.alice 1000) Sample.db)
     = RedirectWaiterRequests
  /\ option_map (map Order.id)
       (get_unpaid_waiter_orders (Sample.ctx Sample.alice 1000) Sample.db)
     = Some [10; 11].
Proof.
  pose proof (report_permission_agrees (Sample.ctx Sample.alice 1000) Sample.db
                eq_refl eq_refl) as H.
  cbv zeta in H. destruct H as (_ & _ & (listed & Hlisted & _) & _).
  split; [vm_compute; reflexivity|]. split; [vm_compute; reflexivity|].
  rewrite Hlisted. vm_compute in Hlisted. injection Hlisted as <-.
  vm_compute. reflexivity.
Defined.

Lemma find_keyed {A : Type} (key : A -> Z) (l : list A) (x : A) :
  NoDup (map key l) -> In x l ->
  find (fun y => key y =? key x) l = Some x.
Proof.
  induction l as [|y l IH]; intros Hkey Hin; [contradiction|].
  simpl in *. inversion Hkey as [|? ? Hnot Hrest]; subst.
  destruct Hin as [->|Hin]; [now rewrite Z.eqb_refl|].
  destruct (key y =? key x) eqn:E; [|now apply IH].
  apply Z.eqb_eq in E. elim Hnot. rewrite E. now apply in_map.
Qed.

Lemma listed_are_transferable (user : User.t) (rows : list Order.t) :
  filter (transferable user
            (map Order.id (filter (unpaid_waiter_order (User.id user)) rows)))
         rows
  = filter (unpaid_waiter_order (User.id user)) rows.
Proof.
  set (ids := map Order.id (filter (unpaid_waiter_order (User.id user)) rows)).
  apply filter_ext_in. intros o Ho.
  destruct (unpaid_waiter_order (User.id user) o) eqn:E.
  - assert (Hmem : mem (Order.id o) ids = true).
    { apply mem_In, in_map, filter_In. split; [exact Ho | exact E]. }
    unfold transferable. rewrite Hmem. simpl.
    unfold unpaid_waiter_order in E.
    apply andb_prop in E. destruct E as [E ->].
    apply andb_prop in E. destruct E as [-> ->]. reflexivity.
  - unfold transferable. unfold unpaid_waiter_order in E.
    destruct (col_eqb (Order.assigned_cashier_id o) (User.id user));
      destruct (notes_like_waiter_order o);
      destruct (OrderStatus.eqb (Order.status o) OrderStatus.PENDING);
      simpl in *; try discriminate E; now rewrite ?andb_false_r.
Qed.

Lemma transfer_orders_accepts (ctx : Ctx) (data : TransferRequest) (db : DB)
  (target : User.t) :
  User.role (current_user ctx) = UserRole.CASHIER ->
  db_reachable ctx = true ->
  order_ids data <> [] ->
  target_cashier_id data = Some (User.id target) ->
  User.id target <> 0 ->
  User_get db (User.id target) = Some target ->
  same_branch (User.branch_id target) (User.branch_id (current_user ctx))
  = true ->
  User.role target = UserRole.CASHIER ->
  List.length (filter (transferable (current_user ctx) (order_ids data))
                      (orders db))
  = List.length (order_ids data) ->
  fst (transfer_orders ctx data db)
  = with_audit_logs
      (audit_logs db
       ++ map (transfer_audit ctx)
            (filter (transferable (current_user ctx) (order_ids data))
                    (orders db)))%list
      (with_orders
         (update_where (transferable (current_user ctx) (order_ids data))
                       (transfer_one ctx target) (orders db)) db)
  /\ field "success" (snd (transfer_orders ctx data db)) = Some (JBool true)
  /\ field "transferred_count" (snd (transfer_orders ctx data db))
     = Some (JInt (Z.of_nat (List.length (order_ids data)))).
Proof.
  intros Hrole Hdb Hids Htarget Hid Hget Hbranch Hcashier Hlen.
  unfold transfer_orders, transfer_orders_try, execute.
  rewrite Hrole, Hdb, Htarget. simpl negb. cbv iota.
  destruct (order_ids data) as [|i ids] eqn:Eids; [now elim Hids|].
  unfold truthy_int. apply Z.eqb_neq in Hid. rewrite Hid.
  simpl negb. cbv iota. rewrite Hget. simpl bind.
  unfold same_branch in Hbranch. rewrite Hbranch, Hcashier.
  simpl negb. simpl orb. cbv iota.
  rewrite Hlen, Nat.eqb_refl. simpl negb. cbv iota.
  split; [reflexivity|]. split; reflexivity.
Qed.

(** X20.  The way to the report is always open.  A cashier who is shown
    unpaid delegated orders by [get_unpaid_waiter_orders] and a colleague by
    [get_branch_cashiers] can hand all of them over in one transfer: the
    request with the listed orders and that colleague succeeds, after
    which nothing is listed any more and
    [check_report_generation_permission] allows the report. *)
Theorem transfer_all_listed (ctx : Ctx) (desk : Desk)
  (listed : list Order.t) (colleagues : list User.t) (target : User.t) :
  users_keyed (desk_db desk) ->
  db_reachable ctx = true ->
  get_unpaid_waiter_orders ctx (desk_db desk) = Some listed ->
  listed <> [] ->
  get_branch_cashiers ctx desk = Some colleagues ->
  In target colleagues ->
  User.id target <> 0 ->
  let r := transfer_orders ctx
             (mkTransferRequest (map Order.id listed) (Some (User.id target)))
             (desk_db desk) in
  field "success" (snd r) = Some (JBool true)
  /\ field "transferred_count" (snd r)
     = Some (JInt (Z.of_nat (List.length listed)))
  /\ get_unpaid_waiter_orders ctx (fst r) = Some []
  /\ field "can_generate_report" (check_report_generation_permission ctx (fst r))
     = Some (JBool true).
Proof.
  intros Hkey Hdb Hlisted Hsome Hcolleagues Hin Hid.
  unfold get_unpaid_waiter_orders, get_branch_cashiers, execute in *.
  destruct (UserRole.eqb (User.role (current_user ctx)) UserRole.CASHIER)
    eqn:Erole; [|discriminate].
  rewrite Hdb in *. simpl in Hlisted, Hcolleagues.
  injection Hlisted as <-. injection Hcolleagues as <-.
  apply filter_In in Hin. destruct Hin as [Hin Hsel].
  apply andb_prop in Hsel. destruct Hsel as [Hsel _].
  apply andb_prop in Hsel. destruct Hsel as [Hsel Hother].
  apply andb_prop in Hsel. destruct Hsel as [Hbranch Hcashier].
  assert (Hne : User.id target <> User.id (current_user ctx)).
  { intro E. rewrite E, Z.eqb_refl in Hother. discriminate. }
  set (user := current_user ctx) in *.
  set (mine := filter (unpaid_waiter_order (User.id user))
                      (orders (desk_db desk))) in *.
  assert (Hsel : filter (transferable user (map Order.id mine))
                        (orders (desk_db desk)) = mine)
    by (unfold mine; apply listed_are_transferable).
  apply UserRole_eqb_eq in Erole, Hcashier.
  destruct (transfer_orders_accepts ctx
              (mkTransferRequest (map Order.id mine) (Some (User.id target)))
              (desk_db desk) target)
    as (Hfst & Hok & Hcount); try assumption; try reflexivity.
  { simpl. intro Hnil. apply map_eq_nil in Hnil. now elim Hsome. }
  { unfold User_get. exact (find_keyed User.id _ target Hkey Hin). }
  { change (List.length
              (filter (transferable user (map Order.id mine))
                      (orders (desk_db desk)))
            = List.length (map Order.id mine)).
    now rewrite Hsel, length_map. }
  change (order_ids (mkTransferRequest (map Order.id mine)
                       (Some (User.id target))))
    with (map Order.id mine) in *.
  rewrite length_map in Hcount.
  cbv zeta. rewrite Hfst.
  assert (Hzero : count (unpaid_waiter_order (User.id user))
                    (update_where (transferable user (map Order.id mine))
                       (transfer_one ctx target) (orders (desk_db desk)))
                  = 0).
  { rewrite count_update_where_loss.
    - unfold count. rewrite Hsel. unfold mine. lia.
    - intros o Ho. exact (proj1 (transferred_order ctx target _ o Ho Hne)). }
  split; [exact Hok|]. split; [exact Hcount|]. fold user. split.
  - simpl orders. apply count_zero_filter in Hzero. now rewrite Hzero.
  - unfold check_report_generation_permission, execute. fold user.
    rewrite Erole, Hdb. simpl orders. rewrite Hzero. reflexivity.
Qed.

(** Alice hands everything she is shown to Bob, the colleague on offer. *)
Lemma transfer_all_listed_witness :
  let r := transfer_orders (Sample.ctx Sample.alice 1000)
             (mkTransferRequest [10; 11] (Some 2)) Sample.db in
  field "success" (snd r) = Some (JBool true)
  /\ field "can_generate_report"
       (check_report_generation_permission (Sample.ctx Sample.alice 1000) (fst r))
     = Some (JBool true).
Proof.
  cbv zeta.
  destruct (transfer_all_listed (Sample.ctx Sample.alice 1000) sample_desk
              [Sample.order 10 OrderStatus.PENDING ServiceType.ON_TABLE None
                 Sample.tagged 100 (Some 1) 3;
               Sample.order 11 OrderStatus.PENDING ServiceType.ON_TABLE None
                 Sample.tagged 200 (Some 1) 3]
              [Sample.bob] Sample.bob)
    as (Hok & _ & _ & Hreport); try reflexivity.
  - unfold users_keyed. simpl.
    repeat (constructor; [simpl; lia|]). constructor.
  - discriminate.
  - now left.
  - discriminate.
  - split; [exact Hok | exact Hreport].
Defined.

(** ** The order list and the editor *)



(** X22.  A waiter's order shows up where it should.  The new order of a
    waiter is in the order list of the waiter, and in the order list of a
    cashier exactly when that cashier is the assigned one (or has the
    waiter's key); for the assigned cashier both flags of the row,
    [can_mark_paid] and [can_edit], are set. *)
Theorem waiter_order_is_listed (ctx : Ctx) (data : CreateOrderRequest)
  (db : DB) :
  User.role (current_user ctx) = UserRole.WAITER ->
  field "is_update" (snd (create_order ctx data db)) = Some (JBool false) ->
  exists o cid,
    let db' := fst (create_order ctx data db) in
    orders db' = (orders db ++ [o])%list
    /\ Order.assigned_cashier_id o = Some cid
    /\ (forall ctx',
          current_user ctx' = current_user ctx ->
          exists rows, orders_query ctx' db' = Some rows /\ In o rows)
    /\ (forall ctx',
          User.role (current_user ctx') = UserRole.CASHIER ->
          exists rows,
            orders_query ctx' db' = Some rows
            /\ (In o rows <->
                User.id (current_user ctx') = cid
                \/ User.id (current_user ctx') = User.id (current_user ctx)))
    /\ (forall ctx',
          User.role (current_user ctx') = UserRole.CASHIER ->
          User.id (current_user ctx') = cid ->
          can_mark_paid ctx' o = true /\ can_edit ctx' o = true).
Proof.
  intros Hrole Hnew.
  destruct (create_order_new_order ctx data db Hnew)
    as (notes & assigned & status & o & Horigin & Horders & _ & Hstatus
        & Hassigned & Hcreator & _).
  destruct (order_origin_waiter ctx data db notes assigned status Hrole Horigin)
    as [Hpending _].
  destruct (order_origin_assigned ctx data db notes assigned status Hrole Horigin)
    as (b & a & cashier & Hb & _ & _ & Hto).
  destruct (create_order_draws_counter ctx data db Hnew)
    as (b' & counters & value & o' & Hb' & _ & _ & Horders' & Hbranch & _).
  rewrite Hb in Hb'. injection Hb' as <-.
  rewrite Horders in Horders'. apply app_inv_head in Horders'.
  injection Horders' as <-.
  exists o, (WaiterCashierAssignment.assigned_cashier_id a). cbv zeta.
  assert (Hlast : In o (orders (fst (create_order ctx data db)))).
  { rewrite Horders. apply in_or_app. right. now left. }
  split; [exact Horders|]. split; [congruence|]. split; [|split].
  - intros ctx' Huser. unfold orders_query. rewrite Huser, Hrole.
    eexists. split; [reflexivity|]. apply filter_In. split; [exact Hlast|].
    rewrite Hcreator, Hb, Hbranch. simpl. now rewrite !Z.eqb_refl.
  - intros ctx' Hcashier. unfold orders_query. rewrite Hcashier.
    eexists. split; [reflexivity|]. rewrite filter_In.
    unfold created_or_assigned. rewrite Hcreator, Hassigned, Hto. simpl.
    split.
    + intros [_ H]. apply orb_prop in H.
      destruct H as [H|H]; apply Z.eqb_eq in H; [now right | now left].
    + intros [H|H]; (split; [exact Hlast|]); rewrite H, Z.eqb_refl;
        [apply orb_true_r | reflexivity].
  - intros ctx' Hcashier Hid. unfold can_mark_paid, can_edit.
    rewrite Hcashier, Hstatus, Hpending, Hassigned, Hto, Hid. simpl.
    rewrite Z.eqb_refl, orb_true_r. split; reflexivity.
Qed.

(** Walt's order is in Alice's list, with both buttons, and not in Bob's. *)
Lemma waiter_order_is_listed_witness :
  let db' :=
    fst (create_order (Sample.ctx Sample.walt 1000)
           (mkCreateOrderRequest (Some 7)
              [OrderItemData.mk (Some (MenuItemId 1)) false None (Some 2) None []]
              None false None None None) Sample.db) in
  option_map (fun rows => List.length rows)
    (orders_query (Sample.ctx Sample.alice 2000) db') = Some 8%nat
  /\ option_map (fun rows => List.length rows)
       (orders_query (Sample.ctx Sample.bob 2000) db') = Some 3%nat
  /\ exists o, In o (orders db')
               /\ can_edit (Sample.ctx Sample.alice 2000) o = true
               /\ can_mark_paid (Sample.ctx Sample.alice 2000) o = true
               /\ Order.id o = 20.
Proof.
  cbv zeta.
  destruct (waiter_order_is_listed (Sample.ctx Sample.walt 1000)
              (mkCreateOrderRequest (Some 7)
                 [OrderItemData.mk (Some (MenuItemId 1)) false None (Some 2)
                    None []]
                 None false None None None) Sample.db)
    as (o & cid & Horders & Hcid & _ & _ & Hflags);
    [reflexivity | vm_compute; reflexivity |].
  cbv zeta in *.
  split; [vm_compute; reflexivity|]. split; [vm_compute; reflexivity|].
  exists o.
  assert (Ho : nth_error (orders (fst (create_order (Sample.ctx Sample.walt 1000)
              (mkCreateOrderRequest (Some 7)
                 [OrderItemData.mk (Some (MenuItemId 1)) false None (Some 2)
                    None []]
                 None false None None None) Sample.db))) 10 = Some o).
  { rewrite Horders. reflexivity. }
  vm_compute in Ho. injection Ho as <-.
  split; [rewrite Horders; apply in_or_app; right; now left|].
  split; [reflexivity|]. split; reflexivity.
Defined.

(** ** One session per cashier and day *)

Lemma sessions_single_update (p : CashierSession.t -> bool)
  (f : CashierSession.t -> CashierSession.t) (db : DB) :
  (forall s, CashierSession.cashier_id (f s) = CashierSession.cashier_id s
             /\ CashierSession.login_date (f s) = CashierSession.login_date s
             /\ CashierSession.is_active (f s) = CashierSession.is_active s) ->
  sessions_single db ->
  sessions_single
    (with_cashier_sessions (update_first p f (cashier_sessions db)) db).
Proof.
  intros Hf. unfold sessions_single. simpl.
  assert (Hsame :
    map (fun s => (CashierSession.cashier_id s, CashierSession.login_date s))
        (filter CashierSession.is_active
                (update_first p f (cashier_sessions db)))
    = map (fun s => (CashierSession.cashier_id s, CashierSession.login_date s))
          (filter CashierSession.is_active (cashier_sessions db))).
  { induction (cashier_sessions db) as [|x l IH]; [reflexivity|].
    simpl. destruct (p x).
    - simpl. destruct (Hf x) as (Hc & Hd & Ha). rewrite Ha.
      destruct (CashierSession.is_active x); [|reflexivity].
      simpl. now rewrite Hc, Hd.
    - simpl. destruct (CashierSession.is_active x); simpl; now rewrite IH. }
  now rewrite Hsame.
Qed.

Lemma sessions_single_new (c d : Z) (s : CashierSession.t) (db : DB) :
  find (today_session c d) (cashier_sessions db) = None ->
  CashierSession.cashier_id s = c ->
  CashierSession.login_date s = d ->
  sessions_single db ->
  sessions_single
    (with_cashier_sessions (cashier_sessions db ++ [s])%list db).
Proof.
  intros Hnone Hc Hd. unfold sessions_single. simpl. intro Hsingle.
  rewrite filter_app, map_app. simpl.
  destruct (CashierSession.is_active s); simpl; [|now rewrite app_nil_r].
  apply NoDup_app; [exact Hsingle | repeat constructor; intros [] |].
  intros k Hk [<-|[]]. apply in_map_iff in Hk.
  destruct Hk as (x & Hkey & Hx). apply filter_In in Hx.
  destruct Hx as [Hin Hactive]. injection Hkey as Hxc Hxd.
  pose proof (find_none _ _ Hnone x Hin) as Hno.
  unfold today_session in Hno.
  rewrite Hxc, Hxd, Hc, Hd, !Z.eqb_refl, Hactive in Hno. discriminate.
Qed.

Lemma get_or_create_today_session_single (ctx : Ctx) (c : Z) (db db' : DB)
  (session : CashierSession.t) :
  get_or_create_today_session ctx c db = Ok (db', session) ->
  sessions_single db -> sessions_single db'.
Proof.
  unfold get_or_create_today_session, execute.
  destruct (db_reachable ctx); simpl; [|discriminate].
  destruct (find _ (cashier_sessions db)) eqn:Efind; intro H; inversion H;
    subst; [now intros|].
  now apply (sessions_single_new c (date (utcnow ctx))).
Qed.

Lemma session_mark_report_printed_single (ctx : Ctx)
  (session : CashierSession.t) (db db' : DB) :
  session_mark_report_printed ctx session db = Ok db' ->
  sessions_single db -> sessions_single db'.
Proof.
  unfold session_mark_report_printed.
  destruct (CashierSession.branch_id session =? 0);
    [destruct (User.branch_id (current_user ctx))|];
    intro H; inversion H; subst;
    apply sessions_single_update; intro s; now repeat split.
Qed.

Lemma track_session_single (ctx : Ctx) (db : DB) :
  sessions_single db -> sessions_single (track_session ctx db).
Proof.
  intro Hsingle. unfold track_session.
  destruct (UserRole.eqb (User.role (current_user ctx)) UserRole.CASHIER);
    [|exact Hsingle].
  destruct (get_or_create_today_session ctx (User.id (current_user ctx)) db)
    as [[db1 session]|e] eqn:E; [|exact Hsingle].
  apply sessions_single_update; [intro s; now repeat split|].
  exact (get_or_create_today_session_single _ _ _ _ _ E Hsingle).
Qed.

Lemma sessions_single_frame (db db' : DB) :
  cashier_sessions db' = cashier_sessions db ->
  sessions_single db -> sessions_single db'.
Proof. unfold sessions_single. now intros ->. Qed.

Lemma create_order_single (ctx : Ctx) (data : CreateOrderRequest) (db : DB) :
  sessions_single db -> sessions_single (fst (create_order ctx data db)).
Proof.
  intro Hsingle.
  destruct (success_or_not (snd (create_order ctx data db))) as [Hok|Hno];
    [|now rewrite (create_order_rollback ctx data db Hno)].
  destruct (create_order_commits ctx data db Hok)
    as (its & notes & assigned & status & _ & _ & [Hup|Hins]).
  - destruct Hup as (order & _ & _ & _ & ->).
    apply track_session_single.
    now apply (sessions_single_frame db).
  - destruct Hins as (svc & branch & counters & n & _ & _ & _ & _ & ->).
    apply track_session_single.
    now apply (sessions_single_frame db).
Qed.

Lemma mark_daily_report_printed_single (ctx : Ctx) (db : DB) :
  sessions_single db ->
  sessions_single (fst (mark_daily_report_printed ctx db)).
Proof.
  intro Hsingle.
  unfold mark_daily_report_printed, mark_daily_report_printed_try,
    created_session.
  destruct (negb (UserRole.eqb (User.role (current_user ctx)) UserRole.CASHIER));
    [exact Hsingle|].
  destruct (get_or_create_today_session ctx (User.id (current_user ctx)) db)
    as [[db1 session]|e] eqn:E; simpl; [|exact Hsingle].
  pose proof (get_or_create_today_session_single _ _ _ _ _ E Hsingle) as H1.
  destruct (session_mark_report_printed ctx session db1) as [db2|e] eqn:E2;
    simpl; [|exact H1].
  pose proof (session_mark_report_printed_single _ _ _ _ E2 H1) as H2.
  destruct (negb (CashierSession.daily_report_printed session)); simpl;
    [now apply (sessions_single_frame db2) | exact H2].
Qed.

Lemma daily_report_single (ctx : Ctx) (db : DB) :
  sessions_single db -> sessions_single (fst (daily_report ctx db)).
Proof.
  intro Hsingle. unfold daily_report, daily_report_mark, execute.
  destruct (negb (UserRole.eqb (User.role (current_user ctx)) UserRole.CASHIER));
    [exact Hsingle|].
  destruct (db_reachable ctx) eqn:Edb; [|exact Hsingle].
  destruct (0 <? count _ (orders db)); [exact Hsingle|]. simpl.
  destruct (get_or_create_today_session ctx (User.id (current_user ctx)) db)
    as [[db1 session]|e] eqn:E; [|exact Hsingle].
  pose proof (get_or_create_today_session_single _ _ _ _ _ E Hsingle) as H1.
  destruct (session_mark_report_printed ctx session db1) as [db2|e] eqn:E2;
    [|exact H1].
  pose proof (session_mark_report_printed_single _ _ _ _ E2 H1) as H2.
  now apply (sessions_single_frame db2).
Qed.

Lemma mark_order_paid_sessions (ctx : Ctx) (order_id : Z) (db : DB) :
  cashier_sessions (fst (mark_order_paid ctx order_id db)) = cashier_sessions db.
Proof.
  unfold mark_order_paid, mark_order_paid_try, execute.
  destruct (negb (may_mark_paid (User.role (current_user ctx))));
    [reflexivity|].
  destruct (db_reachable ctx); simpl; [|reflexivity].
  destruct (Order_get db order_id) as [o|]; simpl; [|reflexivity].
  repeat match goal with
         | |- context [if ?c then _ else _] =>
             destruct c; simpl; [reflexivity|]
         end.
  reflexivity.
Qed.

Lemma save_order_changes_sessions (ctx : Ctx) (data : EditRequest) (db : DB) :
  cashier_sessions (fst (save_order_changes ctx data db)) = cashier_sessions db.
Proof.
  unfold save_order_changes, save_order_changes_try, execute.
  destruct (negb (UserRole.eqb (User.role (current_user ctx)) UserRole.CASHIER));
    [reflexivity|].
  destruct (db_reachable ctx); simpl; [|reflexivity].
  destruct (match edit_order_id data with
            | Some oid => Order_get db oid
            | None => None
            end) as [o|]; simpl; [|reflexivity].
  repeat match goal with
         | |- context [if ?c then _ else _] =>
             destruct c; simpl; try reflexivity
         end.
  destruct (edit_loop _ _ _ _) as [st|e]; reflexivity.
Qed.

Lemma transfer_orders_sessions (ctx : Ctx) (data : TransferRequest) (db : DB) :
  cashier_sessions (fst (transfer_orders ctx data db)) = cashier_sessions db.
Proof.
  unfold transfer_orders, transfer_orders_try, execute.
  destruct (negb (UserRole.eqb (User.role (current_user ctx)) UserRole.CASHIER));
    [reflexivity|].
  destruct (order_ids data) as [|i ids]; [reflexivity|].
  destruct (truthy_int (target_cashier_id data)); [|reflexivity].
  destruct (target_cashier_id data) as [tid|]; [|reflexivity].
  destruct (db_reachable ctx); simpl; [|reflexivity].
  destruct (User_get db tid) as [target|]; [|reflexivity].
  repeat match goal with
         | |- context [if ?c then _ else _] =>
             destruct c; simpl; try reflexivity
         end.
Qed.

Lemma clear_waiter_requests_sessions (ctx : Ctx) (db : DB) :
  cashier_sessions (fst (clear_waiter_requests ctx db)) = cashier_sessions db.
Proof.
  unfold clear_waiter_requests, execute.
  destruct (negb (sees_waiter_requests (User.role (current_user ctx))));
    [reflexivity|].
  destruct (db_reachable ctx); [|reflexivity].
  destruct (filter _ (filter _ (orders db))); reflexivity.
Qed.

(** X23.  One active session per cashier and day.  If no cashier has two
    active sessions for the same day, this is still so after any of the
    seven writing requests, after [ensure_cashier_session] and after
    [update_session_order_count]; the last two and the order handlers other
    than [create_order] also leave the orders as they are. *)
Theorem sessions_stay_single (ctx : Ctx) (db : DB) :
  sessions_single db ->
  (forall op, sessions_single (perform ctx op db))
  /\ (forall flask_id,
        sessions_single (fst (ensure_cashier_session ctx flask_id db))
        /\ orders (fst (ensure_cashier_session ctx flask_id db)) = orders db)
  /\ sessions_single (fst (update_session_order_count ctx db))
  /\ orders (fst (update_session_order_count ctx db)) = orders db.
Proof.
  intro Hsingle. split; [|split; [|split]].
  - intros [data|order_id|data|data| | |]; simpl.
    + now apply create_order_single.
    + exact (sessions_single_frame _ _ (mark_order_paid_sessions _ _ _) Hsingle).
    + exact (sessions_single_frame _ _ (save_order_changes_sessions _ _ _)
               Hsingle).
    + exact (sessions_single_frame _ _ (transfer_orders_sessions _ _ _) Hsingle).
    + exact (sessions_single_frame _ _ (clear_waiter_requests_sessions _ _)
               Hsingle).
    + now apply daily_report_single.
    + now apply mark_daily_report_printed_single.
  - intro flask_id. unfold ensure_cashier_session, execute.
    destruct (negb (UserRole.eqb (User.role (current_user ctx)) UserRole.CASHIER));
      [now split|].
    destruct (db_reachable ctx); [|now split].
    destruct (find _ (cashier_sessions db)) as [s|] eqn:Efind.
    + simpl. split; [|reflexivity].
      apply sessions_single_update; [intro x; now repeat split | exact Hsingle].
    + destruct (User.branch_id (current_user ctx)) as [b|]; [|now split].
      simpl. split; [|reflexivity].
      now apply (sessions_single_new (User.id (current_user ctx))
                   (date (utcnow ctx))).
  - unfold update_session_order_count, execute.
    destruct (negb (UserRole.eqb (User.role (current_user ctx)) UserRole.CASHIER));
      [exact Hsingle|].
    destruct (db_reachable ctx); [|exact Hsingle].
    destruct (find _ (cashier_sessions db)) as [s|]; [|exact Hsingle].
    simpl. apply sessions_single_update; [intro x; now repeat split|].
    exact Hsingle.
  - unfold update_session_order_count, execute.
    destruct (negb (UserRole.eqb (User.role (current_user ctx)) UserRole.CASHIER));
      [reflexivity|].
    destruct (db_reachable ctx); [|reflexivity].
    destruct (find _ (cashier_sessions db)) as [s|]; reflexivity.
Qed.

(** From the sample database, which has no session: Alice logs in and
    takes an order; she has one session, which started at four orders and
    now counts five. *)
Lemma sessions_stay_single_witness :
  let alice := Sample.ctx Sample.alice 1000 in
  let db1 := fst (ensure_cashier_session alice (Some "f00") Sample.db) in
  let db2 :=
    perform alice
      (CreateOrder
         (mkCreateOrderRequest (Some 7)
            [OrderItemData.mk (Some (MenuItemId 1)) false None (Some 2) None []]
            None false None None None)) db1 in
  sessions_single db2
  /\ map (fun s => (CashierSession.initial_order_count s,
                    CashierSession.current_order_count s))
         (cashier_sessions db2) = [(4, 5)].
Proof.
  cbv zeta.
  assert (H0 : sessions_single Sample.db) by constructor.
  destruct (sessions_stay_single (Sample.ctx Sample.alice 1000) Sample.db H0)
    as (_ & Hensure & _).
  destruct (Hensure (Some "f00")) as [H1 _].
  destruct (sessions_stay_single (Sample.ctx Sample.alice 1000) _ H1)
    as (Hperform & _).
  split; [apply Hperform | vm_compute; reflexivity].
Defined.

Lemma track_session_found (ctx : Ctx) (db : DB) (s : CashierSession.t) :
  User.role (current_user ctx) = UserRole.CASHIER ->
  db_reachable ctx = true ->
  find (today_session (User.id (current_user ctx)) (date (utcnow ctx)))
       (cashier_sessions db) = Some s ->
  cashier_sessions (track_session ctx db)
  = update_first (today_session (User.id (current_user ctx)) (date (utcnow ctx)))
      (CashierSession.update_order_count
         (today_orders_count (User.id (current_user ctx)) (date (utcnow ctx)) db)
         (utcnow ctx))
      (cashier_sessions db).
Proof.
  intros Hrole Hdb Hfind.
  unfold track_session, get_or_create_today_session, execute.
  rewrite Hrole, Hdb. simpl. rewrite Hfind. reflexivity.
Qed.

(** X24.  The session counts the orders.  A cashier without a session for
    the day calls [ensure_cashier_session], creates an order and asks
    [update_session_order_count], all on the same day: the session started
    at the number of orders the cashier had made that day, now counts one
    more, and reports completed orders. *)
Theorem session_counts_the_order (ctx1 ctx2 ctx3 : Ctx) (b : Z)
  (flask_id : option string) (data : CreateOrderRequest) (db : DB) :
  User.role (current_user ctx1) = UserRole.CASHIER ->
  User.branch_id (current_user ctx1) = Some b ->
  current_user ctx2 = current_user ctx1 ->
  current_user ctx3 = current_user ctx1 ->
  date (utcnow ctx2) = date (utcnow ctx1) ->
  date (utcnow ctx3) = date (utcnow ctx1) ->
  db_reachable ctx1 = true ->
  db_reachable ctx2 = true ->
  db_reachable ctx3 = true ->
  session_of_today ctx1 db = None ->
  let db1 := fst (ensure_cashier_session ctx1 flask_id db) in
  let db2 := fst (create_order ctx2 data db1) in
  let r := snd (update_session_order_count ctx3 db2) in
  let n := today_orders_count (User.id (current_user ctx1))
                              (date (utcnow ctx1)) db in
  field "is_update" (snd (create_order ctx2 data db1)) = Some (JBool false) ->
  field "initial_count" r = Some (JInt n)
  /\ field "current_count" r = Some (JInt (n + 1))
  /\ field "has_completed_orders" r = Some (JBool true).
Proof.
  intros Hrole Hb Hu2 Hu3 Hd2 Hd3 Hr1 Hr2 Hr3 Hnone. cbv zeta.
  set (c := User.id (current_user ctx1)).
  set (today := date (utcnow ctx1)).
  set (n := today_orders_count c today db).
  unfold session_of_today in Hnone. fold c today in Hnone.
  assert (Hdb1 : fst (ensure_cashier_session ctx1 flask_id db)
                 = with_cashier_sessions
                     (cashier_sessions db
                      ++ [CashierSession.mk
                            (next_id CashierSession.id (cashier_sessions db))
                            ("cashier_" ++ str c ++ "_" ++ str today ++ "_"
                             ++ match flask_id with
                                | Some i => i
                                | None => "unknown"
                                end)
                            today n n false None (utcnow ctx1) true b c])%list
                     db).
  { unfold ensure_cashier_session, execute. fold c today.
    rewrite Hrole, Hr1, Hnone, Hb. reflexivity. }
  rewrite Hdb1. clear Hdb1.
  set (s0 := CashierSession.mk _ _ today n n false None (utcnow ctx1) true b c).
  set (db1 := with_cashier_sessions (cashier_sessions db ++ [s0])%list db).
  assert (Hfind1 : find (today_session c today) (cashier_sessions db1)
                   = Some s0).
  { apply find_app_new; [exact Hnone|].
    unfold today_session. simpl. now rewrite !Z.eqb_refl. }
  intro Hnew.
  assert (Hok : field "success" (snd (create_order ctx2 data db1))
                = Some (JBool true)).
  { destruct (success_or_not (snd (create_order ctx2 data db1))) as [H|H];
      [exact H|].
    destruct (create_order_new_order ctx2 data db1 Hnew)
      as (? & ? & ? & o & _ & Horders & _).
    rewrite (create_order_rollback ctx2 data db1 H) in Horders.
    apply (f_equal (@List.length Order.t)) in Horders.
    rewrite length_app in Horders. simpl in Horders. lia. }
  destruct (create_order_commits ctx2 data db1 Hok)
    as (its & notes & assigned & status & _ & Horigin & [Hup|Hins]).
  { destruct Hup as (order & Hflag & _). congruence. }
  destruct Hins as (svc & branch & counters & v & _ & _ & _ & _ & Hdb2).
  assert (Hrole2 : User.role (current_user ctx2) = UserRole.CASHIER)
    by now rewrite Hu2.
  assert (Hstatus : status = OrderStatus.PAID).
  { assert (Hnw : User.role (current_user ctx2) <> UserRole.WAITER)
      by (rewrite Hrole2; discriminate).
    rewrite (order_origin_cashier ctx2 data db1 Hnw) in Horigin.
    now inversion Horigin. }
  set (inner := with_order_items _ _) in Hdb2.
  assert (Hsessions : cashier_sessions (fst (create_order ctx2 data db1))
                      = update_first (today_session c today)
                          (CashierSession.update_order_count
                             (today_orders_count c today inner) (utcnow ctx2))
                          (cashier_sessions db1)).
  { rewrite Hdb2.
    rewrite (track_session_found ctx2 inner s0 Hrole2 Hr2);
      rewrite Hu2, Hd2; fold c today; [reflexivity | exact Hfind1]. }
  assert (Horders : orders (fst (create_order ctx2 data db1))
                    = orders inner)
    by (rewrite Hdb2; apply track_session_orders).
  assert (Hcount : today_orders_count c today
                     (fst (create_order ctx2 data db1)) = n + 1).
  { unfold today_orders_count. rewrite Horders. unfold inner. simpl orders.
    rewrite count_app, count_cons. simpl.
    rewrite Hu2. fold c. rewrite Z.eqb_refl, Hd2. fold today.
    rewrite Z.eqb_refl. simpl. unfold n, today_orders_count, count.
    simpl List.length. lia. }
  unfold update_session_order_count, execute.
  rewrite Hu3, Hrole, Hr3, Hd3. fold c today. simpl negb. cbv iota.
  rewrite Hsessions.
  rewrite find_update_first by (intros x Hx; exact Hx).
  rewrite Hfind1. simpl option_map. cbv iota. rewrite Hcount.
  simpl snd. unfold field. simpl.
  assert (Hlt : (n <? n + 1) = true) by (apply Z.ltb_lt; lia).
  unfold CashierSession.has_completed_orders. simpl. rewrite Hlt.
  repeat split.
Qed.

(** Alice had made four orders before she opened her session; the fifth
    is the first that the session counts as completed. *)
Lemma session_counts_the_order_witness :
  let alice := Sample.ctx Sample.alice 1000 in
  let db1 := fst (ensure_cashier_session alice (Some "f00") Sample.db) in
  let db2 :=
    fst (create_order alice
           (mkCreateOrderRequest (Some 7)
              [OrderItemData.mk (Some (MenuItemId 1)) false None (Some 2) None []]
              None false None None None) db1) in
  field "current_count" (snd (update_session_order_count alice db2))
  = Some (JInt 5)
  /\ field "has_completed_orders" (snd (update_session_order_count alice db2))
     = Some (JBool true).
Proof.
  cbv zeta.
  destruct (session_counts_the_order (Sample.ctx Sample.alice 1000)
              (Sample.ctx Sample.alice 1000) (Sample.ctx Sample.alice 1000)
              1 (Some "f00")
              (mkCreateOrderRequest (Some 7)
                 [OrderItemData.mk (Some (MenuItemId 1)) false None (Some 2)
                    None []]
                 None false None None None) Sample.db)
    as (_ & Hcurrent & Hdone); try reflexivity.
  split; [exact Hcurrent | exact Hdone].
Defined.

(** ** The PIN for order editing *)

Lemma find_pointwise {A : Type} (p q : A -> bool) (l : list A) :
  (forall x, p x = q x) -> find p l = find q l.
Proof.
  intro H. induction l as [|x l IH]; [reflexivity|].
  simpl. rewrite (H x), IH. reflexivity.
Qed.

Lemma admin_check_pin_after_set (W : Werkzeug) (salt pin : string)
  (r : AdminPinCode.t) :
  pin <> EmptyString ->
  AdminPinCode.pin_code_hash r = generate_password_hash W salt pin ->
  AdminPinCode.pin_code r = Some pin ->
  AdminPinCode.check_pin W r pin = true.
Proof.
  intros Hpin Hhash Hplain. unfold AdminPinCode.check_pin.
  rewrite Hplain.
  destruct (AdminPinCode.pin_code_hash r) as [|c h] eqn:E.
  - destruct pin; [now elim Hpin | apply String.eqb_refl].
  - rewrite Hhash. apply check_generated.
Qed.

Lemma pin_format_nonempty (pin : string) :
  pin_format_ok pin = true ->
  pin <> EmptyString /\ Nat.eqb (String.length pin) 4 = true.
Proof.
  unfold pin_format_ok. intro H. apply andb_prop in H. destruct H as [H _].
  split; [|exact H]. intros ->. discriminate.
Qed.

(** X25.  The PIN that the admin saves opens the editor.  A branch admin
    (or super user) with a branch saves a well-formed order-editing PIN:
    the request succeeds whether or not the branch had one, and from then
    on [verify_admin_pin_for_editing] accepts that PIN from every cashier of
    the branch; the records of other branches and of other PIN types are
    untouched. *)
Theorem saved_pin_opens_editing (W : Werkzeug) (salt : string) (ctx : Ctx)
  (b : Z) (pin : option string) (pins : list AdminPinCode.t) :
  branch_admin_required (User.role (current_user ctx)) = true ->
  User.branch_id (current_user ctx) = Some b ->
  db_reachable ctx = true ->
  pin_format_ok (strip (or_empty pin)) = true ->
  let r := save_pin_settings W salt ctx pin pins in
  field "success" (snd r) = Some (JBool true)
  /\ (forall ctx' typed,
        User.role (current_user ctx') = UserRole.CASHIER ->
        User.branch_id (current_user ctx') = Some b ->
        db_reachable ctx' = true ->
        strip (or_empty typed) = strip (or_empty pin) ->
        field "success" (verify_admin_pin_for_editing W ctx' typed (fst r))
        = Some (JBool true))
  /\ filter (fun x => negb (order_editing_pin_of (current_user ctx) x)) (fst r)
     = filter (fun x => negb (order_editing_pin_of (current_user ctx) x)) pins.
Proof.
  intros Hrole Hb Hdb Hformat. cbv zeta.
  destruct (pin_format_nonempty _ Hformat) as [Hsome Hlen].
  set (p := strip (or_empty pin)) in *.
  assert (Hverify :
    forall pins',
      (exists rec,
         find (fun r => order_editing_pin_of (current_user ctx) r
                        && AdminPinCode.is_active r) pins' = Some rec
         /\ AdminPinCode.pin_code_hash rec = generate_password_hash W salt p
         /\ AdminPinCode.pin_code rec = Some p) ->
      forall ctx' typed,
        User.role (current_user ctx') = UserRole.CASHIER ->
        User.branch_id (current_user ctx') = Some b ->
        db_reachable ctx' = true ->
        strip (or_empty typed) = p ->
        field "success" (verify_admin_pin_for_editing W ctx' typed pins')
        = Some (JBool true)).
  { intros pins' (rec & Hfind & Hhash & Hplain) ctx' typed Hc Hb' Hdb' Htyped.
    unfold verify_admin_pin_for_editing, execute.
    rewrite Hc, Htyped, Hlen, Hdb'. simpl negb. cbv iota.
    assert (Hsame : forall r,
              order_editing_pin_of (current_user ctx') r
              = order_editing_pin_of (current_user ctx) r)
      by (intro r; unfold order_editing_pin_of; now rewrite Hb, Hb').
    rewrite (find_pointwise _
               (fun r => order_editing_pin_of (current_user ctx) r
                         && AdminPinCode.is_active r) pins')
      by (intro r; now rewrite Hsame).
    rewrite Hfind.
    now rewrite (admin_check_pin_after_set W salt p rec Hsome Hhash Hplain). }
  unfold save_pin_settings, execute. fold p.
  rewrite Hrole, Hformat, Hdb. simpl negb. cbv iota.
  destruct (find (order_editing_pin_of (current_user ctx)) pins) as [r0|]
    eqn:Efind.
  - simpl fst. simpl snd. split; [reflexivity|]. split.
    + apply Hverify.
      exists (activate_admin_pin (AdminPinCode.set_pin W salt p r0)).
      split; [|split; reflexivity].
      apply (find_update_first_found (order_editing_pin_of (current_user ctx)) _
               (fun r => activate_admin_pin (AdminPinCode.set_pin W salt p r))
               pins r0 Efind).
      * intros x Hx. apply andb_prop in Hx. exact (proj1 Hx).
      * apply find_some in Efind. destruct Efind as [_ Hown].
        unfold order_editing_pin_of in *. simpl. now rewrite Hown.
    + apply filter_update_first_others. intros x Hx. exact Hx.
  - rewrite Hb. simpl fst. simpl snd. split; [reflexivity|]. split.
    + apply Hverify.
      exists (AdminPinCode.mk None b (generate_password_hash W salt p)
                "order_editing" true (Some p)).
      split; [|split; reflexivity].
      apply find_app_new.
      * match goal with
        | |- find ?q pins = None =>
            destruct (find q pins) as [r1|] eqn:E1; [|reflexivity]
        end.
        apply find_some in E1. destruct E1 as [Hin Hr1].
        apply andb_prop in Hr1. destruct Hr1 as [Hr1 _].
        pose proof (find_none _ _ Efind r1 Hin) as Hno. congruence.
      * unfold order_editing_pin_of, col_eqb. rewrite Hb. simpl.
        now rewrite Z.eqb_refl.
    + rewrite filter_app. simpl.
      unfold order_editing_pin_of at 2, col_eqb. rewrite Hb. simpl.
      rewrite Z.eqb_refl. simpl. apply app_nil_r.
Qed.

(** The admin of branch 1 saves 2580; Alice opens the editor with it, and
    not with 1111. *)
Lemma saved_pin_opens_editing_witness :
  let ada := Sample.ctx (User.mk 9 "Ada" "Admin" UserRole.BRANCH_ADMIN (Some 1))
                        500 in
  let r := save_pin_settings SampleDigest.werkzeug "salt" ada (Some " 2580 ")
             [] in
  field "success"
    (verify_admin_pin_for_editing SampleDigest.werkzeug
       (Sample.ctx Sample.alice 1000) (Some "2580") (fst r))
  = Some (JBool true)
  /\ field "success"
       (verify_admin_pin_for_editing SampleDigest.werkzeug
          (Sample.ctx Sample.alice 1000) (Some "1111") (fst r))
     = Some (JBool false).
Proof.
  cbv zeta.
  destruct (saved_pin_opens_editing SampleDigest.werkzeug "salt"
              (Sample.ctx (User.mk 9 "Ada" "Admin" UserRole.BRANCH_ADMIN
                             (Some 1)) 500)
              1 (Some " 2580 ") [])
    as (_ & Hverify & _); try reflexivity.
  split; [apply Hverify; reflexivity | vm_compute; reflexivity].
Defined.

(** ** Card payments entered by hand *)

Lemma manual_total_app (a b : list ManualCardPayment.t) :
  ManualCardPayment.total (a ++ b)
  = ManualCardPayment.total a + ManualCardPayment.total b.
Proof.
  unfold ManualCardPayment.total.
  induction a as [|x a IH]; simpl; [reflexivity | rewrite IH; lia].
Qed.

Lemma manual_total_updated (p q : ManualCardPayment.t -> bool)
  (f : ManualCardPayment.t -> ManualCardPayment.t)
  (l : list ManualCardPayment.t) (e : ManualCardPayment.t) :
  find p l = Some e ->
  (forall x, q (f x) = q x) ->
  ManualCardPayment.total (filter q (update_first p f l))
  = ManualCardPayment.total (filter q l)
    + (if q e
       then ManualCardPayment.amount (f e) - ManualCardPayment.amount e
       else 0).
Proof.
  intros Hfind Hq. induction l as [|x l IH]; [discriminate|].
  simpl in *. destruct (p x).
  - injection Hfind as ->. simpl. rewrite Hq.
    destruct (q e); simpl; lia.
  - simpl. destruct (q x); simpl; rewrite (IH Hfind); lia.
Qed.

(** X26.  One entry per cashier and day, and the totals follow.  After
    [add_or_update_payment] the amount on record for the cashier and the
    day is the new one.  A first entry adds its amount to the total of its
    day and branch; a repeated entry replaces the amount, so that total
    changes by the difference; every other total of a day and branch is
    unchanged. *)
Theorem manual_card_payment_totals (now c b amount d : Z)
  (notes : option string) (table : list ManualCardPayment.t) :
  let table' :=
    ManualCardPayment.add_or_update_payment now c b amount (Some d) notes
      table in
  (exists e',
     ManualCardPayment.get_cashier_entry_for_date c d table' = Some e'
     /\ ManualCardPayment.amount e' = amount
     /\ ManualCardPayment.notes e' = notes)
  /\ (ManualCardPayment.get_cashier_entry_for_date c d table = None ->
      forall d' b',
        ManualCardPayment.get_total_for_date_and_branch d' b' table'
        = ManualCardPayment.get_total_for_date_and_branch d' b' table
          + (if (d =? d') && (b =? b') then amount else 0))
  /\ (forall e,
        ManualCardPayment.get_cashier_entry_for_date c d table = Some e ->
        forall d' b',
          ManualCardPayment.get_total_for_date_and_branch d' b' table'
          = ManualCardPayment.get_total_for_date_and_branch d' b' table
            + (if (d =? d') && (ManualCardPayment.branch_id e =? b')
               then amount - ManualCardPayment.amount e else 0)).
Proof.
  cbv zeta.
  unfold ManualCardPayment.add_or_update_payment,
    ManualCardPayment.get_cashier_entry_for_date,
    ManualCardPayment.get_total_for_date_and_branch.
  destruct (find _ table) as [e|] eqn:Efind.
  - split; [|split; [discriminate|]].
    + eexists. split; [|split].
      * rewrite find_update_first; [now rewrite Efind|].
        intros x Hx. exact Hx.
      * reflexivity.
      * reflexivity.
    + intros e0 He0 d' b'. injection He0 as <-.
      rewrite (manual_total_updated _ _ _ table e Efind);
        [|intro x; reflexivity].
      apply find_some in Efind. destruct Efind as [_ He].
      apply andb_prop in He. destruct He as [_ Hd]. apply Z.eqb_eq in Hd.
      simpl. now rewrite Hd.
  - split; [|split; [|discriminate]].
    + exists (ManualCardPayment.mk amount d now b c notes).
      split; [|split; reflexivity].
      apply find_app_new; [exact Efind|]. simpl. now rewrite !Z.eqb_refl.
    + intros _ d' b'. rewrite filter_app, manual_total_app. simpl.
      destruct ((d =? d') && (b =? b')); simpl; lia.
Qed.

(** Alice enters 120.00 and corrects it to 95.50; Bob enters 40.00: the
    branch has 135.50 for the day. *)
Lemma manual_card_payment_totals_witness :
  let t1 := ManualCardPayment.add_or_update_payment 100 1 1 12000 (Some 19000)
              None [] in
  let t2 := ManualCardPayment.add_or_update_payment 200 2 1 4000 (Some 19000)
              None t1 in
  let t3 := ManualCardPayment.add_or_update_payment 300 1 1 9550 (Some 19000)
              (Some "corrected") t2 in
  ManualCardPayment.get_total_for_date_and_branch 19000 1 t3 = 13550
  /\ List.length t3 = 2%nat.
Proof.
  cbv zeta.
  destruct (manual_card_payment_totals 300 1 1 9550 19000 (Some "corrected")
              (ManualCardPayment.add_or_update_payment 200 2 1 4000
                 (Some 19000) None
                 (ManualCardPayment.add_or_update_payment 100 1 1 12000
                    (Some 19000) None [])))
    as (_ & _ & Hagain).
  split; [|reflexivity].
  rewrite (Hagain (ManualCardPayment.mk 12000 19000 100 1 1 None) eq_refl).
  reflexivity.
Defined.

(** ** Adding items to an order *)






(** ** Paying a delegated order *)

Lemma count_update_first_loss {A : Type} (p q : A -> bool) (f : A -> A)
  (l : list A) (e : A) :
  find p l = Some e -> q e = true -> q (f e) = false ->
  count q (update_first p f l) = count q l - 1.
Proof.
  intros Hfind Hq Hqf. induction l as [|x l IH]; [discriminate|].
  simpl in *. destruct (p x).
  - injection Hfind as ->. rewrite !count_cons, Hq, Hqf. lia.
  - rewrite !count_cons, (IH Hfind). lia.
Qed.

Lemma mark_order_paid_commits (ctx : Ctx) (db : DB) (o : Order.t) :
  may_mark_paid (User.role (current_user ctx)) = true ->
  db_reachable ctx = true ->
  Order_get db (Order.id o) = Some o ->
  User.branch_id (current_user ctx) = Some (Order.branch_id o) ->
  Order.status o <> OrderStatus.PAID ->
  fst (mark_order_paid ctx (Order.id o) db)
  = Order_update (Order.id o) (Order.set_paid (utcnow ctx)) db
  /\ field "success" (snd (mark_order_paid ctx (Order.id o) db))
     = Some (JBool true).
Proof.
  intros Hrole Hdb Hget Hbranch Hstatus.
  unfold mark_order_paid, mark_order_paid_try, execute.
  rewrite Hrole, Hdb; simpl. rewrite Hget; simpl.
  rewrite Hbranch; simpl. rewrite Z.eqb_refl, andb_false_r.
  destruct (OrderStatus.eqb (Order.status o) OrderStatus.PAID) eqn:E.
  - apply OrderStatus_eqb_eq in E. contradiction.
  - simpl. split; reflexivity.
Qed.

(** X28.  Paying discharges.  A cashier marks an unpaid delegated order of
    their own as paid: the request succeeds, the cashier has one unpaid
    delegated order fewer, the order moves from the pending to the paid
    view of the waiter requests (unless it was cleared), and if it was the
    last one the report may be generated. *)
Theorem paying_discharges (ctx : Ctx) (db : DB) (o : Order.t) :
  orders_keyed db ->
  In o (orders db) ->
  User.role (current_user ctx) = UserRole.CASHIER ->
  db_reachable ctx = true ->
  User.branch_id (current_user ctx) = Some (Order.branch_id o) ->
  unpaid_waiter_order (User.id (current_user ctx)) o = true ->
  let r := mark_order_paid ctx (Order.id o) db in
  let c := User.id (current_user ctx) in
  let paid := Order.set_paid (utcnow ctx) o in
  field "success" (snd r) = Some (JBool true)
  /\ count (unpaid_waiter_order c) (orders (fst r))
     = count (unpaid_waiter_order c) (orders db) - 1
  /\ (Order.cleared_from_waiter_requests o = false ->
      exists before after,
        waiter_requests ctx "pending" db = Some before /\ In o before
        /\ waiter_requests ctx "paid" (fst r) = Some after /\ In paid after)
  /\ (count (unpaid_waiter_order c) (orders db) = 1 ->
      field "can_generate_report"
        (check_report_generation_permission ctx (fst r)) = Some (JBool true)).
Proof.
  intros Hkey Hin Hrole Hdb Hbranch Hunpaid. cbv zeta.
  pose proof (find_by_key (orders db) o Hkey Hin) as Hget.
  pose proof Hunpaid as Hparts. unfold unpaid_waiter_order in Hparts.
  apply andb_prop in Hparts. destruct Hparts as [Hparts Hpending].
  apply andb_prop in Hparts. destruct Hparts as [Hassigned Htag].
  apply OrderStatus_eqb_eq in Hpending.
  assert (Hmay : may_mark_paid (User.role (current_user ctx)) = true)
    by now rewrite Hrole.
  assert (Hnot : Order.status o <> OrderStatus.PAID)
    by (rewrite Hpending; discriminate).
  destruct (mark_order_paid_commits ctx db o Hmay Hdb Hget Hbranch Hnot)
    as [Hfst Hok].
  rewrite Hfst. unfold Order_update. simpl orders.
  assert (Hcount :
    count (unpaid_waiter_order (User.id (current_user ctx)))
          (update_first (fun x => Order.id x =? Order.id o)
                        (Order.set_paid (utcnow ctx)) (orders db))
    = count (unpaid_waiter_order (User.id (current_user ctx))) (orders db) - 1).
  { apply (count_update_first_loss _ _ _ _ o Hget Hunpaid).
    unfold unpaid_waiter_order. simpl. apply andb_false_r. }
  split; [exact Hok|]. split; [exact Hcount|]. split.
  - intro Hshown. unfold waiter_requests.
    rewrite Hrole. simpl negb. cbv iota.
    eexists. eexists. split; [reflexivity|]. split; [|split; [reflexivity|]].
    + apply filter_In. split; [exact Hin|].
      unfold waiter_orders_filter, status_filter_matches.
      rewrite Hrole, Hassigned, Htag, Hshown, Hpending. reflexivity.
    + apply filter_In. split.
      * simpl orders. clear - Hget.
        induction (orders db) as [|x l IH]; [discriminate|].
        simpl in *. destruct (Order.id x =? Order.id o).
        -- injection Hget as ->. now left.
        -- right. now apply IH.
      * unfold waiter_orders_filter, status_filter_matches,
          notes_like_waiter_order in *.
        rewrite Hrole. simpl. now rewrite Hassigned, Htag, Hshown.
  - intro Hone. unfold check_report_generation_permission, execute.
    rewrite Hrole, Hdb. simpl orders. rewrite Hcount, Hone. reflexivity.
Qed.

(** Alice takes the payments of orders 10 and 11, and may then have her
    report. *)
Lemma paying_discharges_witness :
  let alice := Sample.ctx Sample.alice 1000 in
  let db1 := fst (mark_order_paid alice 10 Sample.db) in
  let db2 := fst (mark_order_paid alice 11 db1) in
  count (unpaid_waiter_order 1) (orders db1) = 1
  /\ field "can_generate_report" (check_report_generation_permission alice db2)
     = Some (JBool true).
Proof.
  cbv zeta.
  assert (Hkey : orders_keyed Sample.db).
  { unfold orders_keyed. simpl.
    repeat (constructor; [simpl; lia|]). constructor. }
  destruct (paying_discharges (Sample.ctx Sample.alice 1000) Sample.db
              (Sample.order 10 OrderStatus.PENDING ServiceType.ON_TABLE None
                 Sample.tagged 100 (Some 1) 3) Hkey)
    as (_ & Hcount & _); try reflexivity; [now left|].
  split; [etransitivity; [exact Hcount | reflexivity]|].
  assert (Hkey1 : orders_keyed (fst (mark_order_paid
                    (Sample.ctx Sample.alice 1000) 10 Sample.db))).
  { unfold orders_keyed. vm_compute.
    repeat (constructor; [simpl; lia|]). constructor. }
  assert (Hin : In (Sample.order 11 OrderStatus.PENDING ServiceType.ON_TABLE
                      None Sample.tagged 200 (Some 1) 3)
                   (orders (fst (mark_order_paid
                                   (Sample.ctx Sample.alice 1000) 10
                                   Sample.db))))
    by (vm_compute; right; now left).
  destruct (paying_discharges (Sample.ctx Sample.alice 1000) _ _ Hkey1 Hin
              eq_refl eq_refl eq_refl eq_refl)
    as (_ & _ & _ & Hreport).
  apply Hreport. vm_compute. reflexivity.
Defined.

(** ** Edits are soft *)

Lemma update_where_projection {A K : Type} (key : A -> K) (p : A -> bool)
  (f : A -> A) (l : list A) :
  (forall x, key (f x) = key x) ->
  map key (update_where p f l) = map key l.
Proof.
  intro Hkey. unfold update_where. rewrite map_map. apply map_ext.
  intro x. destruct (p x); [apply Hkey | reflexivity].
Qed.

Lemma edit_step_soft (oid : Z) (E : list Z) (st st' : EditState)
  (item_data : EditItem.t) :
  edit_step oid E st item_data = Ok st' ->
  (exists added,
     map item_key (st_items st') = (map item_key (st_items st) ++ added)%list)
  /\ filter (of_other_order oid) (st_items st')
     = filter (of_other_order oid) (st_items st).
Proof.
  unfold edit_step. fold (edited_id E item_data).
  destruct (edited_id E item_data) as [i|].
  - destruct (EditItem.quantity item_data) as [q|]; simpl; [|discriminate].
    destruct (EditItem.unit_price item_data) as [up|]; simpl; [|discriminate].
    destruct (EditItem.total_price item_data) as [tp|]; simpl; [|discriminate].
    destruct (item_notes item_data) as [notes|e]; simpl; [|discriminate].
    intro H. injection H as <-. simpl. split.
    + exists []. rewrite app_nil_r.
      apply update_where_projection. reflexivity.
    + apply filter_update_where. intros it Hit.
      apply andb_prop in Hit. destruct Hit as [Hit _].
      unfold of_other_order. simpl. now rewrite Hit.
  - destruct (EditItem.is_new item_data && negb (EditItem.is_deleted item_data)).
    2:{ intro H. injection H as <-. split; [|reflexivity].
        exists []. now rewrite app_nil_r. }
    destruct (item_notes item_data) as [notes|e]; simpl; [|discriminate].
    destruct (EditItem.menu_item_id item_data) as [mi|]; simpl; [|discriminate].
    destruct (EditItem.quantity item_data) as [q|]; simpl; [|discriminate].
    destruct (EditItem.unit_price item_data) as [up|]; simpl; [|discriminate].
    destruct (EditItem.total_price item_data) as [tp|]; simpl; [|discriminate].
    intro H. injection H as <-. simpl. split.
    + eexists. rewrite map_app. reflexivity.
    + rewrite filter_app. simpl. unfold of_other_order at 2. simpl.
      rewrite Z.eqb_refl. simpl. apply app_nil_r.
Qed.

Lemma edit_loop_soft (oid : Z) (E : list Z) (items : list EditItem.t)
  (st st' : EditState) :
  edit_loop oid E st items = Ok st' ->
  (exists added,
     map item_key (st_items st') = (map item_key (st_items st) ++ added)%list)
  /\ filter (of_other_order oid) (st_items st')
     = filter (of_other_order oid) (st_items st).
Proof.
  revert st. induction items as [|d rest IH]; simpl; intros st Hloop.
  - injection Hloop as <-. split; [|reflexivity].
    exists []. now rewrite app_nil_r.
  - destruct (edit_step oid E st d) as [st1|e] eqn:Estep; simpl in Hloop;
      [|discriminate].
    destruct (edit_step_soft oid E st st1 d Estep) as [[a1 H1] F1].
    destruct (IH st1 Hloop) as [[a2 H2] F2].
    split; [|congruence].
    exists (a1 ++ a2)%list. rewrite H2, H1. now rewrite app_assoc.
Qed.

(** X29.  Edits are soft, whatever the request.  [save_order_changes]
    removes no row: the item rows that were there are still there, in
    their places, with their keys, orders and menu items (rows are only
    flagged as deleted or appended); the items of the other orders are
    exactly what they were, and so are the other orders; no order is added
    or removed. *)
Theorem save_order_changes_is_soft (ctx : Ctx) (data : EditRequest) (db : DB) :
  let db' := fst (save_order_changes ctx data db) in
  (exists added,
     map item_key (order_items db')
     = (map item_key (order_items db) ++ added)%list)
  /\ map Order.id (orders db') = map Order.id (orders db)
  /\ (forall oid,
        edit_order_id data = Some oid ->
        filter (of_other_order oid) (order_items db')
        = filter (of_other_order oid) (order_items db)
        /\ filter (fun o => negb (Order.id o =? oid)) (orders db')
           = filter (fun o => negb (Order.id o =? oid)) (orders db)).
Proof.
  cbv zeta.
  destruct (success_or_not (snd (save_order_changes ctx data db))) as [Hok|Hno].
  2:{ rewrite (save_order_changes_refusal ctx data db Hno).
      split; [exists []; now rewrite app_nil_r|]. now split. }
  destruct (save_order_changes_commits ctx data db Hok) as (o & st & H).
  cbv zeta in H. destruct H as (Hoid & _ & Hloop & Horders & Hrows & _).
  unfold edit_items_of in Hloop.
  destruct (edit_loop_soft _ _ _ _ _ Hloop) as [[added Hadded] Hothers].
  simpl st_items in Hadded, Hothers.
  rewrite Hrows, Horders. split; [|split].
  - exists added. rewrite update_where_projection; [exact Hadded|].
    reflexivity.
  - apply update_first_projection. reflexivity.
  - intros oid Hoid'. rewrite Hoid in Hoid'. injection Hoid' as <-. split.
    + rewrite filter_update_where; [exact Hothers|].
      intros it Hit. apply andb_prop in Hit. destruct Hit as [Hit _].
      apply andb_prop in Hit. destruct Hit as [Hit _].
      unfold of_other_order. simpl. now rewrite Hit.
    + apply filter_update_first_others. intros x Hx. exact Hx.
Qed.

(** Alice saves Walt's order without its one item: the row is still there,
    flagged as deleted, and the order is worth nothing. *)
Lemma save_order_changes_is_soft_witness :
  let r := save_order_changes (Sample.ctx Sample.alice 2000)
             (mkEditRequest (Some 1) [] 1000) lunch_db in
  map Order.id (orders (fst r)) = map Order.id (orders lunch_db)
  /\ map item_key (order_items (fst r)) = [(1, 1, 1)]
  /\ map OrderItem.is_deleted (order_items (fst r)) = [true]
  /\ field "new_total" (snd r) = Some (JInt 0).
Proof.
  cbv zeta.
  destruct (save_order_changes_is_soft (Sample.ctx Sample.alice 2000)
              (mkEditRequest (Some 1) [] 1000) lunch_db)
    as (_ & Hsame & _).
  split; [exact Hsame|].
  split; [vm_compute; reflexivity|].
  split; vm_compute; reflexivity.
Defined.

(** ** A disabled PIN and the waiters *)

Lemma disable_pin_commits (W : Werkzeug) (ctx : Ctx) (data : PinRequest)
  (pins : list CashierPin.t) :
  field "success" (snd (cashier_views.disable_pin W ctx data pins))
  = Some (JBool true) ->
  exists b r0,
    User.branch_id (current_user ctx) = Some b
    /\ find (own_pin (current_user ctx)) pins = Some r0
    /\ fst (cashier_views.disable_pin W ctx data pins)
       = update_first (own_pin (current_user ctx)) deactivate pins.
Proof.
  unfold cashier_views.disable_pin, execute.
  destruct (negb (UserRole.eqb (User.role (current_user ctx)) UserRole.CASHIER));
    [discriminate|].
  destruct (negb (pin_format_ok (strip (or_empty (current_pin data)))));
    [discriminate|].
  destruct (db_reachable ctx); [|discriminate].
  destruct (verify_own_pin W (current_user ctx) pins _) eqn:Everify;
    [|discriminate].
  destruct (find (own_pin (current_user ctx)) pins) as [r0|] eqn:Efind;
    [|discriminate].
  intros _.
  destruct (verified_pin_record W _ _ _ Everify) as (b & _ & Hb & _).
  exists b, r0. repeat split. exact Hb.
Qed.

Lemma deactivated_pin_rejects (W : Werkzeug) (user : User.t) (b : Z)
  (pins : list CashierPin.t) (r0 : CashierPin.t) (pin : string) :
  pins_keyed pins ->
  User.branch_id user = Some b ->
  find (own_pin user) pins = Some r0 ->
  CashierPin.verify_cashier_pin W (update_first (own_pin user) deactivate pins)
    (User.id user) b pin = false.
Proof.
  intros Hkey Hb Efind. unfold CashierPin.verify_cashier_pin.
  match goal with
  | |- match find ?q ?l with _ => _ end = false =>
      destruct (find q l) as [x|] eqn:Ex; [|reflexivity]
  end.
  exfalso. apply find_some in Ex. destruct Ex as [Hin Hx].
  apply andb_prop in Hx. destruct Hx as [Hown Hactive].
  rewrite <- (own_pin_branch _ b x Hb) in Hown.
  assert (Hkey' : pins_keyed (update_first (own_pin user) deactivate pins)).
  { unfold pins_keyed.
    rewrite update_first_projection; [exact Hkey | reflexivity]. }
  assert (Hfirst : find (own_pin user)
                     (update_first (own_pin user) deactivate pins)
                   = Some (deactivate r0)).
  { rewrite find_update_first; [now rewrite Efind|].
    intros y Hy. exact Hy. }
  rewrite (first_own_pin_only _ _ _ x Hkey' Hfirst Hin Hown) in Hactive.
  discriminate.
Qed.

Lemma users_keyed_same (db : DB) (u v : User.t) :
  users_keyed db -> In u (users db) -> In v (users db) ->
  User.id u = User.id v -> u = v.
Proof.
  intros Hkey Hu Hv Hid.
  pose proof (find_keyed User.id _ u Hkey Hu) as Fu.
  pose proof (find_keyed User.id _ v Hkey Hv) as Fv.
  rewrite Hid in Fu. congruence.
Qed.

(** X30.  A cashier who has disabled the PIN cannot be chosen.  With one
    PIN record per cashier and branch and distinct user keys: after a
    cashier's successful [disable_pin], every request of a waiter to
    [assign_cashier_to_waiter] that names this cashier is refused, whatever
    PIN it carries, and changes nothing. *)
Theorem disabled_pin_blocks_assignment (W : Werkzeug) (ctx : Ctx)
  (data : PinRequest) (desk : Desk) :
  pins_keyed (cashier_pins desk) ->
  users_keyed (desk_db desk) ->
  In (current_user ctx) (users (desk_db desk)) ->
  field "success" (snd (cashier_views.disable_pin W ctx data (cashier_pins desk)))
  = Some (JBool true) ->
  let desk' :=
    mkDesk (desk_db desk) (users_is_active desk)
           (fst (cashier_views.disable_pin W ctx data (cashier_pins desk))) in
  forall ctx_w request,
    assign_cashier_id request = Some (User.id (current_user ctx)) ->
    fst (assign_cashier_to_waiter W ctx_w request desk') = desk'
    /\ field "success" (snd (assign_cashier_to_waiter W ctx_w request desk'))
       = Some (JBool false).
Proof.
  intros Hkey Husers Hme Hok. cbv zeta.
  destruct (disable_pin_commits W ctx data _ Hok) as (b & r0 & Hb & Hfind & ->).
  intros ctx_w request Hcid.
  unfold assign_cashier_to_waiter, execute. rewrite Hcid. simpl desk_db.
  simpl cashier_pins.
  destruct (negb (UserRole.eqb (User.role (current_user ctx_w)) UserRole.WAITER));
    [now split|].
  destruct (User.id (current_user ctx) =? 0); [now split|].
  destruct (negb (pin_format_ok _)); [now split|].
  destruct (db_reachable ctx_w); [|now split].
  destruct (find _ (users (desk_db desk))) as [cashier|] eqn:Efind;
    [|now split].
  destruct (User.branch_id (current_user ctx_w)) as [bw|] eqn:Hbw;
    [|now split].
  apply find_some in Efind. destruct Efind as [Hin Hsel].
  apply andb_prop in Hsel. destruct Hsel as [Hid Hsel].
  apply Z.eqb_eq in Hid.
  rewrite (users_keyed_same _ cashier (current_user ctx) Husers Hin Hme Hid)
    in Hsel.
  unfold selectable_cashier in Hsel. simpl in Hsel. rewrite Hbw, Hb in Hsel.
  apply andb_prop in Hsel. destruct Hsel as [Hsel _].
  apply andb_prop in Hsel. destruct Hsel as [Hsame _].
  simpl in Hsame. apply Z.eqb_eq in Hsame. subst bw.
  rewrite (deactivated_pin_rejects W (current_user ctx) b _ r0 _ Hkey Hb Hfind).
  now split.
Qed.

(** Bob disables his PIN; Wendy can no longer pick him, not even with the
    PIN that was his. *)
Lemma disabled_pin_blocks_assignment_witness :
  let d := cashier_views.disable_pin SampleDigest.werkzeug
             (Sample.ctx Sample.bob 500) (mkPinRequest (Some "0000") None None)
             (cashier_pins sample_desk) in
  let desk' := mkDesk Sample.db (fun _ => true) (fst d) in
  field "success" (snd d) = Some (JBool true)
  /\ field "success"
       (snd (assign_cashier_to_waiter SampleDigest.werkzeug
               (Sample.ctx Sample.wendy 1000)
               (mkAssignRequest (Some 2) (Some "0000")) desk'))
     = Some (JBool false).
Proof.
  cbv zeta. split; [reflexivity|].
  apply (disabled_pin_blocks_assignment SampleDigest.werkzeug
           (Sample.ctx Sample.bob 500) (mkPinRequest (Some "0000") None None)
           sample_desk).
  - unfold pins_keyed. simpl. repeat constructor; simpl; [|intros []].
    intros [H|[]]. discriminate H.
  - unfold users_keyed. simpl.
    repeat (constructor; [simpl; lia|]). constructor.
  - simpl. right. now left.
  - reflexivity.
  - reflexivity.
Defined.
